(** * webAppTrafo: the insulation-resistance form of [trafoAppB1.py]

    A shallow embedding of the pure parts of [trafoAppB1.py]: the
    temperature correction lookup [obtener_valor_por_temperatura], the
    recursive upper-casing helper [convertir_a_mayusculas] and the
    arithmetic of step 4 of the form (referred resistances, expected
    values and the "Cumple" / "No Cumple" labels); and of the script
    around them: the session of the wizard with its navigation and the
    assignments of the steps 1 to 4, and the context, the images, the
    map and the document of step 5, with the calls into streamlit,
    docxtpl and the map libraries taken as given.

    Python values are modelled as the interpreter has them:
    - [float] is IEEE-754 binary64, here [spec_float] with the operations
      of the Standard Library's [SpecFloat] at precision 53 and maximal
      exponent 1024 (round to nearest, ties to even);
    - [int] is [Z];
    - [str] is [string]; the only letters that matter for the comparisons
      of the program are ASCII, and no other code point lower-cases to one
      of the letters of "aceite" or "seco";
    - an exception is a value of [exn], and a computation that may raise
      returns a [result]. *)

From Stdlib Require Import ZArith List String Ascii Bool Lia Sorted.
From Stdlib Require Import SpecFloat.
Import ListNotations.

Open Scope string_scope.
Open Scope list_scope.
Open Scope Z_scope.

(** ** Exceptions and the error monad *)

(** The keys of a dictionary ([KeyError] carries one). Those of the
    program are [str]; [int] keys are kept to show that the traversal of
    [convertir_a_mayusculas] leaves any key alone. *)
Inductive pykey : Type :=
| KStr (s : string)
| KInt (n : Z).

Coercion KStr : string >-> pykey.

Inductive exn : Type :=
| ValueError (msg : string)
| IndexError (msg : string)
| KeyError (key : pykey)
| TypeError (msg : string)
| AttributeError (msg : string)
| OverflowError (msg : string).

Inductive result (A : Type) : Type :=
| Ok (a : A)
| Raise (e : exn).

Arguments Ok {A} a.
Arguments Raise {A} e.

Definition bind {A B : Type} (c : result A) (k : A -> result B) : result B :=
  match c with
  | Ok a => k a
  | Raise e => Raise e
  end.

Declare Scope py_scope.
Delimit Scope py_scope with py.
Notation "x <- c ;; k" := (bind c (fun x => k))
  (at level 61, c at next level, right associativity) : py_scope.
Open Scope py_scope.

Definition is_ok {A : Type} (c : result A) : bool :=
  match c with Ok _ => true | Raise _ => false end.

(** ** Python floats *)

Module PyFloat.

Definition prec : Z := 53.
Definition emax : Z := 1024.

Definition t : Type := spec_float.

(** [float(z)] for an [int] in the range of binary64. *)
Definition of_int (z : Z) : t := binary_normalize prec emax z 0 false.

(** The literal [n / 10^k] written in decimal, e.g. [0.125] is
    [dec 125 3]: numerator and denominator are exact in binary64 for
    every literal of the program, so the correctly rounded quotient is
    the value Python reads. *)
Definition dec (n : Z) (k : Z) : t :=
  SFdiv prec emax (of_int n) (of_int (10 ^ k)).

Definition sub : t -> t -> t := SFsub prec emax.
Definition mul : t -> t -> t := SFmul prec emax.
Definition abs : t -> t := SFabs.
Definition ltb : t -> t -> bool := SFltb.
Definition leb : t -> t -> bool := SFleb.
Definition eqb : t -> t -> bool := SFeqb.

Definition inf : t := S754_infinity false.
Definition nan : t := S754_nan.

(** [i - x] with [i] an [int]: the interpreter converts [i] first. *)
Definition int_sub (i : Z) (x : t) : t := sub (of_int i) x.

(** [x >= i] with [i] an [int] that binary64 represents exactly. *)
Definition ge_int (x : t) (i : Z) : bool := leb (of_int i) x.

End PyFloat.

Definition pyfloat : Type := PyFloat.t.

(** The keys the search compares are absolute values: zeros, positive
    finite numbers and the positive infinity. *)
Definition no_negativo (x : pyfloat) : bool :=
  match x with
  | S754_zero _ => true
  | S754_infinity s => negb s
  | S754_finite s _ _ => negb s
  | S754_nan => false
  end.

(** On such floats [<] is the order of the class (zero, finite,
    infinite), then of the exponent, then of the mantissa. *)
Definition rango (x : pyfloat) : Z * Z * Z :=
  match x with
  | S754_zero _ => (0, 0, 0)
  | S754_finite _ m e => (1, e, Zpos m)
  | S754_infinity _ => (2, 0, 0)
  | S754_nan => (3, 0, 0)
  end.

Definition lex_lt (a b : Z * Z * Z) : Prop :=
  let '(a1, a2, a3) := a in
  let '(b1, b2, b3) := b in
  a1 < b1 \/ (a1 = b1 /\ (a2 < b2 \/ (a2 = b2 /\ a3 < b3))).

(** ** Python strings: [str.lower] *)

(** [str.lower] on the letters A to Z; a string is its UTF-8 bytes, and
    a byte outside A to Z is left as it is. Against the literals
    "aceite" and "seco" this decides as the interpreter does: a string
    that holds any other byte lower-cases to neither of them. *)
Definition lower_ascii (c : ascii) : ascii :=
  let n := N_of_ascii c in
  if ((65 <=? n) && (n <=? 90))%N then ascii_of_N (n + 32) else c.

Fixpoint lower (s : string) : string :=
  match s with
  | EmptyString => EmptyString
  | String c s' => String (lower_ascii c) (lower s')
  end.

(** ** Python sequences: [range], indexing, [min] with a key *)

(** [list(range(start, stop, step))] for a positive [step]. *)
Definition py_range (start stop step : Z) : list Z :=
  map (fun k => start + step * Z.of_nat k)
      (seq 0 (Z.to_nat ((stop - start + step - 1) / step))).

(** [range(len(l))]. *)
Definition range_len {A : Type} (l : list A) : list nat :=
  seq 0 (List.length l).

(** [l[i]] for an index that is not negative. *)
Definition getitem {A : Type} (l : list A) (i : nat) : result A :=
  match nth_error l i with
  | Some a => Ok a
  | None => Raise (IndexError "list index out of range")
  end.

(** The loop of [min(iterable, key=...)]: the candidate is replaced only
    when the key of the new item is strictly smaller. *)
Fixpoint min_loop {A : Type} (key : A -> result pyfloat)
    (best : A) (kbest : pyfloat) (l : list A) : result A :=
  match l with
  | [] => Ok best
  | x :: l' =>
      kx <- key x ;;
      if PyFloat.ltb kx kbest then min_loop key x kx l'
      else min_loop key best kbest l'
  end.

Definition py_min {A : Type} (l : list A) (key : A -> result pyfloat)
    : result A :=
  match l with
  | [] => Raise (ValueError "min() arg is an empty sequence")
  | x :: l' => kx <- key x ;; min_loop key x kx l'
  end.

(** ** The temperature correction lookup *)

Definition temperaturas : list Z := py_range (-10) 115 5.

Definition valores_aceite : list pyfloat :=
  map (fun '(n, k) => PyFloat.dec n k)
    [ (125, 3); (180, 3); (25, 2); (36, 2); (50, 2); (75, 2); (100, 2);
      (140, 2); (198, 2); (280, 2);
      (395, 2); (560, 2); (785, 2); (1120, 2); (1585, 2); (2240, 2);
      (3175, 2); (4470, 2); (6350, 2);
      (89789, 3); (12700, 2); (18000, 2); (25400, 2); (35915, 2);
      (50900, 2) ].

Definition valores_seco : list pyfloat :=
  map (fun '(n, k) => PyFloat.dec n k)
    [ (25, 2); (32, 2); (40, 2); (50, 2); (63, 2); (81, 2); (100, 2);
      (125, 2); (158, 2); (200, 2);
      (250, 2); (315, 2); (398, 2); (500, 2); (630, 2); (790, 2);
      (1000, 2); (1260, 2); (1580, 2);
      (2000, 2); (2520, 2); (3160, 2); (4000, 2); (5040, 2); (6320, 2) ].

Definition msg_tipo_no_valido : string :=
  "Tipo de aislamiento no válido. Use 'Aceite' o 'Seco'.".

(** The [if] / [elif] / [else] that selects the list of values. *)
Definition seleccionar_valores (tipo_aislamiento : string)
    : result (list pyfloat) :=
  if String.eqb (lower tipo_aislamiento) "aceite" then Ok valores_aceite
  else if String.eqb (lower tipo_aislamiento) "seco" then Ok valores_seco
  else Raise (ValueError msg_tipo_no_valido).

(** The key of the [min]: [abs(temperaturas[i] - temperatura_prueba)]. *)
Definition distancia (temperatura_prueba : pyfloat) (i : nat)
    : result pyfloat :=
  ti <- getitem temperaturas i ;;
  Ok (PyFloat.abs (PyFloat.int_sub ti temperatura_prueba)).

Definition indice_cercano (temperatura_prueba : pyfloat) : result nat :=
  py_min (range_len temperaturas) (distancia temperatura_prueba).

Definition obtener_valor_por_temperatura
    (temperatura_prueba : pyfloat) (tipo_aislamiento : string)
    : result pyfloat :=
  valores <- seleccionar_valores tipo_aislamiento ;;
  i <- indice_cercano temperatura_prueba ;;
  getitem valores i.

(** A kind of insulation the lookup accepts: the argument lower-cases to
    one of the two names. *)
Inductive tipo_valido (tipo_aislamiento : string) : Prop :=
| tipo_aceite : lower tipo_aislamiento = "aceite" -> tipo_valido tipo_aislamiento
| tipo_seco : lower tipo_aislamiento = "seco" -> tipo_valido tipo_aislamiento.

(** The middle of two consecutive sample points, [(a + b) / 2]. *)
Definition punto_medio (a b : Z) : pyfloat :=
  SFdiv PyFloat.prec PyFloat.emax (PyFloat.of_int (a + b)) (PyFloat.of_int 2).

(** ** Python values *)

#[warnings="-register-all"]
Inductive pyval : Type :=
| VNone
| VBool (b : bool)
| VInt (n : Z)
| VFloat (x : pyfloat)
| VStr (s : string)
| VDict (items : list (pykey * pyval))
| VList (elems : list pyval)
| VTuple (elems : list pyval)
| VOther (repr : string).

Definition dict : Type := list (pykey * pyval).

Definition key_eqb (a b : pykey) : bool :=
  match a, b with
  | KStr s, KStr s' => String.eqb s s'
  | KInt n, KInt n' => Z.eqb n n'
  | _, _ => false
  end.

(** [d[k] = v]: the value of an existing key is replaced in place, a new
    key goes last (dictionaries keep the order of insertion). *)
Fixpoint dict_set (d : dict) (k : pykey) (v : pyval) : dict :=
  match d with
  | [] => [(k, v)]
  | (k', v') :: d' =>
      if key_eqb k' k then (k', v) :: d' else (k', v') :: dict_set d' k v
  end.

Fixpoint dict_get (d : dict) (k : pykey) : option pyval :=
  match d with
  | [] => None
  | (k', v') :: d' => if key_eqb k' k then Some v' else dict_get d' k
  end.

(** [d[k]] *)
Definition dict_getitem (d : dict) (k : pykey) : result pyval :=
  match dict_get d k with
  | Some v => Ok v
  | None => Raise (KeyError k)
  end.

(** [d.get(k, default)] *)
Definition dict_get_default (d : dict) (k : pykey) (default : pyval) : pyval :=
  match dict_get d k with
  | Some v => v
  | None => default
  end.

Fixpoint nodup_keys (ks : list pykey) : bool :=
  match ks with
  | [] => true
  | k :: ks' => negb (existsb (key_eqb k) ks') && nodup_keys ks'
  end.

(** The invariant of a Python value: no dictionary, at any depth, holds a
    key twice. *)
Fixpoint claves_unicas (v : pyval) : bool :=
  match v with
  | VDict items =>
      nodup_keys (map fst items)
      && forallb (fun kv => claves_unicas (snd kv)) items
  | VList l => forallb claves_unicas l
  | VTuple l => forallb claves_unicas l
  | _ => true
  end.

(** Every string of a value, in the order of the traversal. *)
Fixpoint cadenas (v : pyval) : list string :=
  match v with
  | VStr s => [s]
  | VDict items => flat_map (fun kv => cadenas (snd kv)) items
  | VList l => flat_map cadenas l
  | VTuple l => flat_map cadenas l
  | _ => []
  end.

(** The value with every string emptied: what is left is the kind of each
    container, its length and order, its keys, and every value that is not
    a string. *)
Fixpoint forma (v : pyval) : pyval :=
  match v with
  | VStr _ => VStr ""
  | VDict items => VDict (map (fun kv => (fst kv, forma (snd kv))) items)
  | VList l => VList (map forma l)
  | VTuple l => VTuple (map forma l)
  | other => other
  end.

(** ** [convertir_a_mayusculas] *)

Definition upper_ascii (c : ascii) : ascii :=
  let n := N_of_ascii c in
  if ((97 <=? n) && (n <=? 122))%N then ascii_of_N (n - 32) else c.

(** [str.upper] on ASCII text. *)
Fixpoint upper_ascii_str (s : string) : string :=
  match s with
  | EmptyString => EmptyString
  | String c s' => String (upper_ascii c) (upper_ascii_str s')
  end.

Section Mayusculas.

(** [str.upper] is the interpreter's; on text that is not ASCII it may
    change the length of a string, so the traversal is stated for any
    such function. *)
Variable upper : string -> string.

Fixpoint convertir_a_mayusculas (data : pyval) : pyval :=
  match data with
  | VStr s => VStr (upper s)
  | VDict items =>
      VDict (fold_left
               (fun d kv => dict_set d (fst kv) (convertir_a_mayusculas (snd kv)))
               items [])
  | VList l => VList (map convertir_a_mayusculas l)
  | VTuple l => VTuple (map convertir_a_mayusculas l)
  | other => other
  end.

End Mayusculas.

(** ** Step 4 of the form: the table of insulation resistance *)

(** What the widgets of step 4 return in one run of the script. *)
Record widgets_paso4 : Type := {
  res_medida_avst : pyfloat;        (* number_input, three phases *)
  res_medida_avst_texto : string;   (* disabled text_input, one phase *)
  res_medida_avsb : pyfloat;
  res_medida_bvst : pyfloat;
  comentarios_prueba : string
}.

(** [v == s] for a [str] literal [s]. *)
Definition py_eq_str (v : pyval) (s : string) : bool :=
  match v with
  | VStr s' => String.eqb s' s
  | _ => false
  end.

(** [v == n] for an [int] literal [n]. *)
Definition py_eq_int (v : pyval) (n : Z) : bool :=
  match v with
  | VInt m => Z.eqb m n
  | VBool b => Z.eqb (if b then 1 else 0) n
  | VFloat x => PyFloat.eqb x (PyFloat.of_int n)
  | _ => false
  end.

(** [a * x] with [x] a [float]. *)
Definition py_mul_float (a : pyval) (x : pyfloat) : result pyval :=
  match a with
  | VFloat y => Ok (VFloat (PyFloat.mul y x))
  | VInt n => Ok (VFloat (PyFloat.mul (PyFloat.of_int n) x))
  | _ => Raise (TypeError "unsupported operand type(s) for *")
  end.

(** [a >= b] as step 4 uses it: a [float] against an [int]. *)
Definition py_ge (a b : pyval) : result bool :=
  match a, b with
  | VFloat x, VInt n => Ok (PyFloat.ge_int x n)
  | VFloat x, VFloat y => Ok (PyFloat.leb y x)
  | VInt m, VInt n => Ok (Z.leb n m)
  | _, _ => Raise (TypeError "'>=' not supported between these instances")
  end.

(** The receiver of [.lower()] has to be a [str]. *)
Definition as_str (v : pyval) : result string :=
  match v with
  | VStr s => Ok s
  | _ => Raise (AttributeError "object has no attribute 'lower'")
  end.

Section Paso4.

(** [float(s)] for a [str]: the interpreter's parser. *)
Variable float_of_str : string -> result pyfloat.

(** [float(v)] *)
Definition py_float (v : pyval) : result pyfloat :=
  match v with
  | VFloat x => Ok x
  | VInt n =>
      match PyFloat.of_int n with
      | S754_infinity _ => Raise (OverflowError "int too large to convert to float")
      | x => Ok x
      end
  | VBool b => Ok (PyFloat.of_int (if b then 1 else 0))
  | VStr s => float_of_str s
  | _ => Raise (TypeError "float() argument must be a string or a real number")
  end.

(** [obtener_valor_por_temperatura(
       temperatura_prueba=float(data.get('temperaturaPrueba', 0)),
       tipo_aislamiento=data.get('tipoAislamiento', 'NA'))] *)
Definition factor_de_correccion (data : dict) : result pyfloat :=
  t <- py_float (dict_get_default data "temperaturaPrueba" (VInt 0)) ;;
  tipo <- as_str (dict_get_default data "tipoAislamiento" (VStr "NA")) ;;
  obtener_valor_por_temperatura t tipo.

(** [data[referida] = data[medida] * obtener_valor_por_temperatura(...)] *)
Definition asignar_referida (data : dict) (medida referida : string)
    : result dict :=
  m <- dict_getitem data medida ;;
  f <- factor_de_correccion data ;;
  r <- py_mul_float m f ;;
  Ok (dict_set data referida r).

(** [data[esp] = oil if data['tipoAislamiento'] == "Aceite" else dry] *)
Definition asignar_esperada (data : dict) (esp : string) (oil dry : Z)
    : result dict :=
  tipo <- dict_getitem data "tipoAislamiento" ;;
  Ok (dict_set data esp (VInt (if py_eq_str tipo "Aceite" then oil else dry))).

(** [data[resultado] =
       'Cumple' if data[referida] >= data[esp] else 'No Cumple'] *)
Definition asignar_resultado (data : dict) (resultado referida esp : string)
    : result dict :=
  r <- dict_getitem data referida ;;
  e <- dict_getitem data esp ;;
  c <- py_ge r e ;;
  Ok (dict_set data resultado (VStr (if c then "Cumple" else "No Cumple"))).

(** The branch [if data['carTrafo_NroFases'] == 3:] *)
Definition paso4_trifasico (w : widgets_paso4) (data : dict) : result dict :=
  let data := dict_set data "resMedida_AVST" (VFloat (res_medida_avst w)) in
  data <- asignar_referida data "resMedida_AVST" "resReferida_AVST" ;;
  let data := dict_set data "resMedida_AVSB" (VFloat (res_medida_avsb w)) in
  data <- asignar_referida data "resMedida_AVSB" "resReferida_AVSB" ;;
  let data := dict_set data "resMedida_BVST" (VFloat (res_medida_bvst w)) in
  data <- asignar_referida data "resMedida_BVST" "resReferida_BVST" ;;
  data <- asignar_esperada data "resEsp_AVST" 5 25 ;;
  data <- asignar_esperada data "resEsp_AVSB" 5 25 ;;
  data <- asignar_esperada data "resEsp_BVST" 1 5 ;;
  data <- asignar_resultado data "resultado_AVST" "resReferida_AVST" "resEsp_AVST" ;;
  data <- asignar_resultado data "resultado_AVSB" "resReferida_AVSB" "resEsp_AVSB" ;;
  data <- asignar_resultado data "resultado_BVST" "resReferida_BVST" "resEsp_BVST" ;;
  Ok (dict_set data "comentariosPrueba" (VStr (comentarios_prueba w))).

(** The [else:] branch, for a transformer of one phase. *)
Definition paso4_monofasico (w : widgets_paso4) (data : dict) : result dict :=
  let data := dict_set data "resMedida_AVST" (VStr (res_medida_avst_texto w)) in
  let data := dict_set data "resReferida_AVST" (VStr "-") in
  let data := dict_set data "resMedida_AVSB" (VFloat (res_medida_avsb w)) in
  data <- asignar_referida data "resMedida_AVSB" "resReferida_AVSB" ;;
  let data := dict_set data "resMedida_BVST" (VFloat (res_medida_bvst w)) in
  data <- asignar_referida data "resMedida_BVST" "resReferida_BVST" ;;
  data <- asignar_esperada data "resEsp_AVST" 5 25 ;;
  data <- asignar_esperada data "resEsp_AVSB" 5 25 ;;
  data <- asignar_esperada data "resEsp_BVST" 1 5 ;;
  let data := dict_set data "resultado_AVST" (VStr "Cumple") in
  data <- asignar_resultado data "resultado_AVSB" "resReferida_AVSB" "resEsp_AVSB" ;;
  data <- asignar_resultado data "resultado_BVST" "resReferida_BVST" "resEsp_BVST" ;;
  Ok (dict_set data "comentariosPrueba" (VStr (comentarios_prueba w))).

(** The body of [elif st.session_state.step == 4:], up to the buttons. *)
Definition paso4 (w : widgets_paso4) (data : dict) : result dict :=
  fases <- dict_getitem data "carTrafo_NroFases" ;;
  if py_eq_int fases 3 then paso4_trifasico w data
  else paso4_monofasico w data.

End Paso4.

(** One row of the table of step 4 as [data] holds it: the referred
    resistance is the measured one times the correction factor, next to
    the expected value and the label their comparison gives. *)
Definition fila_conforme (data : dict) (medida factor : pyfloat) (umbral : Z)
    (referida esp resultado : string) : Prop :=
  dict_get data referida = Some (VFloat (PyFloat.mul medida factor)) /\
  dict_get data esp = Some (VInt umbral) /\
  dict_get data resultado
  = Some (VStr (if PyFloat.ge_int (PyFloat.mul medida factor) umbral
                then "Cumple" else "No Cumple")).

(** ** Sample inputs *)

Fixpoint digits_value (s : string) (acc : Z) : option Z :=
  match s with
  | EmptyString => Some acc
  | String c s' =>
      let n := Z.of_N (N_of_ascii c) in
      if ((48 <=? n) && (n <=? 57))%Z then digits_value s' (10 * acc + (n - 48))
      else None
  end.

(** [float(s)] restricted to the strings of decimal digits; every other
    string is refused here, which is less than the interpreter reads. *)
Definition float_of_digits (s : string) : result pyfloat :=
  match s with
  | EmptyString => Raise (ValueError "could not convert string to float")
  | _ =>
      match digits_value s 0 with
      | Some n => Ok (PyFloat.of_int n)
      | None => Raise (ValueError "could not convert string to float")
      end
  end.

(** The dictionary of the session after steps 1 to 3, cut down to the
    keys step 4 reads. *)
Definition datos_ejemplo (fases : Z) (tipo temperatura : string) : dict :=
  [ (KStr "tipoAislamiento", VStr tipo);
    (KStr "carTrafo_NroFases", VInt fases);
    (KStr "temperaturaPrueba", VStr temperatura) ].

Definition widgets_ejemplo : widgets_paso4 :=
  {| res_medida_avst := PyFloat.dec 1250 2;
     res_medida_avst_texto := "-";
     res_medida_avsb := PyFloat.dec 499 2;
     res_medida_bvst := PyFloat.dec 80 2;
     comentarios_prueba := "sin novedad" |}.

Definition valor_ejemplo : pyval :=
  VDict
    [ (KStr "nombreProyecto", VStr "Subestacion norte");
      (KInt 7, VList [VStr "a"; VInt 3; VTuple [VStr "b1"; VNone]]);
      (KStr "resReferida_AVST", VFloat (PyFloat.dec 1250 2));
      (KStr "fechaCreacionSinFormato", VOther "datetime.date(2025, 1, 31)") ].

(** ** Finite and other floats *)

(** [math.isfinite(x)]: neither an infinity nor a NaN. *)
Definition es_finito (x : pyfloat) : bool :=
  match x with
  | S754_zero _ => true
  | S754_finite _ _ _ => true
  | _ => false
  end.

(** ** Step 5: the context of the template *)

(** [datos = convertir_a_mayusculas(st.session_state.data.copy())]: the
    conversion of a dictionary is a dictionary. *)
Definition datos_paso5 (upper : string -> string) (data : dict) : dict :=
  match convertir_a_mayusculas upper (VDict data) with
  | VDict datos => datos
  | _ => []
  end.

(** The keys step 4 assigns, in either branch. *)
Definition claves_paso4 : list string :=
  [ "resMedida_AVST"; "resReferida_AVST"; "resMedida_AVSB";
    "resReferida_AVSB"; "resMedida_BVST"; "resReferida_BVST";
    "resEsp_AVST"; "resEsp_AVSB"; "resEsp_BVST";
    "resultado_AVST"; "resultado_AVSB"; "resultado_BVST";
    "comentariosPrueba" ].

(** One row of the table as the context of the template holds it: the
    numbers as step 4 left them, the label in upper case. *)
Definition fila_en_contexto (upper : string -> string) (datos : dict)
    (medida factor : pyfloat) (umbral : Z)
    (referida esp resultado : string) : Prop :=
  dict_get datos referida = Some (VFloat (PyFloat.mul medida factor)) /\
  dict_get datos esp = Some (VInt umbral) /\
  dict_get datos resultado
  = Some (VStr (upper (if PyFloat.ge_int (PyFloat.mul medida factor) umbral
                       then "Cumple" else "No Cumple"))).

(** ** The wizard: session, navigation and the steps 1 to 3 *)

(** What a handler asks of the framework: [st.rerun()], [st.error(msg)]
    or nothing. *)
Inductive efecto : Type :=
| Rerun
| StError (msg : string)
| Nada.

(** The options of the three select boxes. *)
Inductive coordenada : Type := Urbano | Rural.
Inductive transformador : Type := Trifasico | Monofasico.
Inductive aislamiento : Type := Aceite | Seco.

Definition coordenada_str (c : coordenada) : string :=
  match c with Urbano => "Urbano" | Rural => "Rural" end.

Definition transformador_str (t : transformador) : string :=
  match t with Trifasico => "Trifásico" | Monofasico => "Monofásico" end.

Definition aislamiento_str (a : aislamiento) : string :=
  match a with Aceite => "Aceite" | Seco => "Seco" end.

(** The button that was pressed in a run, if any. *)
Inductive clic : Type := Ninguno | Anterior | Siguiente.

(** [v is None or v == ""] *)
Definition es_vacio (v : pyval) : bool :=
  match v with
  | VNone => true
  | VStr EmptyString => true
  | _ => false
  end.

(** [[k for k, v in data.items() if v is None or v == ""]] *)
Definition missing (data : dict) : list pykey :=
  map fst (filter (fun kv => es_vacio (snd kv)) data).

Record widgets_paso1 : Type := {
  w_nombre_proyecto : string;
  w_ciudad : string;
  w_departamento : string;
  w_tipo_coordenada : coordenada;
  w_nombre : string;
  w_conte_tarjeta : string;
  w_cargo : string;
  w_fecha_creacion : pyval;         (* the date of st.date_input *)
  w_direccion : string
}.

Record widgets_paso2 : Type := {
  w_nro_transformador : string;
  w_capacidad_transformador : string;
  w_tipotrafo : transformador;
  w_tipoaislamiento : aislamiento;
  w_voltprimario : string;
  w_voltsecundario : string;
  w_latitud : string;
  w_longitud : string;
  w_fecha_calibracion : pyval
}.

Record widgets_paso3 : Type := {
  w_cartrafomarca : string;
  w_cartrafoserie : string;
  w_cartrafotipo : string;
  w_cartrafofechafabrisf : pyval;
  w_cartrafofrec : string;
  w_cartrafoconexion : string;
  w_cartrafomedioaisl : string;
  w_temperaturaprueba : string
}.

Record entradas : Type := {
  e_paso1 : widgets_paso1;
  e_paso2 : widgets_paso2;
  e_paso3 : widgets_paso3;
  e_paso4 : widgets_paso4
}.

(** What [DocxTemplate(path)] does: it returns the template, raises
    [FileNotFoundError], or raises something else. *)
Inductive carga (Doc : Type) : Type :=
| Cargada (doc : Doc)
| NoEncontrada
| OtraExcepcion (e : exn).

Arguments Cargada {Doc} doc.
Arguments NoEncontrada {Doc}.
Arguments OtraExcepcion {Doc} e.

(** ** Runs that raise: what stays in the session *)

(** A statement that assigns to [st.session_state.data]: it completes
    with the dictionary it leaves, or it raises while its right-hand
    side is evaluated, before anything is assigned. *)
Definition sentencia : Type := dict -> result dict.

(** [data[k] = v] for a value that is at hand. *)
Definition asignar (k : string) (v : pyval) : sentencia :=
  fun data => Ok (dict_set data k v).

(** A block of statements on the dictionary of the session, which is
    updated in place: when a statement raises, the block stops there and
    what the statements before it assigned stays in the session. *)
Fixpoint ejecutar (b : list sentencia) (data : dict) : dict * option exn :=
  match b with
  | [] => (data, None)
  | f :: b' =>
      match f data with
      | Ok data' => ejecutar b' data'
      | Raise e => (data, Some e)
      end
  end.

(** The keys each of the steps 1 to 3 assigns. *)
Definition claves_paso1 : list string :=
  [ "nombreProyecto"; "nombreCiudadoMunicipio"; "nombreDepartamento";
    "tipoCoordenada"; "nombreCompleto"; "nroConteoTarjeta"; "nombreCargo";
    "fechaCreacionSinFormato"; "fechaCreacion"; "direccion" ].

Definition claves_paso2 : list string :=
  [ "nroTransformador"; "capacidadTransformador"; "tipoTransformador";
    "tipoAislamiento"; "voltajePrimario"; "voltajeSecundario"; "latitud";
    "longitud"; "fechaCalibracionSinFormato"; "fechaCalibracion" ].

Definition claves_paso3 : list string :=
  [ "carTrafo_Marca"; "carTrafo_Serie"; "carTrafo_Tipo";
    "carTrafo_FechaFabricacionSinFormato"; "carTrafo_FechaFabricacion";
    "carTrafo_Frecuencia"; "carTrafo_NroFases"; "carTrafo_Conexion";
    "carTrafo_MedioAislamiento"; "carTrafo_FechaMediciones";
    "temperaturaPrueba" ].

(** The keys the step [n] assigns. *)
Definition claves_del_paso (n : Z) : list string :=
  if n =? 1 then claves_paso1
  else if n =? 2 then claves_paso2
  else if n =? 3 then claves_paso3
  else if n =? 4 then claves_paso4
  else [].

(** What a block ends in, as a result: the dictionary it leaves when it
    completed, the exception when it raised. *)
Definition resultado (p : dict * option exn) : result dict :=
  match p with
  | (data, None) => Ok data
  | (_, Some e) => Raise e
  end.

(** A statement that assigns to keys of [ks] only. *)
Definition escribe_en (ks : list string) (f : sentencia) : Prop :=
  forall data data', f data = Ok data' ->
  forall k : string, ~ In k ks -> dict_get data' k = dict_get data k.

Section Asistente.

(** The template object of docxtpl. *)
Variable Doc : Type.
Variable DocxTemplate : string -> carga Doc.

(** [d.strftime("%Y-%m-%d")] for the date [d] of a date input. *)
Variable strftime_Ymd : pyval -> string.

Variable float_of_str : string -> result pyfloat.

(** [st.session_state]: [step], [data] and, once loaded, [doc]. *)
Record sesion : Type := {
  ss_step : Z;
  ss_data : dict;
  ss_doc : option Doc
}.

Definition sesion_inicial : sesion :=
  {| ss_step := 1; ss_data := []; ss_doc := None |}.

Definition con_data (s : sesion) (data : dict) : sesion :=
  {| ss_step := ss_step s; ss_data := data; ss_doc := ss_doc s |}.

Definition next_step (s : sesion) : sesion * efecto :=
  match missing (ss_data s) with
  | _ :: _ =>
      (s, StError "Por favor completa todos los campos antes de continuar.")
  | [] =>
      ({| ss_step := ss_step s + 1; ss_data := ss_data s;
          ss_doc := ss_doc s |}, Rerun)
  end.

Definition prev_step (s : sesion) : sesion * efecto :=
  if 1 <? ss_step s
  then ({| ss_step := ss_step s - 1; ss_data := ss_data s;
           ss_doc := ss_doc s |}, Rerun)
  else (s, Nada).

(** [data[dst] = data[src].strftime("%Y-%m-%d")] *)
Definition asignar_fecha (data : dict) (src dst : string) : result dict :=
  d <- dict_getitem data src ;;
  Ok (dict_set data dst (VStr (strftime_Ymd d))).

(** The assignments of step 1. *)
Definition paso1 (w : widgets_paso1) (data : dict) : result dict :=
  let data := dict_set data "nombreProyecto" (VStr (w_nombre_proyecto w)) in
  let data := dict_set data "nombreCiudadoMunicipio" (VStr (w_ciudad w)) in
  let data := dict_set data "nombreDepartamento" (VStr (w_departamento w)) in
  let data := dict_set data "tipoCoordenada"
                (VStr (coordenada_str (w_tipo_coordenada w))) in
  let data := dict_set data "nombreCompleto" (VStr (w_nombre w)) in
  let data := dict_set data "nroConteoTarjeta" (VStr (w_conte_tarjeta w)) in
  let data := dict_set data "nombreCargo" (VStr (w_cargo w)) in
  let data := dict_set data "fechaCreacionSinFormato" (w_fecha_creacion w) in
  data <- asignar_fecha data "fechaCreacionSinFormato" "fechaCreacion" ;;
  Ok (dict_set data "direccion" (VStr (w_direccion w))).

(** The assignments of step 2. *)
Definition paso2 (w : widgets_paso2) (data : dict) : result dict :=
  let data := dict_set data "nroTransformador" (VStr (w_nro_transformador w)) in
  let data := dict_set data "capacidadTransformador"
                (VStr (w_capacidad_transformador w)) in
  let data := dict_set data "tipoTransformador"
                (VStr (transformador_str (w_tipotrafo w))) in
  let data := dict_set data "tipoAislamiento"
                (VStr (aislamiento_str (w_tipoaislamiento w))) in
  let data := dict_set data "voltajePrimario" (VStr (w_voltprimario w)) in
  let data := dict_set data "voltajeSecundario" (VStr (w_voltsecundario w)) in
  let data := dict_set data "latitud" (VStr (w_latitud w)) in
  let data := dict_set data "longitud" (VStr (w_longitud w)) in
  let data := dict_set data "fechaCalibracionSinFormato"
                (w_fecha_calibracion w) in
  asignar_fecha data "fechaCalibracionSinFormato" "fechaCalibracion".

(** The path of the template the button of step 2 loads. *)
Definition template_path (data : dict) : result string :=
  tt <- dict_getitem data "tipoTransformador" ;;
  Ok (if py_eq_str tt "Trifásico"
      then "templates/templateTRAFO3FS.docx"
      else "templates/templateTRAFO1FS.docx").

(** The handler of "Siguiente" in step 2: the [try] around the load of
    the template and [next_step()]. *)
Definition siguiente_paso2 (s : sesion) : result (sesion * efecto) :=
  path <- template_path (ss_data s) ;;
  match DocxTemplate path with
  | Cargada doc =>
      Ok (next_step {| ss_step := ss_step s; ss_data := ss_data s;
                       ss_doc := Some doc |})
  | NoEncontrada =>
      Ok (s, StError (String.append "No se encontró la plantilla: " path))
  | OtraExcepcion e => Raise e
  end.

(** The assignments of step 3. *)
Definition paso3 (w : widgets_paso3) (data : dict) : result dict :=
  let data := dict_set data "carTrafo_Marca" (VStr (w_cartrafomarca w)) in
  let data := dict_set data "carTrafo_Serie" (VStr (w_cartrafoserie w)) in
  let data := dict_set data "carTrafo_Tipo" (VStr (w_cartrafotipo w)) in
  let data := dict_set data "carTrafo_FechaFabricacionSinFormato"
                (w_cartrafofechafabrisf w) in
  data <- asignar_fecha data "carTrafo_FechaFabricacionSinFormato"
            "carTrafo_FechaFabricacion" ;;
  let data := dict_set data "carTrafo_Frecuencia" (VStr (w_cartrafofrec w)) in
  tt <- dict_getitem data "tipoTransformador" ;;
  let data := dict_set data "carTrafo_NroFases"
                (VInt (if py_eq_str tt "Trifásico" then 3 else 1)) in
  let data := dict_set data "carTrafo_Conexion"
                (VStr (w_cartrafoconexion w)) in
  let data := dict_set data "carTrafo_MedioAislamiento"
                (VStr (w_cartrafomedioaisl w)) in
  fc <- dict_getitem data "fechaCreacion" ;;
  let data := dict_set data "carTrafo_FechaMediciones" fc in
  Ok (dict_set data "temperaturaPrueba" (VStr (w_temperaturaprueba w))).

(** One run of the script that completes: the assignments of the
    current step, then the handler of the button that was pressed; the
    session it leads to and what the handler asks for. Of a run that
    raises it gives the exception only; the session such a run leaves is
    that of [correr_paso] below. Step 5 has no button that navigates and
    assigns nothing to the session; what its body shows or raises is
    [paso5]. *)
Definition script (s : sesion) (w : entradas) (c : clic)
    : result (sesion * efecto) :=
  if ss_step s =? 1 then
    data <- paso1 (e_paso1 w) (ss_data s) ;;
    let s := con_data s data in
    match c with
    | Siguiente => Ok (next_step s)
    | _ => Ok (s, Nada)
    end
  else if ss_step s =? 2 then
    data <- paso2 (e_paso2 w) (ss_data s) ;;
    let s := con_data s data in
    match c with
    | Anterior => Ok (prev_step s)
    | Siguiente => siguiente_paso2 s
    | Ninguno => Ok (s, Nada)
    end
  else if ss_step s =? 3 then
    data <- paso3 (e_paso3 w) (ss_data s) ;;
    let s := con_data s data in
    match c with
    | Anterior => Ok (prev_step s)
    | Siguiente => Ok (next_step s)
    | Ninguno => Ok (s, Nada)
    end
  else if ss_step s =? 4 then
    data <- paso4 float_of_str (e_paso4 w) (ss_data s) ;;
    let s := con_data s data in
    match c with
    | Anterior => Ok (prev_step s)
    | Siguiente => Ok (next_step s)
    | Ninguno => Ok (s, Nada)
    end
  else Ok (s, Nada).

(** The statements of step 1, one for each line. *)
Definition sentencias_paso1 (w : widgets_paso1) : list sentencia :=
  [ asignar "nombreProyecto" (VStr (w_nombre_proyecto w));
    asignar "nombreCiudadoMunicipio" (VStr (w_ciudad w));
    asignar "nombreDepartamento" (VStr (w_departamento w));
    asignar "tipoCoordenada" (VStr (coordenada_str (w_tipo_coordenada w)));
    asignar "nombreCompleto" (VStr (w_nombre w));
    asignar "nroConteoTarjeta" (VStr (w_conte_tarjeta w));
    asignar "nombreCargo" (VStr (w_cargo w));
    asignar "fechaCreacionSinFormato" (w_fecha_creacion w);
    (fun data => asignar_fecha data
                   "fechaCreacionSinFormato" "fechaCreacion");
    asignar "direccion" (VStr (w_direccion w)) ].

(** The statements of step 2. *)
Definition sentencias_paso2 (w : widgets_paso2) : list sentencia :=
  [ asignar "nroTransformador" (VStr (w_nro_transformador w));
    asignar "capacidadTransformador" (VStr (w_capacidad_transformador w));
    asignar "tipoTransformador" (VStr (transformador_str (w_tipotrafo w)));
    asignar "tipoAislamiento" (VStr (aislamiento_str (w_tipoaislamiento w)));
    asignar "voltajePrimario" (VStr (w_voltprimario w));
    asignar "voltajeSecundario" (VStr (w_voltsecundario w));
    asignar "latitud" (VStr (w_latitud w));
    asignar "longitud" (VStr (w_longitud w));
    asignar "fechaCalibracionSinFormato" (w_fecha_calibracion w);
    (fun data => asignar_fecha data
                   "fechaCalibracionSinFormato" "fechaCalibracion") ].

(** The statements of step 3. *)
Definition sentencias_paso3 (w : widgets_paso3) : list sentencia :=
  [ asignar "carTrafo_Marca" (VStr (w_cartrafomarca w));
    asignar "carTrafo_Serie" (VStr (w_cartrafoserie w));
    asignar "carTrafo_Tipo" (VStr (w_cartrafotipo w));
    asignar "carTrafo_FechaFabricacionSinFormato" (w_cartrafofechafabrisf w);
    (fun data => asignar_fecha data
                   "carTrafo_FechaFabricacionSinFormato"
                   "carTrafo_FechaFabricacion");
    asignar "carTrafo_Frecuencia" (VStr (w_cartrafofrec w));
    (fun data =>
       tt <- dict_getitem data "tipoTransformador" ;;
       Ok (dict_set data "carTrafo_NroFases"
             (VInt (if py_eq_str tt "Trifásico" then 3 else 1))));
    asignar "carTrafo_Conexion" (VStr (w_cartrafoconexion w));
    asignar "carTrafo_MedioAislamiento" (VStr (w_cartrafomedioaisl w));
    (fun data =>
       fc <- dict_getitem data "fechaCreacion" ;;
       Ok (dict_set data "carTrafo_FechaMediciones" fc));
    asignar "temperaturaPrueba" (VStr (w_temperaturaprueba w)) ].

(** The statements of step 4 under [if data['carTrafo_NroFases'] == 3:]
    and under its [else:]. *)
Definition sentencias_trifasico (w : widgets_paso4) : list sentencia :=
  [ asignar "resMedida_AVST" (VFloat (res_medida_avst w));
    (fun data => asignar_referida float_of_str data
                   "resMedida_AVST" "resReferida_AVST");
    asignar "resMedida_AVSB" (VFloat (res_medida_avsb w));
    (fun data => asignar_referida float_of_str data
                   "resMedida_AVSB" "resReferida_AVSB");
    asignar "resMedida_BVST" (VFloat (res_medida_bvst w));
    (fun data => asignar_referida float_of_str data
                   "resMedida_BVST" "resReferida_BVST");
    (fun data => asignar_esperada data "resEsp_AVST" 5 25);
    (fun data => asignar_esperada data "resEsp_AVSB" 5 25);
    (fun data => asignar_esperada data "resEsp_BVST" 1 5);
    (fun data => asignar_resultado data
                   "resultado_AVST" "resReferida_AVST" "resEsp_AVST");
    (fun data => asignar_resultado data
                   "resultado_AVSB" "resReferida_AVSB" "resEsp_AVSB");
    (fun data => asignar_resultado data
                   "resultado_BVST" "resReferida_BVST" "resEsp_BVST");
    asignar "comentariosPrueba" (VStr (comentarios_prueba w)) ].

Definition sentencias_monofasico (w : widgets_paso4) : list sentencia :=
  [ asignar "resMedida_AVST" (VStr (res_medida_avst_texto w));
    asignar "resReferida_AVST" (VStr "-");
    asignar "resMedida_AVSB" (VFloat (res_medida_avsb w));
    (fun data => asignar_referida float_of_str data
                   "resMedida_AVSB" "resReferida_AVSB");
    asignar "resMedida_BVST" (VFloat (res_medida_bvst w));
    (fun data => asignar_referida float_of_str data
                   "resMedida_BVST" "resReferida_BVST");
    (fun data => asignar_esperada data "resEsp_AVST" 5 25);
    (fun data => asignar_esperada data "resEsp_AVSB" 5 25);
    (fun data => asignar_esperada data "resEsp_BVST" 1 5);
    asignar "resultado_AVST" (VStr "Cumple");
    (fun data => asignar_resultado data
                   "resultado_AVSB" "resReferida_AVSB" "resEsp_AVSB");
    (fun data => asignar_resultado data
                   "resultado_BVST" "resReferida_BVST" "resEsp_BVST");
    asignar "comentariosPrueba" (VStr (comentarios_prueba w)) ].

(** The body of step 4: the test of the number of phases, then the
    statements of its branch. *)
Definition ejecutar_paso4 (w : widgets_paso4) (data : dict)
    : dict * option exn :=
  match dict_getitem data "carTrafo_NroFases" with
  | Ok fases =>
      ejecutar (if py_eq_int fases 3 then sentencias_trifasico w
                else sentencias_monofasico w) data
  | Raise e => (data, Some e)
  end.

(** The handlers of the buttons of each step, on the session the
    statements of the step left. *)
Definition botones (s : sesion) (c : clic) : result (sesion * efecto) :=
  if ss_step s =? 1 then
    match c with
    | Siguiente => Ok (next_step s)
    | _ => Ok (s, Nada)
    end
  else
    match c with
    | Anterior => Ok (prev_step s)
    | Siguiente =>
        if ss_step s =? 2 then siguiente_paso2 s
        else Ok (next_step s)
    | Ninguno => Ok (s, Nada)
    end.

(** One run of the script at a step from 1 to 4: the session it leaves
    and what it ends in. The statements of the step run first; when one
    of them raises, the run ends there with the exception and the
    session keeps what was assigned before it. Otherwise the handler of
    the button runs; when it raises (the load of the template), the
    session is the one the statements left. *)
Definition correr_paso (s : sesion) (w : entradas) (c : clic)
    : option (sesion * result efecto) :=
  let cuerpo :=
    if ss_step s =? 1
    then Some (ejecutar (sentencias_paso1 (e_paso1 w)) (ss_data s))
    else if ss_step s =? 2
    then Some (ejecutar (sentencias_paso2 (e_paso2 w)) (ss_data s))
    else if ss_step s =? 3
    then Some (ejecutar (sentencias_paso3 (e_paso3 w)) (ss_data s))
    else if ss_step s =? 4
    then Some (ejecutar_paso4 (e_paso4 w) (ss_data s))
    else None in
  match cuerpo with
  | None => None
  | Some (data, Some e) => Some (con_data s data, Raise e)
  | Some (data, None) =>
      let s1 := con_data s data in
      match botones s1 c with
      | Ok (s2, e) => Some (s2, Ok e)
      | Raise ex => Some (s1, Raise ex)
      end
  end.

(** The session a run leaves. Step 5 assigns nothing to the session,
    and for any other value of the step no branch of the script runs. *)
Definition deja (s : sesion) (w : entradas) (c : clic) : sesion :=
  match correr_paso s w c with
  | Some (s', _) => s'
  | None => s
  end.

(** The sessions the application can be in: the first one, and the one
    any run leaves, whether the run completed or raised. *)
Inductive alcanzable : sesion -> Prop :=
| alcanzable_inicial : alcanzable sesion_inicial
| alcanzable_run (s : sesion) (w : entradas) (c : clic) :
    alcanzable s -> alcanzable (deja s w c).

(** What the steps rely on, step by step: from step 2 on the formatted
    date of step 1; from step 3 on the two selections of step 2 and the
    template of the selected kind of transformer; from step 4 on the
    number of phases of that kind and the text of the temperature. *)
Definition fases_de (t : transformador) : Z :=
  match t with Trifasico => 3 | Monofasico => 1 end.

Definition plantilla_de (t : transformador) : string :=
  match t with
  | Trifasico => "templates/templateTRAFO3FS.docx"
  | Monofasico => "templates/templateTRAFO1FS.docx"
  end.

Definition invariante (s : sesion) : Prop :=
  1 <= ss_step s <= 5 /\
  (2 <= ss_step s -> dict_get (ss_data s) "fechaCreacion" <> None) /\
  (3 <= ss_step s ->
   exists t a doc,
     dict_get (ss_data s) "tipoTransformador"
     = Some (VStr (transformador_str t)) /\
     dict_get (ss_data s) "tipoAislamiento"
     = Some (VStr (aislamiento_str a)) /\
     ss_doc s = Some doc /\
     DocxTemplate (plantilla_de t) = Cargada doc) /\
  (4 <= ss_step s ->
   exists t txt,
     dict_get (ss_data s) "tipoTransformador"
     = Some (VStr (transformador_str t)) /\
     dict_get (ss_data s) "carTrafo_NroFases" = Some (VInt (fases_de t)) /\
     dict_get (ss_data s) "temperaturaPrueba" = Some (VStr txt)).

End Asistente.

Arguments ss_step {Doc} s.
Arguments ss_data {Doc} s.
Arguments ss_doc {Doc} s.

(** A sequence of assignments [data[k] = v], and the value the last
    assignment to a key gave it. *)
Definition asignaciones (kvs : list (string * pyval)) (data : dict) : dict :=
  fold_left (fun d kv => dict_set d (KStr (fst kv)) (snd kv)) kvs data.

Fixpoint ultima (kvs : list (string * pyval)) (s : string) : option pyval :=
  match kvs with
  | [] => None
  | (s0, v) :: kvs' =>
      match ultima kvs' s with
      | Some v' => Some v'
      | None => if String.eqb s0 s then Some v else None
      end
  end.

(** The expected values of step 4 by the selection of step 2. *)
Definition esperada_alta (a : aislamiento) : Z :=
  match a with Aceite => 5 | Seco => 25 end.

Definition esperada_baja (a : aislamiento) : Z :=
  match a with Aceite => 1 | Seco => 5 end.

(** Sample inputs of the wizard: every template is found, and every
    date prints as the same day. *)
Definition cargar_ejemplo (path : string) : carga string := Cargada path.

Definition strftime_ejemplo (d : pyval) : string := "2025-01-31".

Definition entradas_ejemplo (temperatura : string) : entradas :=
  {| e_paso1 :=
       {| w_nombre_proyecto := "Subestacion norte";
          w_ciudad := "Cali";
          w_departamento := "Valle";
          w_tipo_coordenada := Rural;
          w_nombre := "A. Perez";
          w_conte_tarjeta := "123";
          w_cargo := "Ingeniero";
          w_fecha_creacion := VOther "datetime.date(2025, 1, 31)";
          w_direccion := "Calle 1" |};
     e_paso2 :=
       {| w_nro_transformador := "7";
          w_capacidad_transformador := "75";
          w_tipotrafo := Monofasico;
          w_tipoaislamiento := Seco;
          w_voltprimario := "13200";
          w_voltsecundario := "240";
          w_latitud := "3,45";
          w_longitud := "-76.53";
          w_fecha_calibracion := VOther "datetime.date(2025, 1, 31)" |};
     e_paso3 :=
       {| w_cartrafomarca := "ABB";
          w_cartrafoserie := "S1";
          w_cartrafotipo := "T";
          w_cartrafofechafabrisf := VOther "datetime.date(2025, 1, 31)";
          w_cartrafofrec := "60";
          w_cartrafoconexion := "Ii0";
          w_cartrafomedioaisl := "Seco";
          w_temperaturaprueba := temperatura |};
     e_paso4 := widgets_ejemplo |}.

(** ** The lookup against exact arithmetic *)

(** Rounding to nearest, ties to even, of [m / 2^n] for a natural [m]:
    what the shifts of [binary_round_aux] compute. *)
Definition rne (m n : Z) : Z :=
  let q := m / 2 ^ n in
  let r := m mod 2 ^ n in
  match 2 * r ?= 2 ^ n with
  | Lt => q
  | Gt => q + 1
  | Eq => if Z.even q then q else q + 1
  end.

(** After [k] shifts of [m] the record holds the quotient by [2^k] and
    the position of the remainder against the half of [2^k]. *)
Definition loc_inv (m k : Z) (rcd : shr_record) : Prop :=
  shr_m rcd = m / 2 ^ k /\
  match shr_r rcd, shr_s rcd with
  | false, false => m mod 2 ^ k = 0
  | false, true => 0 < 2 * (m mod 2 ^ k) < 2 ^ k
  | true, false => 2 * (m mod 2 ^ k) = 2 ^ k
  | true, true => 2 ^ k < 2 * (m mod 2 ^ k)
  end.

(** The exact value of a float as an integer number of units of
    [2^-1074], the least positive binary64 number. *)
Definition escala (x : pyfloat) : Z :=
  match x with
  | S754_finite s m e => cond_Zopp s (Z.pos m * 2 ^ (e + 1074))
  | _ => 0
  end.

(** The floats of the interpreter: a mantissa of at most 53 bits in
    canonical position and an exponent in the range of binary64. *)
Definition valido (x : pyfloat) : bool :=
  valid_binary PyFloat.prec PyFloat.emax x.

(** The [rango] of the binary64 number nearest to [V] units of
    [2^-1074], for a natural [V]. *)
Definition rango_valor (V : Z) : Z * Z * Z :=
  if V <=? 0 then (0, 0, 0)
  else
    let K := Z.max (Z.log2 V + 1 - 53) 0 in
    let m1 := rne V K in
    let m := if m1 =? 2 ^ 53 then 2 ^ 52 else m1 in
    let k := if m1 =? 2 ^ 53 then K + 1 else K in
    if k - 1074 <=? 971 then (1, k - 1074, m) else (2, 0, 0).

(** The exact distance from the sample point of index [j], in the units
    of [escala]. *)
Definition distancia_exacta (t : pyfloat) (j : nat) : Z :=
  Z.abs ((-10 + 5 * Z.of_nat j) * 2 ^ 1074 - escala t).

(** ** Step 5: images, map and document *)

(** [s.replace(',', '.')] *)
Fixpoint replace_coma_punto (s : string) : string :=
  match s with
  | EmptyString => EmptyString
  | String c s' =>
      String (if Ascii.eqb c "," then "."%char else c) (replace_coma_punto s')
  end.

(** The truth value an [if] or an [and] takes of a value: [None],
    [False], the zeros and the empty string and containers are false;
    the objects the form holds (dates, images) are true. *)
Definition py_bool (v : pyval) : bool :=
  match v with
  | VNone => false
  | VBool b => b
  | VInt n => negb (n =? 0)
  | VFloat x => negb (PyFloat.eqb x (PyFloat.of_int 0))
  | VStr s => negb (String.eqb s "")
  | VDict items => match items with [] => false | _ => true end
  | VList l => match l with [] => false | _ => true end
  | VTuple l => match l with [] => false | _ => true end
  | VOther _ => true
  end.

(** [l[i]] for an [int] that may be negative. *)
Definition py_index {A : Type} (l : list A) (i : Z) : result A :=
  let n := Z.of_nat (List.length l) in
  let j := if i <? 0 then i + n else i in
  if (0 <=? j) && (j <? n) then getitem l (Z.to_nat j)
  else Raise (IndexError "list index out of range").

Definition meses : list string :=
  [ "Enero"; "Febrero"; "Marzo"; "Abril"; "Mayo"; "Junio"; "Julio";
    "Agosto"; "Septiembre"; "Octubre"; "Noviembre"; "Diciembre" ].

(** [st.error(msg)] and [st.warning(msg)] *)
Inductive aviso : Type :=
| AvisoError (msg : string)
| AvisoWarning (msg : string).

Definition es_error (a : aviso) : bool :=
  match a with AvisoError _ => true | AvisoWarning _ => false end.

(** The files of the uploaders of step 5: the bytes of each file, or
    [None] when nothing was uploaded. *)
Record subidas : Type := {
  u_ficha : option string;
  u_prueba1 : option string;
  u_prueba2 : option string;
  u_prueba3 : option string;
  u_prueba4 : option string
}.

(** The outcome of the body of a [try]: its result, or the text
    [str(e)] of the exception [e] it raised. *)
Inductive intento (A : Type) : Type :=
| Logrado (a : A)
| Fallido (msg : string).

Arguments Logrado {A} a.
Arguments Fallido {A} msg.

(** What a run of step 5 shows: the page with its messages, the
    download of the generated document, or the exception that
    [doc.render] or [doc.save] raised. *)
Inductive salida5 : Type :=
| Pagina (datos : dict) (avisos : list aviso)
| Descarga (datos : dict) (avisos : list aviso) (docx : string)
| FallaDocumento (avisos : list aviso) (msg : string).

Definition claves_imagenes : list string :=
  [ "imgFichaTecnicaTrafo"; "imgPruebaMon1"; "imgPruebaMon2";
    "imgPruebaMon3"; "imgPruebaMon4" ].

Section Paso5.

Variable Doc : Type.
Variable upper : string -> string.
Variable float_of_str : string -> result pyfloat.

(** [str(v)] for a value that is not a [str], [str(e)] for an exception
    and the text of a float in an f-string. *)
Variable str_otro : pyval -> string.
Variable str_exn : exn -> string.
Variable str_float : pyfloat -> string.

(** [InlineImage(doc, buf, Cm(width))] of docxtpl. *)
Variable InlineImage : Doc -> string -> Z -> pyval.

(** The map of staticmap for a longitude and a latitude, from
    [StaticMap(600, 400)] to [img_map.save(buf_map, format='PNG')], and
    [get_map_png_bytes(lon, lat, buffer_m, zoom)]: the bytes of the
    image, or the exception of the library. *)
Variable static_map_png : pyfloat -> pyfloat -> intento string.
Variable get_map_png_bytes : pyfloat -> pyfloat -> Z -> Z -> intento string.

(** [doc.render(datos)] and [doc.save(output)]: the bytes of the
    document, or the exception of the library. *)
Variable render_save : Doc -> dict -> intento string.

Definition py_str (v : pyval) : string :=
  match v with
  | VStr s => s
  | _ => str_otro v
  end.

(** [st.session_state.doc] *)
Definition sesion_doc (s : sesion Doc) : result Doc :=
  match ss_doc s with
  | Some doc => Ok doc
  | None => Raise (AttributeError "st.session_state has no attribute doc")
  end.

(** The [if uploaded: ... else: datos[key] = None] of one uploader. *)
Definition subir (s : sesion Doc) (datos : dict) (key : string)
    (uploaded : option string) : result dict :=
  match uploaded with
  | Some contenido =>
      doc <- sesion_doc s ;;
      Ok (dict_set datos key (InlineImage doc contenido 14))
  | None => Ok (dict_set datos key VNone)
  end.

(** The uploaders of the branch: five for three phases, four
    otherwise. *)
Definition imagenes (s : sesion Doc) (u : subidas) (trifasico : bool)
    (datos : dict) : result dict :=
  datos <- subir s datos "imgFichaTecnicaTrafo" (u_ficha u) ;;
  datos <- subir s datos "imgPruebaMon1" (u_prueba1 u) ;;
  datos <- subir s datos "imgPruebaMon2" (u_prueba2 u) ;;
  datos <- subir s datos "imgPruebaMon3" (u_prueba3 u) ;;
  if trifasico then subir s datos "imgPruebaMon4" (u_prueba4 u)
  else Ok datos.

Definition de_result {A : Type} (c : result A) : intento A :=
  match c with
  | Ok a => Logrado a
  | Raise e => Fallido (str_exn e)
  end.

(** [float(str(d[k]).replace(',', '.'))] *)
Definition coordenada_float (d : dict) (k : string) : result pyfloat :=
  v <- dict_getitem d k ;;
  float_of_str (replace_coma_punto (py_str v)).

(** The body of the [try] of the urban map: the messages it has shown
    and its outcome. The coordinates are read from the context. *)
Definition mapa_urbano (s : sesion Doc) (datos : dict)
    : list aviso * intento dict :=
  match de_result (coordenada_float datos "latitud") with
  | Fallido m => ([], Fallido m)
  | Logrado lat =>
      match de_result (coordenada_float datos "longitud") with
      | Fallido m => ([], Fallido m)
      | Logrado lon =>
          match static_map_png lon lat with
          | Fallido m => ([], Fallido m)
          | Logrado png =>
              match de_result (sesion_doc s) with
              | Fallido m => ([], Fallido m)
              | Logrado doc =>
                  ([], Logrado (dict_set datos "imgMapsProyecto"
                                  (InlineImage doc png 18)))
              end
          end
      end
  end.

(** The body of the [try] of the rural map. The coordinates are read
    from the session. *)
Definition mapa_rural (s : sesion Doc) (datos : dict)
    : list aviso * intento dict :=
  match de_result (coordenada_float (ss_data s) "latitud") with
  | Fallido m => ([], Fallido m)
  | Logrado lat =>
      match de_result (coordenada_float (ss_data s) "longitud") with
      | Fallido m => ([], Fallido m)
      | Logrado lon =>
          let avisos :=
            [ AvisoWarning
                (String.append "Prueba de coordenada en modo rural (latitud): "
                               (str_float lat));
              AvisoWarning
                (String.append "Prueba de coordenada en modo rural (longitud): "
                               (str_float lon)) ] in
          match get_map_png_bytes lon lat 300 17 with
          | Fallido m => (avisos, Fallido m)
          | Logrado png =>
              match de_result (sesion_doc s) with
              | Fallido m => (avisos, Fallido m)
              | Logrado doc =>
                  (avisos, Logrado (dict_set datos "imgMapsProyecto"
                                      (InlineImage doc png 18)))
              end
          end
      end
  end.

(** [except Exception as e: st.error(...)] *)
Definition except_mapa (datos : dict) (r : list aviso * intento dict)
    : dict * list aviso :=
  match r with
  | (avisos, Logrado datos') => (datos', avisos)
  | (avisos, Fallido m) =>
      (datos,
       avisos ++ [AvisoError
                    (String.append "Coordenadas inválidas para el mapa. " m)])
  end.

(** The map of step 5. *)
Definition mapa (s : sesion Doc) (datos : dict)
    : result (dict * list aviso) :=
  tc <- dict_getitem (ss_data s) "tipoCoordenada" ;;
  lat <- dict_getitem (ss_data s) "latitud" ;;
  hay <- (if py_bool lat
          then lon <- dict_getitem (ss_data s) "longitud" ;; Ok (py_bool lon)
          else Ok false) ;;
  if hay then
    Ok (except_mapa datos
          (if py_eq_str tc "Urbano" then mapa_urbano s datos
           else mapa_rural s datos))
  else Ok (datos, [AvisoError "Faltan coordenadas para el mapa."]).

(** The handler of "Generar Word" on the day [dia] of the month [mes] of
    the year [anio]. *)
Definition generar_word (s : sesion Doc) (datos : dict)
    (avisos : list aviso) (dia mes anio : Z) : result salida5 :=
  doc <- sesion_doc s ;;
  let datos := dict_set datos "dia" (VInt dia) in
  nombre <- py_index meses (mes - 1) ;;
  let datos := dict_set datos "mes" (VStr nombre) in
  let datos := dict_set datos "anio" (VInt anio) in
  match render_save doc datos with
  | Logrado docx => Ok (Descarga datos avisos docx)
  | Fallido m => Ok (FallaDocumento avisos m)
  end.

(** One run of step 5: the context, the images, the map and, when the
    button was pressed, the document. *)
Definition paso5 (s : sesion Doc) (u : subidas)
    (generar : option (Z * Z * Z)) : result salida5 :=
  let datos := datos_paso5 upper (ss_data s) in
  nf <- dict_getitem (ss_data s) "carTrafo_NroFases" ;;
  datos <- imagenes s u (py_eq_int nf 3) datos ;;
  r <- mapa s datos ;;
  match generar with
  | None => Ok (Pagina (fst r) (snd r))
  | Some (dia, mes, anio) => generar_word s (fst r) (snd r) dia mes anio
  end.

End Paso5.

(** What step 5 relies on for its map: from step 2 on the kind of
    coordinate selected in step 1, and from step 3 on the two
    coordinates of step 2, which "Siguiente" let through only when
    neither was empty. *)
Definition invariante_coordenadas {Doc : Type} (s : sesion Doc) : Prop :=
  (2 <= ss_step s ->
   exists c, dict_get (ss_data s) "tipoCoordenada"
             = Some (VStr (coordenada_str c))) /\
  (3 <= ss_step s ->
   exists lat lon,
     dict_get (ss_data s) "latitud" = Some (VStr lat) /\
     dict_get (ss_data s) "longitud" = Some (VStr lon) /\
     lat <> "" /\ lon <> "").

(** The messages of a run of step 5. *)
Definition avisos_de (out : salida5) : list aviso :=
  match out with
  | Pagina _ avisos => avisos
  | Descarga _ avisos _ => avisos
  | FallaDocumento avisos _ => avisos
  end.

(** The value an uploader leaves under its key. *)
Definition valor_subida {Doc : Type} (InlineImage : Doc -> string -> Z -> pyval)
    (s : sesion Doc) (uploaded : option string) : pyval :=
  match uploaded, ss_doc s with
  | Some contenido, Some doc => InlineImage doc contenido 14
  | _, _ => VNone
  end.

(** What a run of the script ends in: the request of a handler of the
    steps 1 to 4, or what step 5 shows. *)
Inductive fin : Type :=
| FinEfecto (e : efecto)
| FinPaso5 (out : salida5).

Section Terminaciones.

Variable Doc : Type.
Variable DocxTemplate : string -> carga Doc.
Variable strftime_Ymd : pyval -> string.
Variable upper : string -> string.
Variable float_of_str : string -> result pyfloat.
Variable str_otro : pyval -> string.
Variable str_exn : exn -> string.
Variable str_float : pyfloat -> string.
Variable InlineImage : Doc -> string -> Z -> pyval.
Variable static_map_png : pyfloat -> pyfloat -> intento string.
Variable get_map_png_bytes : pyfloat -> pyfloat -> Z -> Z -> intento string.
Variable render_save : Doc -> dict -> intento string.

(** What one run of the whole script ends in, for the widgets [w], the
    button [c], the uploads [u] and the click [g] on "Generar Word": at
    a step from 1 to 4 what [correr_paso] ends in, at step 5 what
    [paso5] ends in; for any other value of the step no branch runs. *)
Definition termina (s : sesion Doc) (w : entradas) (c : clic)
    (u : subidas) (g : option (Z * Z * Z)) : result fin :=
  match correr_paso Doc DocxTemplate strftime_Ymd float_of_str s w c with
  | Some (_, r) => e <- r ;; Ok (FinEfecto e)
  | None =>
      if ss_step s =? 5
      then out <- paso5 Doc upper float_of_str str_otro str_exn str_float
                    InlineImage static_map_png get_map_png_bytes
                    render_save s u g ;;
           Ok (FinPaso5 out)
      else Ok (FinEfecto Nada)
  end.

End Terminaciones.

(** Sample inputs of step 5: a template named by its path, an image
    shown by its size, a map service that is down and one that answers,
    and the session after four times "Siguiente". *)
Definition imagen_ejemplo (doc contenido : string) (ancho : Z) : pyval :=
  VOther (String.append "InlineImage " contenido).

Definition str_otro_ejemplo (v : pyval) : string := "objeto".

Definition str_exn_ejemplo (e : exn) : string :=
  match e with
  | ValueError msg => msg
  | IndexError msg => msg
  | KeyError _ => "clave"
  | TypeError msg => msg
  | AttributeError msg => msg
  | OverflowError msg => msg
  end.

Definition str_float_ejemplo (x : pyfloat) : string := "3.0".

Definition sin_red (lon lat : pyfloat) : intento string :=
  Fallido "HTTPError 503".

Definition satelite_ejemplo (lon lat : pyfloat) (buffer_m zoom : Z)
    : intento string :=
  Logrado "PNG".

Definition render_ejemplo (doc : string) (datos : dict) : intento string :=
  Logrado "docx".

Definition subidas_ejemplo : subidas :=
  {| u_ficha := Some "ficha.png"; u_prueba1 := None; u_prueba2 := None;
     u_prueba3 := None; u_prueba4 := Some "prueba4.png" |}.

Definition avanzar_ejemplo (s : sesion string) : sesion string :=
  deja string cargar_ejemplo strftime_ejemplo float_of_digits s
    (entradas_ejemplo "35") Siguiente.

Definition sesion_paso5_ejemplo : sesion string :=
  avanzar_ejemplo (avanzar_ejemplo (avanzar_ejemplo
    (avanzar_ejemplo (sesion_inicial string)))).

Definition paso5_ejemplo (g : option (Z * Z * Z)) : result salida5 :=
  paso5 string upper_ascii_str float_of_digits str_otro_ejemplo
    str_exn_ejemplo str_float_ejemplo imagen_ejemplo sin_red
    satelite_ejemplo render_ejemplo sesion_paso5_ejemplo subidas_ejemplo g.

Definition pagina_ejemplo : dict * list aviso :=
  match paso5_ejemplo None with
  | Ok (Pagina datos avisos) => (datos, avisos)
  | _ => ([], [])
  end.

(** The session a run of step 4 leaves that raised: the text of the
    temperature, "20 C", is not a number. *)
Definition fallar_ejemplo (s : sesion string) : sesion string :=
  deja string cargar_ejemplo strftime_ejemplo float_of_digits s
    (entradas_ejemplo "20 C") Siguiente.

Definition sesion_tras_fallo_ejemplo : sesion string :=
  fallar_ejemplo (fallar_ejemplo (fallar_ejemplo
    (fallar_ejemplo (sesion_inicial string)))).

(** * Properties of the lookup *)

(** ** The error monad and the sequence primitives *)

Lemma getitem_lt {A : Type} (l : list A) (i : nat) :
  (i < List.length l)%nat -> exists a, getitem l i = Ok a /\ nth_error l i = Some a.
Proof.
  intros Hi. unfold getitem.
  destruct (nth_error l i) as [a|] eqn:E.
  - now exists a.
  - apply nth_error_None in E. lia.
Qed.

Lemma min_loop_in {A : Type} (key : A -> result pyfloat) (l : list A) :
  Forall (fun x => is_ok (key x) = true) l ->
  forall best kbest,
    exists r, min_loop key best kbest l = Ok r /\ (r = best \/ In r l).
Proof.
  induction 1 as [|x l Hx _ IH]; intros best kbest; simpl.
  - exists best. auto.
  - destruct (key x) as [kx|e]; [|discriminate Hx]. simpl.
    destruct (PyFloat.ltb kx kbest).
    + destruct (IH x kx) as (r & Hr & [E|Hin]); exists r; auto.
    + destruct (IH best kbest) as (r & Hr & [E|Hin]); exists r; auto.
Qed.

Lemma py_min_in {A : Type} (key : A -> result pyfloat) (l : list A) :
  l <> [] ->
  Forall (fun x => is_ok (key x) = true) l ->
  exists r, py_min l key = Ok r /\ In r l.
Proof.
  destruct l as [|x l]; [congruence|]. intros _ H.
  inversion H as [|? ? Hx Hl]; subst. simpl.
  destruct (key x) as [kx|e]; [|discriminate Hx]. simpl.
  destruct (min_loop_in key l Hl x kx) as (r & Hr & [E|Hin]); exists r; auto.
Qed.

(** ** The order of the keys *)

Lemma ltb_rango (x y : pyfloat) :
  no_negativo x = true -> no_negativo y = true ->
  (PyFloat.ltb x y = true <-> lex_lt (rango x) (rango y)).
Proof.
  unfold PyFloat.ltb, SFltb, lex_lt.
  destruct x as [sx|[|]| |[|] mx ex], y as [sy|[|]| |[|] my ey];
    simpl; try discriminate; intros _ _;
    try (split; [discriminate|lia]); try (split; [lia|reflexivity]).
  change (Pos.compare_cont Eq mx my) with (Pos.compare mx my).
  destruct (Z.compare_spec ex ey); [destruct (Pos.compare_spec mx my)| |];
    split; try discriminate; try reflexivity; try lia.
Qed.

Lemma leb_rango (x y : pyfloat) :
  no_negativo x = true -> no_negativo y = true ->
  (PyFloat.leb x y = true <-> ~ lex_lt (rango y) (rango x)).
Proof.
  unfold PyFloat.leb, SFleb, lex_lt.
  destruct x as [sx|[|]| |[|] mx ex], y as [sy|[|]| |[|] my ey];
    simpl; try discriminate; intros _ _;
    try (split; [discriminate|lia]); try (split; [lia|reflexivity]).
  change (Pos.compare_cont Eq mx my) with (Pos.compare mx my).
  destruct (Z.compare_spec ex ey); [destruct (Pos.compare_spec mx my)| |];
    split; try discriminate; try reflexivity; try lia.
Qed.

Lemma lex_lt_trans (a b c : Z * Z * Z) :
  lex_lt a b -> lex_lt b c -> lex_lt a c.
Proof.
  destruct a as [[a1 a2] a3], b as [[b1 b2] b3], c as [[c1 c2] c3].
  unfold lex_lt. lia.
Qed.

Lemma lex_lt_le_trans (a b c : Z * Z * Z) :
  lex_lt a b -> ~ lex_lt c b -> lex_lt a c.
Proof.
  destruct a as [[a1 a2] a3], b as [[b1 b2] b3], c as [[c1 c2] c3].
  unfold lex_lt. lia.
Qed.

Lemma lex_lt_irrefl (a : Z * Z * Z) : ~ lex_lt a a.
Proof. destruct a as [[a1 a2] a3]. unfold lex_lt. lia. Qed.

Lemma ltb_false_leb (x y : pyfloat) :
  no_negativo x = true -> no_negativo y = true ->
  PyFloat.ltb x y = false -> PyFloat.leb y x = true.
Proof.
  intros Hx Hy H. apply (leb_rango y x Hy Hx).
  intros L. apply (ltb_rango x y Hx Hy) in L. congruence.
Qed.

Lemma ltb_trans (x y z : pyfloat) :
  no_negativo x = true -> no_negativo y = true -> no_negativo z = true ->
  PyFloat.ltb x y = true -> PyFloat.ltb y z = true -> PyFloat.ltb x z = true.
Proof.
  intros Hx Hy Hz Hxy Hyz.
  apply (ltb_rango x y Hx Hy) in Hxy. apply (ltb_rango y z Hy Hz) in Hyz.
  apply (ltb_rango x z Hx Hz). exact (lex_lt_trans _ _ _ Hxy Hyz).
Qed.

Lemma ltb_leb_trans (x y z : pyfloat) :
  no_negativo x = true -> no_negativo y = true -> no_negativo z = true ->
  PyFloat.ltb x y = true -> PyFloat.leb y z = true -> PyFloat.ltb x z = true.
Proof.
  intros Hx Hy Hz Hxy Hyz.
  apply (ltb_rango x y Hx Hy) in Hxy. apply (leb_rango y z Hy Hz) in Hyz.
  apply (ltb_rango x z Hx Hz). exact (lex_lt_le_trans _ _ _ Hxy Hyz).
Qed.

Lemma leb_refl (x : pyfloat) : no_negativo x = true -> PyFloat.leb x x = true.
Proof. intros Hx. apply (leb_rango x x Hx Hx), lex_lt_irrefl. Qed.

(** ** Rounding never invents a NaN *)

Section NotNan.

Variables prec emax : Z.

Lemma shr_1_nonneg (mrs : shr_record) :
  0 <= shr_m mrs -> 0 <= shr_m (shr_1 mrs).
Proof.
  destruct mrs as [m r s]. simpl.
  destruct m as [|[p|p|]|[p|p|]]; simpl; lia.
Qed.

Lemma iter_pos_shr_1_nonneg (p : positive) (mrs : shr_record) :
  0 <= shr_m mrs -> 0 <= shr_m (iter_pos shr_1 p mrs).
Proof.
  revert mrs. induction p as [p IH|p IH|]; intros mrs H; simpl.
  - apply IH, IH, shr_1_nonneg, H.
  - apply IH, IH, H.
  - apply shr_1_nonneg, H.
Qed.

Lemma shr_fexp_nonneg (m e : Z) (l : location) :
  0 <= m -> 0 <= shr_m (fst (shr_fexp prec emax m e l)).
Proof.
  intros H. unfold shr_fexp, shr.
  assert (H0 : 0 <= shr_m (shr_record_of_loc m l)).
  { destruct l as [|[| |]]; exact H. }
  destruct (fexp prec emax (Zdigits2 m + e) - e); simpl; auto.
  now apply iter_pos_shr_1_nonneg.
Qed.

Lemma binary_round_aux_not_nan (s : bool) (m e : Z) (l : location) :
  0 <= m -> binary_round_aux prec emax s m e l <> S754_nan.
Proof.
  intros H. unfold binary_round_aux.
  pose proof (shr_fexp_nonneg m e l H) as H1.
  destruct (shr_fexp prec emax m e l) as [mrs' e']. simpl in H1.
  assert (H2 : 0 <= round_nearest_even (shr_m mrs') (loc_of_shr_record mrs')).
  { unfold round_nearest_even.
    destruct (loc_of_shr_record mrs') as [|[| |]]; try lia.
    destruct (Z.even (shr_m mrs')); lia. }
  pose proof (shr_fexp_nonneg _ e' loc_Exact H2) as H3.
  destruct (shr_fexp prec emax _ e' loc_Exact) as [mrs'' e'']. simpl in H3.
  destruct (shr_m mrs'') as [|p|p]; try discriminate; [|lia].
  destruct (e'' <=? emax - prec); discriminate.
Qed.

Lemma binary_normalize_not_nan (m e : Z) (szero : bool) :
  binary_normalize prec emax m e szero <> S754_nan.
Proof.
  destruct m as [|p|p]; simpl; try discriminate;
    unfold binary_round;
    destruct (shl_align _ _ _) as [mz ez];
    apply binary_round_aux_not_nan; lia.
Qed.

Lemma SFsub_not_nan (x y : spec_float) :
  (exists s m e, x = S754_finite s m e) \/ (exists s, x = S754_zero s) ->
  y <> S754_nan -> SFsub prec emax x y <> S754_nan.
Proof.
  intros [(s & m & e & ->)|(s & ->)] Hy;
    destruct y as [sy|sy| |sy my ey]; try congruence; simpl;
    try discriminate; try apply binary_normalize_not_nan.
  all: destruct s, sy; discriminate.
Qed.

End NotNan.

Lemma abs_no_negativo (x : pyfloat) :
  x <> PyFloat.nan -> no_negativo (PyFloat.abs x) = true.
Proof.
  unfold PyFloat.abs, PyFloat.nan. destruct x; simpl; congruence.
Qed.

(** ** [min] returns the first item of least key *)

Lemma min_loop_first_min {A : Type} (key : A -> result pyfloat)
    (k : A -> pyfloat) (l : list A) :
  forall (pre mid : list A) (best : A),
    (forall x, In x (pre ++ best :: mid ++ l) ->
               key x = Ok (k x) /\ no_negativo (k x) = true) ->
    (forall x, In x pre -> PyFloat.ltb (k best) (k x) = true) ->
    (forall x, In x mid -> PyFloat.leb (k best) (k x) = true) ->
    exists r l1 l2,
      min_loop key best (k best) l = Ok r /\
      pre ++ best :: mid ++ l = l1 ++ r :: l2 /\
      (forall x, In x l1 -> PyFloat.ltb (k r) (k x) = true) /\
      (forall x, In x l2 -> PyFloat.leb (k r) (k x) = true).
Proof.
  induction l as [|x l IH]; intros pre mid best Hall Hpre Hmid.
  - exists best, pre, mid. rewrite app_nil_r. auto.
  - assert (Hin : forall y, In y (pre ++ best :: mid) \/ y = x ->
                            no_negativo (k y) = true).
    { intros y Hy. apply Hall. rewrite in_app_iff in *. simpl in *.
      rewrite in_app_iff. simpl. intuition. }
    assert (Hb : no_negativo (k best) = true).
    { apply Hin. left. apply in_elt. }
    assert (Hx : no_negativo (k x) = true) by (apply Hin; now right).
    assert (Hkx : key x = Ok (k x)).
    { apply Hall. rewrite in_app_iff. right. right.
      rewrite in_app_iff. right. now left. }
    simpl. rewrite Hkx. cbn [bind].
    destruct (PyFloat.ltb (k x) (k best)) eqn:E.
    + destruct (IH (pre ++ best :: mid) [] x) as (r & l1 & l2 & Hr & Hl & H1 & H2).
      * intros y Hy. apply Hall. simpl in Hy. rewrite <- app_assoc in Hy. exact Hy.
      * intros y Hy. apply in_app_iff in Hy. destruct Hy as [Hy|[<-|Hy]].
        -- apply (ltb_trans _ (k best)); auto.
           apply Hin. left. apply in_app_iff. now left.
        -- exact E.
        -- apply (ltb_leb_trans _ (k best)); auto.
           apply Hin. left. apply in_app_iff. right. now right.
      * intros y [].
      * exists r, l1, l2. repeat split; auto.
        rewrite <- Hl. simpl. now rewrite <- app_assoc.
    + destruct (IH pre (mid ++ [x]) best) as (r & l1 & l2 & Hr & Hl & H1 & H2).
      * intros y Hy. apply Hall. rewrite <- app_assoc in Hy. exact Hy.
      * exact Hpre.
      * intros y Hy. apply in_app_iff in Hy. destruct Hy as [Hy|[<-|[]]].
        -- now apply Hmid.
        -- now apply ltb_false_leb.
      * exists r, l1, l2. repeat split; auto.
        rewrite <- Hl. now rewrite <- app_assoc.
Qed.

Lemma seq_split_order (l1 l2 : list nat) (r : nat) :
  forall a n, seq a n = l1 ++ r :: l2 ->
  (forall j, In j l1 -> (j < r)%nat) /\ (forall j, In j l2 -> (r < j)%nat).
Proof.
  induction l1 as [|x l1 IH]; intros a n H.
  - destruct n as [|n]; [discriminate|]. simpl in H. injection H as <- <-.
    split; [intros j []|]. intros j Hj. apply in_seq in Hj. lia.
  - destruct n as [|n]; [discriminate|]. simpl in H. injection H as <- H.
    destruct (IH _ _ H) as [H1 H2]. split; [|exact H2].
    intros j [<-|Hj]; [|now apply H1].
    assert (Hr : In r (seq (S a) n)) by (rewrite H; apply in_elt).
    apply in_seq in Hr. lia.
Qed.

(** ** The table *)

Lemma temperaturas_length : List.length temperaturas = 25%nat.
Proof. reflexivity. Qed.

Lemma distancia_ok (t : pyfloat) (i : nat) :
  (i < 25)%nat -> is_ok (distancia t i) = true.
Proof.
  intros Hi. unfold distancia.
  destruct (getitem_lt temperaturas i) as (a & -> & _); [exact Hi|].
  reflexivity.
Qed.

(** The search always returns an index of the table, whatever the
    temperature is (also for an infinity or a NaN). *)
Lemma indice_cercano_total (t : pyfloat) :
  exists i, indice_cercano t = Ok i /\ (i < 25)%nat.
Proof.
  unfold indice_cercano.
  destruct (py_min_in (distancia t) (range_len temperaturas))
    as (r & Hr & Hin).
  - discriminate.
  - apply Forall_forall. intros i Hi. apply in_seq in Hi.
    apply distancia_ok. rewrite temperaturas_length in Hi. lia.
  - exists r. split; [exact Hr|].
    apply in_seq in Hin. rewrite temperaturas_length in Hin. lia.
Qed.

(** ** Selection of the list of values *)

Lemma seleccionar_aceite (tipo : string) :
  lower tipo = "aceite" -> seleccionar_valores tipo = Ok valores_aceite.
Proof. intros H. unfold seleccionar_valores. now rewrite H. Qed.

Lemma seleccionar_seco (tipo : string) :
  lower tipo = "seco" -> seleccionar_valores tipo = Ok valores_seco.
Proof. intros H. unfold seleccionar_valores. now rewrite H. Qed.

Lemma seleccionar_no_valido (tipo : string) :
  ~ tipo_valido tipo ->
  seleccionar_valores tipo = Raise (ValueError msg_tipo_no_valido).
Proof.
  intros H. unfold seleccionar_valores.
  destruct (String.eqb_spec (lower tipo) "aceite") as [E|_].
  - destruct H. now apply tipo_aceite.
  - destruct (String.eqb_spec (lower tipo) "seco") as [E|_]; [|reflexivity].
    destruct H. now apply tipo_seco.
Qed.

Lemma seleccionar_valido (tipo : string) :
  tipo_valido tipo ->
  exists valores,
    seleccionar_valores tipo = Ok valores /\ List.length valores = 25%nat.
Proof.
  intros [H|H].
  - exists valores_aceite. split; [now apply seleccionar_aceite|reflexivity].
  - exists valores_seco. split; [now apply seleccionar_seco|reflexivity].
Qed.

(** ** Equality of floats against a literal *)

Lemma eqb_finite_inv (t : pyfloat) (s : bool) (m : positive) (e : Z) :
  PyFloat.eqb t (S754_finite s m e) = true -> t = S754_finite s m e.
Proof.
  unfold PyFloat.eqb, SFeqb.
  destruct t as [s'|s'| |s' m' e']; simpl;
    try (destruct s'; discriminate); try (destruct s; discriminate).
  destruct s', s; try discriminate;
    destruct (Z.compare_spec e' e) as [He|He|He]; try discriminate;
    fold (Pos.compare m' m);
    destruct (Pos.compare_spec m' m) as [Hm|Hm|Hm]; try discriminate;
    intros _; now subst.
Qed.

Lemma eqb_zero_inv (t : pyfloat) (s : bool) :
  PyFloat.eqb t (S754_zero s) = true ->
  t = S754_zero false \/ t = S754_zero true.
Proof.
  unfold PyFloat.eqb, SFeqb.
  destruct t as [[|]|[|]| |[|] m' e']; simpl; try discriminate; auto.
Qed.

(** Replaces a float that is equal to a literal by the literal (or by one
    of the two zeros). *)
Ltac literal_float H :=
  match type of H with
  | PyFloat.eqb _ ?x = true =>
      let y := eval vm_compute in x in
      change x with y in H;
      first [ apply eqb_finite_inv in H
            | apply eqb_zero_inv in H; destruct H as [H|H] ];
      rewrite H
  end.

Lemma nth_error_temperaturas (k : nat) (Tk : Z) :
  nth_error temperaturas k = Some Tk ->
  (k < 25)%nat /\ Tk = -10 + 5 * Z.of_nat k.
Proof.
  intros H.
  assert (Hk : (k < 25)%nat).
  { rewrite <- temperaturas_length. apply nth_error_Some. congruence. }
  split; [exact Hk|]. clear Hk.
  do 25 (destruct k as [|k];
         [ vm_compute in H; injection H as <-; reflexivity | ]).
  destruct k; discriminate H.
Qed.

(** At a sample point the search stops at the index of the point. *)
Lemma indice_cercano_muestra (k : nat) (Tk : Z) (t : pyfloat) :
  nth_error temperaturas k = Some Tk ->
  PyFloat.eqb t (PyFloat.of_int Tk) = true ->
  indice_cercano t = Ok k.
Proof.
  intros Hk Ht. apply nth_error_temperaturas in Hk. destruct Hk as [Hk ->].
  do 25 (destruct k as [|k];
         [ literal_float Ht; vm_compute; reflexivity | ]).
  lia.
Qed.

(** Half way between two consecutive sample points the search keeps the
    first of the two. *)
Lemma indice_cercano_medio (k : nat) (Tk Tk1 : Z) (t : pyfloat) :
  nth_error temperaturas k = Some Tk ->
  nth_error temperaturas (S k) = Some Tk1 ->
  PyFloat.eqb t (punto_medio Tk Tk1) = true ->
  indice_cercano t = Ok k.
Proof.
  intros Hk Hk1 Ht.
  apply nth_error_temperaturas in Hk. destruct Hk as [Hk ->].
  apply nth_error_temperaturas in Hk1. destruct Hk1 as [Hk1 ->].
  do 24 (destruct k as [|k];
         [ literal_float Ht; vm_compute; reflexivity | ]).
  lia.
Qed.

Lemma obtener_valor_indice (t : pyfloat) (tipo : string)
    (valores : list pyfloat) (i : nat) :
  seleccionar_valores tipo = Ok valores ->
  indice_cercano t = Ok i ->
  obtener_valor_por_temperatura t tipo = getitem valores i.
Proof.
  intros Hs Hi. unfold obtener_valor_por_temperatura.
  rewrite Hs. simpl. rewrite Hi. reflexivity.
Qed.

(** ** The search returns the first index of least distance *)

Lemma of_int_temperatura (i : nat) (Ti : Z) :
  nth_error temperaturas i = Some Ti ->
  (exists s m e, PyFloat.of_int Ti = S754_finite s m e) \/
  (exists s, PyFloat.of_int Ti = S754_zero s).
Proof.
  intros H. apply nth_error_temperaturas in H. destruct H as [Hi ->].
  do 25 (destruct i as [|i];
         [ vm_compute; first [ left; do 3 eexists; reflexivity
                             | right; eexists; reflexivity ] | ]).
  lia.
Qed.

Lemma distancia_inv (t : pyfloat) (j : nat) (dj : pyfloat) :
  distancia t j = Ok dj ->
  exists Tj, nth_error temperaturas j = Some Tj /\
             dj = PyFloat.abs (PyFloat.int_sub Tj t).
Proof.
  unfold distancia, getitem. intros H.
  destruct (nth_error temperaturas j) as [Tj|]; [|discriminate].
  exists Tj. split; [reflexivity|]. simpl in H. congruence.
Qed.

Lemma distancia_no_negativo (t : pyfloat) (j : nat) (dj : pyfloat) :
  t <> PyFloat.nan -> distancia t j = Ok dj -> no_negativo dj = true.
Proof.
  intros Ht H. apply distancia_inv in H. destruct H as (Tj & HTj & ->).
  apply abs_no_negativo. unfold PyFloat.int_sub, PyFloat.sub.
  apply SFsub_not_nan; [|exact Ht].
  exact (of_int_temperatura j Tj HTj).
Qed.

Lemma indice_cercano_first_minimum (t : pyfloat) :
  t <> PyFloat.nan ->
  exists r dr,
    indice_cercano t = Ok r /\ distancia t r = Ok dr /\
    forall j dj, distancia t j = Ok dj ->
      PyFloat.leb dr dj = true /\
      ((j < r)%nat -> PyFloat.ltb dr dj = true).
Proof.
  intros Ht.
  set (k := fun i => PyFloat.abs (PyFloat.int_sub (nth i temperaturas 0) t)).
  assert (Hk : forall i, (i < 25)%nat -> distancia t i = Ok (k i)).
  { intros i Hi. unfold distancia, k.
    destruct (getitem_lt temperaturas i Hi) as (Ti & -> & Hn).
    cbn [bind]. now rewrite (nth_error_nth _ _ 0 Hn). }
  assert (Hall : forall x, In x ([] ++ 0%nat :: [] ++ seq 1 24) ->
                   distancia t x = Ok (k x) /\ no_negativo (k x) = true).
  { intros x Hx. assert (Hlt : (x < 25)%nat).
    { change ([] ++ 0%nat :: [] ++ seq 1 24) with (seq 0 25) in Hx.
      apply in_seq in Hx. lia. }
    split; [now apply Hk|].
    exact (distancia_no_negativo t x (k x) Ht (Hk x Hlt)). }
  destruct (min_loop_first_min (distancia t) k (seq 1 24) [] [] 0%nat Hall)
    as (r & l1 & l2 & Hr & Hsplit & H1 & H2).
  - intros x [].
  - intros x [].
  - change ([] ++ 0%nat :: [] ++ seq 1 24) with (seq 0 25) in Hsplit.
    destruct (seq_split_order l1 l2 r 0 25 Hsplit) as [Hlt Hgt].
    assert (Hr25 : (r < 25)%nat).
    { assert (Hin : In r (seq 0 25)) by (rewrite Hsplit; apply in_elt).
      apply in_seq in Hin. lia. }
    exists r, (k r). split; [|split].
    + unfold indice_cercano.
      change (range_len temperaturas) with (0%nat :: seq 1 24).
      cbn [py_min]. rewrite (Hk 0%nat) by lia. cbn [bind]. exact Hr.
    + now apply Hk.
    + intros j dj Hj.
      assert (Hj25 : (j < 25)%nat).
      { apply distancia_inv in Hj. destruct Hj as (Tj & HTj & _).
        exact (proj1 (nth_error_temperaturas j Tj HTj)). }
      rewrite (Hk j Hj25) in Hj. injection Hj as <-.
      assert (Hin : In j (l1 ++ r :: l2)).
      { rewrite <- Hsplit. apply in_seq. lia. }
      apply in_app_iff in Hin. destruct Hin as [Hin|[<-|Hin]].
      * split; [|intros _; now apply H1].
        apply ltb_false_leb.
        -- apply (distancia_no_negativo t j _ Ht (Hk j Hj25)).
        -- apply (distancia_no_negativo t r _ Ht (Hk r Hr25)).
        -- destruct (PyFloat.ltb (k j) (k r)) eqn:E; [|reflexivity].
           pose proof (ltb_trans (k j) (k r) (k j)
                         (distancia_no_negativo t j _ Ht (Hk j Hj25))
                         (distancia_no_negativo t r _ Ht (Hk r Hr25))
                         (distancia_no_negativo t j _ Ht (Hk j Hj25))
                         E (H1 j Hin)) as Hjj.
           apply ltb_rango in Hjj;
             try apply (distancia_no_negativo t j _ Ht (Hk j Hj25)).
           now apply lex_lt_irrefl in Hjj.
      * split; [|lia]. apply leb_refl.
        apply (distancia_no_negativo t r _ Ht (Hk r Hr25)).
      * split; [now apply H2|]. specialize (Hgt j Hin). lia.
Qed.

(** With a valid kind the lookup returns a value at every temperature. *)
Lemma obtener_valor_total (t : pyfloat) (tipo : string) :
  tipo_valido tipo ->
  exists v, obtener_valor_por_temperatura t tipo = Ok v.
Proof.
  intros Hv. destruct (seleccionar_valido tipo Hv) as (valores & Hs & Hlen).
  destruct (indice_cercano_total t) as (i & Hi & Hlt).
  rewrite (obtener_valor_indice t tipo valores i Hs Hi).
  destruct (getitem_lt valores i) as (v & Hv' & _); [lia|].
  now exists v.
Qed.

(** * The claims about the lookup *)

(** C1. At a temperature equal to one of the 25 sample points the lookup
    returns the value tabulated at that point, and at a temperature half
    way between two consecutive sample points (2.5 between 0 and 5) it
    returns the value of the lower of the two, the first the scan meets;
    this for the list of oil and for the list of dry insulation. The
    index the scan stops at has the least absolute difference of the
    table, and every index before it has a strictly greater one. *)
Theorem lookup_at_sample_points_and_midpoints
    (t : pyfloat) (tipo : string) (k : nat) (Tk : Z) :
  nth_error temperaturas k = Some Tk ->
  (PyFloat.eqb t (PyFloat.of_int Tk) = true \/
   exists Tk1, nth_error temperaturas (S k) = Some Tk1 /\
               PyFloat.eqb t (punto_medio Tk Tk1) = true) ->
  (indice_cercano t = Ok k /\
   exists dk, distancia t k = Ok dk /\
     forall j dj, distancia t j = Ok dj ->
       PyFloat.leb dk dj = true /\
       ((j < k)%nat -> PyFloat.ltb dk dj = true)) /\
  (lower tipo = "aceite" ->
   exists v, nth_error valores_aceite k = Some v /\
             obtener_valor_por_temperatura t tipo = Ok v) /\
  (lower tipo = "seco" ->
   exists v, nth_error valores_seco k = Some v /\
             obtener_valor_por_temperatura t tipo = Ok v).
Proof.
  intros Hk Ht.
  assert (Hi : indice_cercano t = Ok k).
  { destruct Ht as [Ht|(Tk1 & Hk1 & Ht)].
    - exact (indice_cercano_muestra k Tk t Hk Ht).
    - exact (indice_cercano_medio k Tk Tk1 t Hk Hk1 Ht). }
  assert (Hnan : t <> PyFloat.nan).
  { intros ->. destruct Ht as [Ht|(Tk1 & _ & Ht)]; discriminate Ht. }
  apply nth_error_temperaturas in Hk. destruct Hk as [Hk _].
  split; [|split; intros Htipo].
  - split; [exact Hi|].
    destruct (indice_cercano_first_minimum t Hnan) as (r & dr & Hr & Hdr & Hmin).
    assert (r = k) by congruence. subst r. now exists dr.
  - destruct (getitem_lt valores_aceite k) as (v & Hv & Hn); [exact Hk|].
    exists v. split; [exact Hn|].
    rewrite (obtener_valor_indice t tipo _ k (seleccionar_aceite tipo Htipo) Hi).
    exact Hv.
  - destruct (getitem_lt valores_seco k) as (v & Hv & Hn); [exact Hk|].
    exists v. split; [exact Hn|].
    rewrite (obtener_valor_indice t tipo _ k (seleccionar_seco tipo Htipo) Hi).
    exact Hv.
Qed.

Lemma lookup_at_sample_points_and_midpoints_witness :
  exists v, nth_error valores_aceite 2 = Some v /\
            obtener_valor_por_temperatura (PyFloat.dec 25 1) "Aceite" = Ok v.
Proof.
  refine (proj1 (proj2 (lookup_at_sample_points_and_midpoints
                          (PyFloat.dec 25 1) "Aceite" 2%nat 0 eq_refl _))
                eq_refl).
  right. exists 5. split; reflexivity.
Defined.

(** C2, at inputs where the code leaves the claim. 1e19 is above 110,
    but every difference [temperaturas[i] - 1e19] rounds to [-1e19]: the
    25 keys are equal, [min] keeps the first index and the lookup returns
    the value of -10 (0.125), not the value of 110 (509.0). The same
    happens at the positive infinity, and at 2**57 the keys of 105 and of
    110 are already equal and the value of 105 (359.15) is returned.
    Next to the table the claim holds: -15.0 gives the value of -10 and
    115.0 the value of 110. *)
Theorem lookup_far_above_range_returns_first_entry :
  PyFloat.ltb (PyFloat.of_int 110) (PyFloat.of_int (10 ^ 19)) = true /\
  map (distancia (PyFloat.of_int (10 ^ 19))) (range_len temperaturas)
    = repeat (Ok (PyFloat.of_int (10 ^ 19))) 25 /\
  obtener_valor_por_temperatura (PyFloat.of_int (10 ^ 19)) "Aceite"
    = Ok (PyFloat.dec 125 3) /\
  obtener_valor_por_temperatura PyFloat.inf "Aceite"
    = Ok (PyFloat.dec 125 3) /\
  obtener_valor_por_temperatura (PyFloat.of_int (2 ^ 57)) "Aceite"
    = Ok (PyFloat.dec 35915 2) /\
  nth_error valores_aceite 0 = Some (PyFloat.dec 125 3) /\
  nth_error valores_aceite 23 = Some (PyFloat.dec 35915 2) /\
  nth_error valores_aceite 24 = Some (PyFloat.dec 50900 2) /\
  PyFloat.eqb (PyFloat.dec 125 3) (PyFloat.dec 50900 2) = false /\
  PyFloat.eqb (PyFloat.dec 35915 2) (PyFloat.dec 50900 2) = false /\
  obtener_valor_por_temperatura (PyFloat.dec (-150) 1) "Aceite"
    = Ok (PyFloat.dec 125 3) /\
  obtener_valor_por_temperatura (PyFloat.dec 1150 1) "Aceite"
    = Ok (PyFloat.dec 50900 2).
Proof.
  repeat (split; [vm_compute; reflexivity|]).
  vm_compute; reflexivity.
Qed.

(** C3. The lookup raises [ValueError] exactly when the kind of
    insulation, once in lower case, is neither "aceite" nor "seco"; with
    a valid kind it returns a value for every temperature, and it raises
    no other exception. *)
Theorem lookup_raises_iff_kind_not_recognised (t : pyfloat) (tipo : string) :
  ((exists msg, obtener_valor_por_temperatura t tipo = Raise (ValueError msg))
   <-> (lower tipo <> "aceite" /\ lower tipo <> "seco")) /\
  ((lower tipo = "aceite" \/ lower tipo = "seco") ->
   exists v, obtener_valor_por_temperatura t tipo = Ok v) /\
  (forall e, obtener_valor_por_temperatura t tipo = Raise e ->
             e = ValueError msg_tipo_no_valido).
Proof.
  pose proof (obtener_valor_total t tipo) as Hval.
  assert (Hinv : ~ tipo_valido tipo ->
                 obtener_valor_por_temperatura t tipo
                 = Raise (ValueError msg_tipo_no_valido)).
  { intros Hn. unfold obtener_valor_por_temperatura.
    now rewrite (seleccionar_no_valido tipo Hn). }
  assert (Hdec : tipo_valido tipo \/ ~ tipo_valido tipo).
  { destruct (string_dec (lower tipo) "aceite") as [E|N1];
      [left; now apply tipo_aceite|].
    destruct (string_dec (lower tipo) "seco") as [E|N2];
      [left; now apply tipo_seco|].
    right. intros [H|H]; contradiction. }
  split; [split|split].
  - intros [msg Hr]. split; intros E.
    + destruct (Hval (tipo_aceite _ E)) as [v Hv]. congruence.
    + destruct (Hval (tipo_seco _ E)) as [v Hv]. congruence.
  - intros [N1 N2]. exists msg_tipo_no_valido. apply Hinv.
    intros [H|H]; contradiction.
  - intros [E|E]; apply Hval; [now apply tipo_aceite|now apply tipo_seco].
  - intros e He. destruct Hdec as [Hv|Hn].
    + destruct (Hval Hv) as [v Hv']. congruence.
    + rewrite (Hinv Hn) in He. congruence.
Qed.

(** C4. The result does not depend on the case of the letters of the
    kind of insulation: two arguments with the same lower-case form give
    the same result (the same value or the same error) at every
    temperature, so "aceite" and "ACEITE" agree, and "seco" and "SECO". *)
Theorem lookup_case_insensitive (t : pyfloat) (tipo1 tipo2 : string) :
  lower tipo1 = lower tipo2 ->
  obtener_valor_por_temperatura t tipo1 = obtener_valor_por_temperatura t tipo2.
Proof.
  intros H. unfold obtener_valor_por_temperatura, seleccionar_valores.
  now rewrite H.
Qed.

Lemma lookup_case_insensitive_witness :
  obtener_valor_por_temperatura (PyFloat.dec 215 1) "aceite"
  = obtener_valor_por_temperatura (PyFloat.dec 215 1) "ACEITE".
Proof.
  exact (lookup_case_insensitive (PyFloat.dec 215 1) "aceite" "ACEITE" eq_refl).
Defined.

(** C5. The table has exactly the 25 sample points -10, -5, ..., 110, in
    strictly increasing order, and a list of 25 values for oil and one
    for dry insulation; every call selects one of these two constant
    lists or raises. *)
Theorem reference_table_shape :
  temperaturas = map (fun i => -10 + 5 * Z.of_nat i) (seq 0 25) /\
  List.length temperaturas = 25%nat /\
  hd_error temperaturas = Some (-10) /\
  last temperaturas 0 = 110 /\
  StronglySorted Z.lt temperaturas /\
  List.length valores_aceite = 25%nat /\
  List.length valores_seco = 25%nat /\
  (forall tipo,
     seleccionar_valores tipo = Ok valores_aceite \/
     seleccionar_valores tipo = Ok valores_seco \/
     seleccionar_valores tipo = Raise (ValueError msg_tipo_no_valido)).
Proof.
  repeat split; try reflexivity.
  - vm_compute. repeat constructor.
  - intros tipo. unfold seleccionar_valores.
    destruct (String.eqb (lower tipo) "aceite"); [now left|].
    destruct (String.eqb (lower tipo) "seco"); [right; now left|].
    right. now right.
Qed.

(** * [convertir_a_mayusculas] *)

(** Induction over a value and, through the containers, over every value
    inside it. *)
Lemma pyval_deep_ind (P : pyval -> Prop) :
  P VNone ->
  (forall b, P (VBool b)) ->
  (forall n, P (VInt n)) ->
  (forall x, P (VFloat x)) ->
  (forall s, P (VStr s)) ->
  (forall items, Forall (fun kv => P (snd kv)) items -> P (VDict items)) ->
  (forall l, Forall P l -> P (VList l)) ->
  (forall l, Forall P l -> P (VTuple l)) ->
  (forall r, P (VOther r)) ->
  forall v, P v.
Proof.
  intros HNone HBool HInt HFloat HStr HDict HList HTuple HOther.
  fix IH 1. intros [ |b|n|x|s|items|l|l|r].
  - exact HNone.
  - apply HBool.
  - apply HInt.
  - apply HFloat.
  - apply HStr.
  - apply HDict. induction items as [|[k v] items IHitems]; constructor.
    + apply IH.
    + exact IHitems.
  - apply HList. induction l as [|v l IHl]; constructor; [apply IH|exact IHl].
  - apply HTuple. induction l as [|v l IHl]; constructor; [apply IH|exact IHl].
  - apply HOther.
Qed.

Lemma key_eqb_eq (a b : pykey) : key_eqb a b = true <-> a = b.
Proof.
  destruct a as [s|n], b as [s'|n']; simpl; split; intros H;
    try discriminate.
  - apply String.eqb_eq in H. now subst.
  - injection H as ->. apply String.eqb_refl.
  - apply Z.eqb_eq in H. now subst.
  - injection H as ->. apply Z.eqb_refl.
Qed.

Lemma key_eqb_refl (a : pykey) : key_eqb a a = true.
Proof. now apply key_eqb_eq. Qed.

Lemma dict_get_set (d : dict) (k k' : pykey) (v : pyval) :
  dict_get (dict_set d k v) k'
  = if key_eqb k k' then Some v else dict_get d k'.
Proof.
  induction d as [|[k0 v0] d IH]; simpl; [reflexivity|].
  destruct (key_eqb k0 k) eqn:E0; simpl.
  - apply key_eqb_eq in E0. subst k0.
    now destruct (key_eqb k k').
  - rewrite IH. destruct (key_eqb k0 k') eqn:E1; [|reflexivity].
    destruct (key_eqb k k') eqn:E2; [|reflexivity].
    apply key_eqb_eq in E1, E2. subst.
    rewrite key_eqb_refl in E0. discriminate.
Qed.

(** A key that the dictionary does not hold yet is added at the end. *)
Lemma dict_set_new (d : dict) (k : pykey) (v : pyval) :
  existsb (key_eqb k) (map fst d) = false ->
  dict_set d k v = d ++ [(k, v)].
Proof.
  induction d as [|[k0 v0] d IH]; simpl; [reflexivity|].
  intros H. apply orb_false_iff in H. destruct H as [H0 H].
  assert (E : key_eqb k0 k = false).
  { destruct (key_eqb k0 k) eqn:E; [|reflexivity].
    apply key_eqb_eq in E. subst. now rewrite key_eqb_refl in H0. }
  rewrite E, IH by exact H. reflexivity.
Qed.

(** The dictionary comprehension [{k: f(v) for k, v in items}] over the
    items of a dictionary keeps every key at its place. *)
Lemma dict_comprehension_map (f : pyval -> pyval) (items acc : dict) :
  nodup_keys (map fst acc ++ map fst items) = true ->
  fold_left (fun d kv => dict_set d (fst kv) (f (snd kv))) items acc
  = acc ++ map (fun kv => (fst kv, f (snd kv))) items.
Proof.
  revert acc. induction items as [|[k v] items IH]; intros acc H; simpl.
  - now rewrite app_nil_r.
  - assert (Hk : existsb (key_eqb k) (map fst acc) = false).
    { clear IH. induction acc as [|[k0 v0] acc IHacc]; [reflexivity|].
      simpl in H |- *. apply andb_true_iff in H. destruct H as [H0 H].
      rewrite (IHacc H), orb_false_r.
      apply negb_true_iff in H0. rewrite existsb_app in H0.
      apply orb_false_iff in H0. destruct H0 as [_ H0]. simpl in H0.
      apply orb_false_iff in H0. destruct H0 as [H0 _].
      destruct (key_eqb k k0) eqn:E; [|reflexivity].
      apply key_eqb_eq in E. subst. now rewrite key_eqb_refl in H0. }
    rewrite (dict_set_new acc k (f v) Hk). rewrite IH.
    + now rewrite <- app_assoc.
    + rewrite map_app. simpl. now rewrite <- app_assoc.
Qed.

Lemma convertir_a_mayusculas_dict (upper : string -> string) (items : dict) :
  nodup_keys (map fst items) = true ->
  convertir_a_mayusculas upper (VDict items)
  = VDict (map (fun kv => (fst kv, convertir_a_mayusculas upper (snd kv)))
               items).
Proof.
  intros H. simpl. f_equal.
  exact (dict_comprehension_map (convertir_a_mayusculas upper) items [] H).
Qed.

(** What holds of every value of a container holds of the container. *)
Lemma convertir_a_mayusculas_items (upper : string -> string) (items : dict) :
  Forall (fun kv =>
            forma (convertir_a_mayusculas upper (snd kv)) = forma (snd kv) /\
            cadenas (convertir_a_mayusculas upper (snd kv))
            = map upper (cadenas (snd kv))) items ->
  map (fun kv => (fst kv, forma (snd kv)))
      (map (fun kv => (fst kv, convertir_a_mayusculas upper (snd kv))) items)
  = map (fun kv => (fst kv, forma (snd kv))) items /\
  flat_map (fun kv => cadenas (snd kv))
      (map (fun kv => (fst kv, convertir_a_mayusculas upper (snd kv))) items)
  = map upper (flat_map (fun kv => cadenas (snd kv)) items).
Proof.
  induction 1 as [|kv items [Hf Hc] _ [IHf IHc]]; simpl; [now split|].
  rewrite Hf, Hc, IHf, IHc, map_app. now split.
Qed.

Lemma convertir_a_mayusculas_elems (upper : string -> string) (l : list pyval) :
  Forall (fun v =>
            forma (convertir_a_mayusculas upper v) = forma v /\
            cadenas (convertir_a_mayusculas upper v) = map upper (cadenas v)) l ->
  map forma (map (convertir_a_mayusculas upper) l) = map forma l /\
  flat_map cadenas (map (convertir_a_mayusculas upper) l)
  = map upper (flat_map cadenas l).
Proof.
  induction 1 as [|v l [Hf Hc] _ [IHf IHc]]; simpl; [now split|].
  rewrite Hf, Hc, IHf, IHc, map_app. now split.
Qed.

Lemma convertir_a_mayusculas_deep (upper : string -> string) (data : pyval) :
  claves_unicas data = true ->
  forma (convertir_a_mayusculas upper data) = forma data /\
  cadenas (convertir_a_mayusculas upper data) = map upper (cadenas data).
Proof.
  induction data as [ |b|n|x|s|items IH|l IH|l IH|r] using pyval_deep_ind;
    intros Hwf; try (split; reflexivity).
  - simpl in Hwf. apply andb_true_iff in Hwf. destruct Hwf as [Hk Hv].
    rewrite (convertir_a_mayusculas_dict upper items Hk).
    destruct (convertir_a_mayusculas_items upper items) as [Hf Hc].
    { rewrite forallb_forall in Hv. rewrite Forall_forall in IH |- *.
      intros kv Hin. apply IH; auto. }
    simpl. now rewrite Hf, Hc.
  - simpl in Hwf.
    destruct (convertir_a_mayusculas_elems upper l) as [Hf Hc].
    { rewrite forallb_forall in Hwf. rewrite Forall_forall in IH |- *.
      intros v Hin. apply IH; auto. }
    simpl. now rewrite Hf, Hc.
  - simpl in Hwf.
    destruct (convertir_a_mayusculas_elems upper l) as [Hf Hc].
    { rewrite forallb_forall in Hwf. rewrite Forall_forall in IH |- *.
      intros v Hin. apply IH; auto. }
    simpl. now rewrite Hf, Hc.
Qed.

(** C9. [convertir_a_mayusculas] is defined on every value: a string
    becomes its upper case; a dictionary keeps its keys, a list and a
    tuple keep their kind, their length and their order, and the values
    inside them are converted in turn; any other value is returned as it
    is. At any depth, what changes are the strings and nothing else
    ([forma]), and every string is the upper case of the one that was
    there ([cadenas]). *)
Theorem convertir_a_mayusculas_traversal
    (upper : string -> string) (data : pyval) :
  claves_unicas data = true ->
  match data with
  | VStr s => convertir_a_mayusculas upper data = VStr (upper s)
  | VDict items =>
      convertir_a_mayusculas upper data
      = VDict (map (fun kv => (fst kv, convertir_a_mayusculas upper (snd kv)))
                   items)
  | VList l =>
      convertir_a_mayusculas upper data
      = VList (map (convertir_a_mayusculas upper) l)
  | VTuple l =>
      convertir_a_mayusculas upper data
      = VTuple (map (convertir_a_mayusculas upper) l)
  | _ => convertir_a_mayusculas upper data = data
  end /\
  forma (convertir_a_mayusculas upper data) = forma data /\
  cadenas (convertir_a_mayusculas upper data) = map upper (cadenas data).
Proof.
  intros Hwf. split.
  - destruct data as [ |b|n|x|s|items|l|l|r]; try reflexivity.
    apply convertir_a_mayusculas_dict.
    simpl in Hwf. now apply andb_true_iff in Hwf.
  - now apply convertir_a_mayusculas_deep.
Qed.

Lemma convertir_a_mayusculas_traversal_witness :
  convertir_a_mayusculas upper_ascii_str valor_ejemplo
  = VDict
      [ (KStr "nombreProyecto", VStr "SUBESTACION NORTE");
        (KInt 7, VList [VStr "A"; VInt 3; VTuple [VStr "B1"; VNone]]);
        (KStr "resReferida_AVST", VFloat (PyFloat.dec 1250 2));
        (KStr "fechaCreacionSinFormato",
         VOther "datetime.date(2025, 1, 31)") ] /\
  forma (convertir_a_mayusculas upper_ascii_str valor_ejemplo)
  = forma valor_ejemplo /\
  cadenas (convertir_a_mayusculas upper_ascii_str valor_ejemplo)
  = map upper_ascii_str (cadenas valor_ejemplo).
Proof.
  destruct (convertir_a_mayusculas_traversal upper_ascii_str valor_ejemplo
              eq_refl) as [Hone Hdeep].
  split; [|exact Hdeep].
  vm_compute. reflexivity.
Defined.

(** * Step 4 of the form *)

Lemma dict_get_default_set (d : dict) (k k' : pykey) (v default : pyval) :
  key_eqb k k' = false ->
  dict_get_default (dict_set d k v) k' default = dict_get_default d k' default.
Proof.
  intros H. unfold dict_get_default. now rewrite dict_get_set, H.
Qed.

(** Simplifies the look-up of a literal key in a dictionary that was
    updated at literal keys. *)
Ltac dict_simpl :=
  repeat (rewrite dict_get_set;
          cbn [key_eqb String.eqb Ascii.eqb Bool.eqb]).

Section Paso4Facts.

Variable float_of_str : string -> result pyfloat.

Lemma factor_de_correccion_set (d : dict) (k : string) (v : pyval) :
  String.eqb k "temperaturaPrueba" = false ->
  String.eqb k "tipoAislamiento" = false ->
  factor_de_correccion float_of_str (dict_set d k v)
  = factor_de_correccion float_of_str d.
Proof.
  intros H1 H2. unfold factor_de_correccion.
  now rewrite !dict_get_default_set by assumption.
Qed.

Lemma factor_de_correccion_ok (d : dict) (t : pyfloat) (tipo : string)
    (factor : pyfloat) :
  py_float float_of_str (dict_get_default d "temperaturaPrueba" (VInt 0)) = Ok t ->
  dict_get d "tipoAislamiento" = Some (VStr tipo) ->
  obtener_valor_por_temperatura t tipo = Ok factor ->
  factor_de_correccion float_of_str d = Ok factor.
Proof.
  intros Ht Htipo Hf. unfold factor_de_correccion.
  rewrite Ht. simpl. unfold dict_get_default. rewrite Htipo. simpl. exact Hf.
Qed.

Lemma asignar_referida_ok (d : dict) (medida referida : string)
    (x factor : pyfloat) :
  dict_get d medida = Some (VFloat x) ->
  factor_de_correccion float_of_str d = Ok factor ->
  asignar_referida float_of_str d medida referida
  = Ok (dict_set d referida (VFloat (PyFloat.mul x factor))).
Proof.
  intros Hm Hf. unfold asignar_referida, dict_getitem.
  rewrite Hm. simpl. rewrite Hf. reflexivity.
Qed.

Lemma asignar_esperada_ok (d : dict) (esp tipo : string) (oil dry : Z) :
  dict_get d "tipoAislamiento" = Some (VStr tipo) ->
  asignar_esperada d esp oil dry
  = Ok (dict_set d esp (VInt (if String.eqb tipo "Aceite" then oil else dry))).
Proof.
  intros Ht. unfold asignar_esperada, dict_getitem. rewrite Ht. reflexivity.
Qed.

Lemma asignar_resultado_ok (d : dict) (resultado referida esp : string)
    (x : pyfloat) (n : Z) :
  dict_get d referida = Some (VFloat x) ->
  dict_get d esp = Some (VInt n) ->
  asignar_resultado d resultado referida esp
  = Ok (dict_set d resultado
          (VStr (if PyFloat.ge_int x n then "Cumple" else "No Cumple"))).
Proof.
  intros Hr He. unfold asignar_resultado, dict_getitem.
  rewrite Hr, He. reflexivity.
Qed.

Lemma asignar_referida_inv (d d' : dict) (medida referida : string) :
  asignar_referida float_of_str d medida referida = Ok d' ->
  exists v, d' = dict_set d referida v.
Proof.
  unfold asignar_referida. intros H.
  destruct (dict_getitem d medida) as [m|]; [simpl in H|discriminate].
  destruct (factor_de_correccion float_of_str d) as [f|]; [simpl in H|discriminate].
  destruct (py_mul_float m f) as [r|]; [simpl in H|discriminate].
  exists r. congruence.
Qed.

Lemma asignar_esperada_inv (d d' : dict) (esp : string) (oil dry : Z) :
  asignar_esperada d esp oil dry = Ok d' ->
  exists v, d' = dict_set d esp v.
Proof.
  unfold asignar_esperada. intros H.
  destruct (dict_getitem d "tipoAislamiento") as [t|]; [simpl in H|discriminate].
  eexists. symmetry. injection H as H. exact H.
Qed.

Lemma asignar_resultado_inv (d d' : dict) (resultado referida esp : string) :
  asignar_resultado d resultado referida esp = Ok d' ->
  exists v, d' = dict_set d resultado v.
Proof.
  unfold asignar_resultado. intros H.
  destruct (dict_getitem d referida) as [r|]; [simpl in H|discriminate].
  destruct (dict_getitem d esp) as [e|]; [simpl in H|discriminate].
  destruct (py_ge r e) as [c|]; [simpl in H|discriminate].
  eexists. symmetry. injection H as H. exact H.
Qed.

Ltac paso_referida Hfac :=
  erewrite asignar_referida_ok;
  [ cbn [bind]
  | dict_simpl; reflexivity
  | rewrite ?factor_de_correccion_set by reflexivity; exact Hfac ].

Ltac paso_esperada Htipo :=
  erewrite asignar_esperada_ok; [ cbn [bind] | dict_simpl; exact Htipo ].

Ltac paso_resultado :=
  erewrite asignar_resultado_ok;
  [ cbn [bind] | dict_simpl; reflexivity | dict_simpl; reflexivity ].

Lemma kind_of_selectbox_valid (tipo : string) :
  tipo = "Aceite" \/ tipo = "Seco" -> tipo_valido tipo.
Proof.
  intros [->| ->]; [now apply tipo_aceite|now apply tipo_seco].
Qed.

(** The rows of the table when the transformer has three phases. *)
Lemma paso4_trifasico_filas (w : widgets_paso4) (data : dict)
    (tipo : string) (factor : pyfloat) :
  dict_get data "tipoAislamiento" = Some (VStr tipo) ->
  factor_de_correccion float_of_str data = Ok factor ->
  exists data',
    paso4_trifasico float_of_str w data = Ok data' /\
    fila_conforme data' (res_medida_avst w) factor
      (if String.eqb tipo "Aceite" then 5 else 25)
      "resReferida_AVST" "resEsp_AVST" "resultado_AVST" /\
    fila_conforme data' (res_medida_avsb w) factor
      (if String.eqb tipo "Aceite" then 5 else 25)
      "resReferida_AVSB" "resEsp_AVSB" "resultado_AVSB" /\
    fila_conforme data' (res_medida_bvst w) factor
      (if String.eqb tipo "Aceite" then 1 else 5)
      "resReferida_BVST" "resEsp_BVST" "resultado_BVST".
Proof.
  intros Htipo Hfac. unfold paso4_trifasico.
  paso_referida Hfac. paso_referida Hfac. paso_referida Hfac.
  paso_esperada Htipo. paso_esperada Htipo. paso_esperada Htipo.
  paso_resultado. paso_resultado. paso_resultado.
  eexists. split; [reflexivity|].
  unfold fila_conforme. dict_simpl. repeat split; reflexivity.
Qed.

(** The rows of the table when the transformer has one phase. *)
Lemma paso4_monofasico_filas (w : widgets_paso4) (data : dict)
    (tipo : string) (factor : pyfloat) :
  dict_get data "tipoAislamiento" = Some (VStr tipo) ->
  factor_de_correccion float_of_str data = Ok factor ->
  exists data',
    paso4_monofasico float_of_str w data = Ok data' /\
    fila_conforme data' (res_medida_avsb w) factor
      (if String.eqb tipo "Aceite" then 5 else 25)
      "resReferida_AVSB" "resEsp_AVSB" "resultado_AVSB" /\
    fila_conforme data' (res_medida_bvst w) factor
      (if String.eqb tipo "Aceite" then 1 else 5)
      "resReferida_BVST" "resEsp_BVST" "resultado_BVST".
Proof.
  intros Htipo Hfac. unfold paso4_monofasico.
  paso_referida Hfac. paso_referida Hfac.
  paso_esperada Htipo. paso_esperada Htipo. paso_esperada Htipo.
  paso_resultado. paso_resultado.
  eexists. split; [reflexivity|].
  unfold fila_conforme. dict_simpl. repeat split; reflexivity.
Qed.

(** Whatever the widgets and the dictionary hold, a run of the branch of
    one phase that reaches its end leaves the fixed label and the
    placeholder. *)
Lemma paso4_monofasico_avst (w : widgets_paso4) (data data' : dict) :
  paso4_monofasico float_of_str w data = Ok data' ->
  dict_get data' "resultado_AVST" = Some (VStr "Cumple") /\
  dict_get data' "resReferida_AVST" = Some (VStr "-").
Proof.
  unfold paso4_monofasico. intros H.
  repeat match type of H with
  | bind ?c _ = Ok _ =>
      let E := fresh "E" in
      destruct c as [?d|] eqn:E; [cbn [bind] in H|discriminate H];
      first [ apply asignar_referida_inv in E
            | apply asignar_esperada_inv in E
            | apply asignar_resultado_inv in E ];
      destruct E as [? ->]
  end.
  injection H as <-. dict_simpl. split; reflexivity.
Qed.

(** C6. Every row that is measured holds as referred resistance the
    measured resistance times the correction factor of the lookup, and
    its label is "Cumple" exactly when the referred resistance is at
    least the expected value, "No Cumple" otherwise; the expected value
    is 5 (oil) or 25 (dry) for high against ground and high against low,
    1 (oil) or 5 (dry) for low against ground. In the branch of three
    phases, the lines the claim is about, the three rows are measured.
    The theorem also says what the other branch leaves: with one phase
    the rows of high against low and low against ground are measured,
    and the row of high against ground holds the placeholder "-" and
    the label "Cumple". *)
Theorem step4_rows_compared (w : widgets_paso4) (data : dict)
    (fases : pyval) (tipo : string) (t : pyfloat) (alto bajo : Z) :
  dict_get data "carTrafo_NroFases" = Some fases ->
  dict_get data "tipoAislamiento" = Some (VStr tipo) ->
  (tipo = "Aceite" /\ alto = 5 /\ bajo = 1) \/
  (tipo = "Seco" /\ alto = 25 /\ bajo = 5) ->
  py_float float_of_str (dict_get_default data "temperaturaPrueba" (VInt 0))
  = Ok t ->
  exists factor data',
    obtener_valor_por_temperatura t tipo = Ok factor /\
    paso4 float_of_str w data = Ok data' /\
    (if py_eq_int fases 3
     then fila_conforme data' (res_medida_avst w) factor alto
            "resReferida_AVST" "resEsp_AVST" "resultado_AVST"
     else dict_get data' "resReferida_AVST" = Some (VStr "-") /\
          dict_get data' "resultado_AVST" = Some (VStr "Cumple")) /\
    fila_conforme data' (res_medida_avsb w) factor alto
      "resReferida_AVSB" "resEsp_AVSB" "resultado_AVSB" /\
    fila_conforme data' (res_medida_bvst w) factor bajo
      "resReferida_BVST" "resEsp_BVST" "resultado_BVST".
Proof.
  intros Hfases Htipo Hsel Ht.
  assert (Hv : tipo_valido tipo).
  { apply kind_of_selectbox_valid. tauto. }
  destruct (obtener_valor_total t tipo Hv) as [factor Hf].
  pose proof (factor_de_correccion_ok data t tipo factor Ht Htipo Hf) as Hfac.
  exists factor.
  unfold paso4, dict_getitem. rewrite Hfases. cbn [bind].
  destruct (py_eq_int fases 3).
  - destruct (paso4_trifasico_filas w data tipo factor Htipo Hfac)
      as (data' & Hrun & Hrows).
    exists data'. split; [exact Hf|]. split; [exact Hrun|].
    destruct Hsel as [(-> & -> & ->)|(-> & -> & ->)]; exact Hrows.
  - destruct (paso4_monofasico_filas w data tipo factor Htipo Hfac)
      as (data' & Hrun & Hrows).
    exists data'. split; [exact Hf|]. split; [exact Hrun|].
    destruct (paso4_monofasico_avst w data data' Hrun) as [Hres Href].
    split; [now split|].
    destruct Hsel as [(-> & -> & ->)|(-> & -> & ->)]; exact Hrows.
Qed.

(** C10. With one phase, a run of step 4 that reaches its end has the
    label of high against ground set to "Cumple" and its referred
    resistance set to the placeholder "-", whatever the widgets return
    and the dictionary holds; the other two rows are compared against
    their expected value as in the branch of three phases. *)
Theorem step4_single_phase_fixed_label (w : widgets_paso4) (data : dict)
    (fases : pyval) :
  dict_get data "carTrafo_NroFases" = Some fases ->
  py_eq_int fases 3 = false ->
  (forall data',
     paso4 float_of_str w data = Ok data' ->
     dict_get data' "resultado_AVST" = Some (VStr "Cumple") /\
     dict_get data' "resReferida_AVST" = Some (VStr "-")) /\
  (forall (tipo : string) (t : pyfloat) (alto bajo : Z),
     dict_get data "tipoAislamiento" = Some (VStr tipo) ->
     (tipo = "Aceite" /\ alto = 5 /\ bajo = 1) \/
     (tipo = "Seco" /\ alto = 25 /\ bajo = 5) ->
     py_float float_of_str (dict_get_default data "temperaturaPrueba" (VInt 0))
     = Ok t ->
     exists factor data',
       obtener_valor_por_temperatura t tipo = Ok factor /\
       paso4 float_of_str w data = Ok data' /\
       fila_conforme data' (res_medida_avsb w) factor alto
         "resReferida_AVSB" "resEsp_AVSB" "resultado_AVSB" /\
       fila_conforme data' (res_medida_bvst w) factor bajo
         "resReferida_BVST" "resEsp_BVST" "resultado_BVST").
Proof.
  intros Hfases H3.
  assert (Hrun : paso4 float_of_str w data
                 = paso4_monofasico float_of_str w data).
  { unfold paso4, dict_getitem. rewrite Hfases. cbn [bind]. now rewrite H3. }
  split.
  - intros data' H. rewrite Hrun in H.
    exact (paso4_monofasico_avst w data data' H).
  - intros tipo t alto bajo Htipo Hsel Ht.
    assert (Hv : tipo_valido tipo).
    { apply kind_of_selectbox_valid. tauto. }
    destruct (obtener_valor_total t tipo Hv) as [factor Hf].
    pose proof (factor_de_correccion_ok data t tipo factor
                  Ht Htipo Hf) as Hfac.
    destruct (paso4_monofasico_filas w data tipo factor Htipo Hfac)
      as (data' & Hmono & Hrows).
    exists factor, data'. split; [exact Hf|]. split.
    + now rewrite Hrun.
    + destruct Hsel as [(-> & -> & ->)|(-> & -> & ->)]; exact Hrows.
Qed.

End Paso4Facts.

Lemma step4_rows_compared_witness :
  exists factor data',
    obtener_valor_por_temperatura (PyFloat.of_int 20) "Aceite" = Ok factor /\
    paso4 float_of_digits widgets_ejemplo (datos_ejemplo 3 "Aceite" "20")
    = Ok data' /\
    fila_conforme data' (PyFloat.dec 1250 2) factor 5
      "resReferida_AVST" "resEsp_AVST" "resultado_AVST" /\
    fila_conforme data' (PyFloat.dec 499 2) factor 5
      "resReferida_AVSB" "resEsp_AVSB" "resultado_AVSB" /\
    fila_conforme data' (PyFloat.dec 80 2) factor 1
      "resReferida_BVST" "resEsp_BVST" "resultado_BVST".
Proof.
  apply (step4_rows_compared float_of_digits widgets_ejemplo
           (datos_ejemplo 3 "Aceite" "20") (VInt 3) "Aceite"
           (PyFloat.of_int 20) 5 1).
  - reflexivity.
  - reflexivity.
  - left. repeat split; reflexivity.
  - vm_compute. reflexivity.
Defined.

(** The branch of one phase on the sample inputs: the row of high
    against ground has the label "Cumple" although nothing is measured,
    its referred resistance is the text "-", which is not the product
    of a measure and the factor and cannot be compared with the
    expected value 5. *)
Lemma step4_single_phase_first_row_not_compared :
  exists data',
    paso4 float_of_digits widgets_ejemplo (datos_ejemplo 1 "Aceite" "20")
    = Ok data' /\
    dict_get data' "resMedida_AVST" = Some (VStr "-") /\
    dict_get data' "resReferida_AVST" = Some (VStr "-") /\
    dict_get data' "resEsp_AVST" = Some (VInt 5) /\
    dict_get data' "resultado_AVST" = Some (VStr "Cumple") /\
    py_mul_float (VStr "-") (PyFloat.of_int 1)
    = Raise (TypeError "unsupported operand type(s) for *") /\
    py_ge (VStr "-") (VInt 5)
    = Raise (TypeError "'>=' not supported between these instances").
Proof.
  eexists. split; [vm_compute; reflexivity|].
  repeat split; vm_compute; reflexivity.
Qed.

Lemma step4_single_phase_fixed_label_witness :
  exists data',
    paso4 float_of_digits widgets_ejemplo (datos_ejemplo 1 "Seco" "35")
    = Ok data' /\
    dict_get data' "resultado_AVST" = Some (VStr "Cumple") /\
    dict_get data' "resReferida_AVST" = Some (VStr "-").
Proof.
  destruct (step4_single_phase_fixed_label float_of_digits widgets_ejemplo
              (datos_ejemplo 1 "Seco" "35") (VInt 1) eq_refl eq_refl)
    as [Hfixed Hrows].
  destruct (Hrows "Seco" (PyFloat.of_int 35) 25 5 eq_refl
              (or_intror (conj eq_refl (conj eq_refl eq_refl))) eq_refl)
    as (factor & data' & _ & Hrun & _).
  exists data'. split; [exact Hrun|]. exact (Hfixed data' Hrun).
Defined.

(** The table the examples produce: at 20 degrees the factor of oil is
    1.0, so 12.5 passes against 5, 4.99 fails against 5 and 0.8 fails
    against 1; with one phase the first label is "Cumple" all the same. *)
Lemma step4_examples :
  (exists data',
     paso4 float_of_digits widgets_ejemplo (datos_ejemplo 3 "Aceite" "20")
     = Ok data' /\
     map (dict_get data') [KStr "resultado_AVST"; KStr "resultado_AVSB";
                           KStr "resultado_BVST"]
     = [Some (VStr "Cumple"); Some (VStr "No Cumple"); Some (VStr "No Cumple")]) /\
  (exists data',
     paso4 float_of_digits widgets_ejemplo (datos_ejemplo 1 "Aceite" "20")
     = Ok data' /\
     map (dict_get data') [KStr "resMedida_AVST"; KStr "resReferida_AVST";
                           KStr "resultado_AVST"; KStr "resultado_AVSB";
                           KStr "resultado_BVST"]
     = [Some (VStr "-"); Some (VStr "-"); Some (VStr "Cumple");
        Some (VStr "No Cumple"); Some (VStr "No Cumple")]).
Proof.
  split; eexists; split; vm_compute; reflexivity.
Qed.

(** * Further properties of the lookup *)

(** The index of least distance that has only greater distances before
    it is unique. *)
Lemma first_minimum_unique (k : nat -> pyfloat) (r r' : nat) :
  no_negativo (k r) = true -> no_negativo (k r') = true ->
  PyFloat.leb (k r) (k r') = true ->
  PyFloat.leb (k r') (k r) = true ->
  ((r' < r)%nat -> PyFloat.ltb (k r) (k r') = true) ->
  ((r < r')%nat -> PyFloat.ltb (k r') (k r) = true) ->
  r = r'.
Proof.
  intros Hr Hr' H1 H2 H3 H4.
  apply (leb_rango _ _ Hr Hr') in H1. apply (leb_rango _ _ Hr' Hr) in H2.
  destruct (Nat.lt_trichotomy r r') as [L|[E|L]]; [|exact E|].
  - apply H4, (ltb_rango _ _ Hr' Hr) in L. contradiction.
  - apply H3, (ltb_rango _ _ Hr Hr') in L. contradiction.
Qed.

(** X1. For every temperature that is not a NaN and every valid kind,
    the lookup returns the entry of the selected list at the index whose
    computed distance [abs(temperaturas[i] - t)] is least, and among
    equal distances at the first such index. *)
Theorem lookup_returns_first_nearest (t : pyfloat) (tipo : string) :
  t <> PyFloat.nan ->
  tipo_valido tipo ->
  exists r dr valores v,
    seleccionar_valores tipo = Ok valores /\
    nth_error valores r = Some v /\
    obtener_valor_por_temperatura t tipo = Ok v /\
    distancia t r = Ok dr /\
    forall j dj, distancia t j = Ok dj ->
      PyFloat.leb dr dj = true /\
      ((j < r)%nat -> PyFloat.ltb dr dj = true).
Proof.
  intros Ht Hv.
  destruct (indice_cercano_first_minimum t Ht) as (r & dr & Hr & Hdr & Hmin).
  destruct (seleccionar_valido tipo Hv) as (valores & Hs & Hlen).
  destruct (indice_cercano_total t) as (i & Hi & Hlt).
  assert (i = r) by congruence. subst i.
  destruct (getitem_lt valores r) as (v & Hv' & Hn); [lia|].
  exists r, dr, valores, v.
  split; [exact Hs|]. split; [exact Hn|]. split; [|split; [exact Hdr|exact Hmin]].
  rewrite (obtener_valor_indice t tipo valores r Hs Hr). exact Hv'.
Qed.

Lemma lookup_returns_first_nearest_witness :
  exists r dr valores v,
    seleccionar_valores "Seco" = Ok valores /\
    nth_error valores r = Some v /\
    obtener_valor_por_temperatura (PyFloat.dec 3711 2) "Seco" = Ok v /\
    distancia (PyFloat.dec 3711 2) r = Ok dr /\
    forall j dj, distancia (PyFloat.dec 3711 2) j = Ok dj ->
      PyFloat.leb dr dj = true /\
      ((j < r)%nat -> PyFloat.ltb dr dj = true).
Proof.
  apply (lookup_returns_first_nearest (PyFloat.dec 3711 2) "Seco").
  - discriminate.
  - now apply tipo_seco.
Defined.

(** X2. A temperature that is not finite is not refused: for a NaN and
    for either infinity every valid kind gets the first entry of its
    list, the value tabulated for -10. *)
Theorem lookup_non_finite_temperature (t : pyfloat) (tipo : string) :
  es_finito t = false ->
  (lower tipo = "aceite" ->
   obtener_valor_por_temperatura t tipo = Ok (PyFloat.dec 125 3)) /\
  (lower tipo = "seco" ->
   obtener_valor_por_temperatura t tipo = Ok (PyFloat.dec 25 2)).
Proof.
  intros Hf.
  assert (Hi : indice_cercano t = Ok 0%nat).
  { destruct t as [s|[|]| |s m e]; try discriminate Hf;
      vm_compute; reflexivity. }
  split; intros Htipo.
  - now rewrite (obtener_valor_indice t tipo _ 0%nat
                   (seleccionar_aceite tipo Htipo) Hi).
  - now rewrite (obtener_valor_indice t tipo _ 0%nat
                   (seleccionar_seco tipo Htipo) Hi).
Qed.

Lemma lookup_non_finite_temperature_witness :
  obtener_valor_por_temperatura PyFloat.nan "SECO" = Ok (PyFloat.dec 25 2).
Proof.
  exact (proj2 (lookup_non_finite_temperature PyFloat.nan "SECO" eq_refl)
               eq_refl).
Defined.

(** X3. Whatever the temperature, a value the lookup returns is one of
    the 25 entries of the list of its kind, so it lies between the first
    and the last entry: from 0.125 to 509.0 for oil and from 0.25 to
    63.2 for dry insulation. The factor is never zero, negative,
    infinite or a NaN. *)
Theorem lookup_result_within_table (t : pyfloat) (tipo : string)
    (v : pyfloat) :
  obtener_valor_por_temperatura t tipo = Ok v ->
  es_finito v = true /\
  ((lower tipo = "aceite" /\ In v valores_aceite /\
    PyFloat.leb (PyFloat.dec 125 3) v = true /\
    PyFloat.leb v (PyFloat.dec 50900 2) = true) \/
   (lower tipo = "seco" /\ In v valores_seco /\
    PyFloat.leb (PyFloat.dec 25 2) v = true /\
    PyFloat.leb v (PyFloat.dec 6320 2) = true)).
Proof.
  intros H. unfold obtener_valor_por_temperatura, seleccionar_valores in H.
  destruct (indice_cercano_total t) as (i & Hi & Hlt).
  assert (Hacc : forallb (fun x => es_finito x
                   && PyFloat.leb (PyFloat.dec 125 3) x
                   && PyFloat.leb x (PyFloat.dec 50900 2)) valores_aceite = true)
    by (vm_compute; reflexivity).
  assert (Hsec : forallb (fun x => es_finito x
                   && PyFloat.leb (PyFloat.dec 25 2) x
                   && PyFloat.leb x (PyFloat.dec 6320 2)) valores_seco = true)
    by (vm_compute; reflexivity).
  rewrite forallb_forall in Hacc, Hsec.
  destruct (String.eqb_spec (lower tipo) "aceite") as [E|_].
  - cbn [bind] in H. rewrite Hi in H. cbn [bind] in H.
    unfold getitem in H.
    destruct (nth_error valores_aceite i) as [x|] eqn:En; [|discriminate].
    injection H as <-. apply nth_error_In in En.
    specialize (Hacc x En). apply andb_true_iff in Hacc.
    destruct Hacc as [Hacc H3]. apply andb_true_iff in Hacc.
    destruct Hacc as [H1 H2]. split; [exact H1|]. left. auto.
  - destruct (String.eqb_spec (lower tipo) "seco") as [E|_];
      [|discriminate H].
    cbn [bind] in H. rewrite Hi in H. cbn [bind] in H.
    unfold getitem in H.
    destruct (nth_error valores_seco i) as [x|] eqn:En; [|discriminate].
    injection H as <-. apply nth_error_In in En.
    specialize (Hsec x En). apply andb_true_iff in Hsec.
    destruct Hsec as [Hsec H3]. apply andb_true_iff in Hsec.
    destruct Hsec as [H1 H2]. split; [exact H1|]. right. auto.
Qed.

Lemma lookup_result_within_table_witness :
  es_finito (PyFloat.dec 125 3) = true /\
  ((lower "aceite" = "aceite" /\ In (PyFloat.dec 125 3) valores_aceite /\
    PyFloat.leb (PyFloat.dec 125 3) (PyFloat.dec 125 3) = true /\
    PyFloat.leb (PyFloat.dec 125 3) (PyFloat.dec 50900 2) = true) \/
   (lower "aceite" = "seco" /\ In (PyFloat.dec 125 3) valores_seco /\
    PyFloat.leb (PyFloat.dec 25 2) (PyFloat.dec 125 3) = true /\
    PyFloat.leb (PyFloat.dec 125 3) (PyFloat.dec 6320 2) = true)).
Proof.
  apply (lookup_result_within_table (PyFloat.dec (-400) 1) "aceite").
  vm_compute. reflexivity.
Defined.

(** * Further properties of [convertir_a_mayusculas] *)

Lemma existsb_key_eqb_In (k : pykey) (ks : list pykey) :
  existsb (key_eqb k) ks = true <-> In k ks.
Proof.
  rewrite existsb_exists. split.
  - intros (x & Hin & E). apply key_eqb_eq in E. now subst.
  - intros Hin. exists k. split; [exact Hin|apply key_eqb_refl].
Qed.

Lemma nodup_keys_NoDup (ks : list pykey) :
  nodup_keys ks = true <-> NoDup ks.
Proof.
  induction ks as [|k ks IH]; simpl.
  - split; [constructor|reflexivity].
  - rewrite andb_true_iff, negb_true_iff, IH. split.
    + intros [H1 H2]. constructor; [|exact H2].
      intros Hin. apply existsb_key_eqb_In in Hin. congruence.
    + intros H. inversion H as [|? ? Hn Hd]; subst. split; [|exact Hd].
      destruct (existsb (key_eqb k) ks) eqn:E; [|reflexivity].
      apply existsb_key_eqb_In in E. contradiction.
Qed.

Lemma dict_get_map_values (f : pyval -> pyval) (d : dict) (k : pykey) :
  dict_get (map (fun kv => (fst kv, f (snd kv))) d) k
  = option_map f (dict_get d k).
Proof.
  induction d as [|[k0 v0] d IH]; simpl; [reflexivity|].
  destruct (key_eqb k0 k); [reflexivity|exact IH].
Qed.

Lemma datos_paso5_map (upper : string -> string) (data : dict) :
  nodup_keys (map fst data) = true ->
  datos_paso5 upper data
  = map (fun kv => (fst kv, convertir_a_mayusculas upper (snd kv))) data.
Proof.
  intros H. unfold datos_paso5.
  now rewrite (convertir_a_mayusculas_dict upper data H).
Qed.

(** The conversion keeps the keys of every dictionary unique. *)
Lemma convertir_a_mayusculas_claves_unicas (upper : string -> string)
    (data : pyval) :
  claves_unicas data = true ->
  claves_unicas (convertir_a_mayusculas upper data) = true.
Proof.
  induction data as [ |b|n|x|s|items IH|l IH|l IH|r] using pyval_deep_ind;
    intros Hwf; try reflexivity.
  - pose proof Hwf as Hwf'. simpl in Hwf'.
    apply andb_true_iff in Hwf'. destruct Hwf' as [Hk Hv].
    rewrite (convertir_a_mayusculas_dict upper items Hk). simpl.
    apply andb_true_iff. split.
    + rewrite map_map. exact Hk.
    + rewrite forallb_forall in Hv |- *. rewrite Forall_forall in IH.
      intros kv Hin. apply in_map_iff in Hin.
      destruct Hin as (kv0 & <- & Hin0). simpl. apply IH; auto.
  - simpl in Hwf |- *. rewrite forallb_forall in Hwf |- *.
    rewrite Forall_forall in IH. intros v Hin. apply in_map_iff in Hin.
    destruct Hin as (v0 & <- & Hin0). apply IH; auto.
  - simpl in Hwf |- *. rewrite forallb_forall in Hwf |- *.
    rewrite Forall_forall in IH. intros v Hin. apply in_map_iff in Hin.
    destruct Hin as (v0 & <- & Hin0). apply IH; auto.
Qed.

(** X4. Converting twice is converting once, whenever upper-casing a
    string twice is upper-casing it once: the conversion of a converted
    value returns it as it is. *)
Theorem convertir_a_mayusculas_idempotent (upper : string -> string)
    (data : pyval) :
  (forall s, upper (upper s) = upper s) ->
  claves_unicas data = true ->
  convertir_a_mayusculas upper (convertir_a_mayusculas upper data)
  = convertir_a_mayusculas upper data.
Proof.
  intros Hup.
  induction data as [ |b|n|x|s|items IH|l IH|l IH|r] using pyval_deep_ind;
    intros Hwf; try reflexivity.
  - simpl. now rewrite Hup.
  - pose proof (convertir_a_mayusculas_claves_unicas upper _ Hwf) as Hwf2.
    simpl in Hwf. apply andb_true_iff in Hwf. destruct Hwf as [Hk Hv].
    rewrite (convertir_a_mayusculas_dict upper items Hk) in Hwf2 |- *.
    simpl in Hwf2. apply andb_true_iff in Hwf2. destruct Hwf2 as [Hk2 _].
    rewrite (convertir_a_mayusculas_dict upper _ Hk2). f_equal.
    rewrite map_map. simpl.
    rewrite forallb_forall in Hv. rewrite Forall_forall in IH.
    apply map_ext_in. intros kv Hin. f_equal. apply IH; auto.
  - simpl in Hwf |- *. f_equal. rewrite map_map.
    rewrite forallb_forall in Hwf. rewrite Forall_forall in IH.
    apply map_ext_in. intros v Hin. apply IH; auto.
  - simpl in Hwf |- *. f_equal. rewrite map_map.
    rewrite forallb_forall in Hwf. rewrite Forall_forall in IH.
    apply map_ext_in. intros v Hin. apply IH; auto.
Qed.

Lemma upper_ascii_str_idempotent (s : string) :
  upper_ascii_str (upper_ascii_str s) = upper_ascii_str s.
Proof.
  induction s as [|c s IH]; simpl; [reflexivity|]. rewrite IH. f_equal.
  destruct c as [[|] [|] [|] [|] [|] [|] [|] [|]]; reflexivity.
Qed.

Lemma convertir_a_mayusculas_idempotent_witness :
  convertir_a_mayusculas upper_ascii_str
    (convertir_a_mayusculas upper_ascii_str valor_ejemplo)
  = convertir_a_mayusculas upper_ascii_str valor_ejemplo.
Proof.
  exact (convertir_a_mayusculas_idempotent upper_ascii_str valor_ejemplo
           upper_ascii_str_idempotent eq_refl).
Defined.

(** X5. The context of the template has the keys of the session
    dictionary and no other: under each key it holds the conversion of
    the value the session holds, and a key the session lacks is lacking
    in the context too. *)
Theorem datos_paso5_lookup (upper : string -> string) (data : dict)
    (k : pykey) :
  nodup_keys (map fst data) = true ->
  dict_get (datos_paso5 upper data) k
  = option_map (convertir_a_mayusculas upper) (dict_get data k) /\
  map fst (datos_paso5 upper data) = map fst data.
Proof.
  intros H. rewrite (datos_paso5_map upper data H). split.
  - apply dict_get_map_values.
  - rewrite map_map. reflexivity.
Qed.

Lemma datos_paso5_lookup_witness :
  dict_get (datos_paso5 upper_ascii_str (datos_ejemplo 3 "Aceite" "20"))
           "tipoAislamiento"
  = option_map (convertir_a_mayusculas upper_ascii_str)
      (dict_get (datos_ejemplo 3 "Aceite" "20") "tipoAislamiento") /\
  map fst (datos_paso5 upper_ascii_str (datos_ejemplo 3 "Aceite" "20"))
  = map fst (datos_ejemplo 3 "Aceite" "20").
Proof.
  exact (datos_paso5_lookup upper_ascii_str (datos_ejemplo 3 "Aceite" "20")
           "tipoAislamiento" eq_refl).
Defined.

(** * Step 4 and step 5 together *)

Lemma key_eqb_sym (a b : pykey) : key_eqb a b = key_eqb b a.
Proof.
  destruct (key_eqb a b) eqn:E1, (key_eqb b a) eqn:E2; try reflexivity.
  - apply key_eqb_eq in E1. subst. now rewrite key_eqb_refl in E2.
  - apply key_eqb_eq in E2. subst. now rewrite key_eqb_refl in E1.
Qed.

Lemma dict_set_keys (d : dict) (k : pykey) (v : pyval) :
  map fst (dict_set d k v)
  = if existsb (key_eqb k) (map fst d) then map fst d else map fst d ++ [k].
Proof.
  induction d as [|[k0 v0] d IH]; simpl; [reflexivity|].
  rewrite (key_eqb_sym k k0).
  destruct (key_eqb k0 k); simpl; [reflexivity|].
  rewrite IH. now destruct (existsb (key_eqb k) (map fst d)).
Qed.

(** An assignment keeps the keys of a dictionary unique. *)
Lemma dict_set_nodup (d : dict) (k : pykey) (v : pyval) :
  nodup_keys (map fst d) = true ->
  nodup_keys (map fst (dict_set d k v)) = true.
Proof.
  intros H. rewrite dict_set_keys.
  destruct (existsb (key_eqb k) (map fst d)) eqn:E; [exact H|].
  apply nodup_keys_NoDup. apply nodup_keys_NoDup in H.
  apply NoDup_app; [exact H|repeat constructor; intros []|].
  intros x Hx [<-|[]].
  apply existsb_key_eqb_In in Hx. congruence.
Qed.

Section Paso4Marco.

Variable float_of_str : string -> result pyfloat.

(** A run of step 4 that reaches its end is a sequence of assignments to
    the keys of [claves_paso4]. *)
Lemma paso4_asignaciones (w : widgets_paso4) (data data' : dict) :
  paso4 float_of_str w data = Ok data' ->
  exists kvs : list (string * pyval),
    data' = fold_left (fun d kv => dict_set d (KStr (fst kv)) (snd kv)) kvs data /\
    map fst kvs
    = [ "resMedida_AVST"; "resReferida_AVST"; "resMedida_AVSB";
        "resReferida_AVSB"; "resMedida_BVST"; "resReferida_BVST";
        "resEsp_AVST"; "resEsp_AVSB"; "resEsp_BVST";
        "resultado_AVST"; "resultado_AVSB"; "resultado_BVST";
        "comentariosPrueba" ].
Proof.
  unfold paso4. intros H.
  destruct (dict_getitem data "carTrafo_NroFases") as [fases|];
    [cbn [bind] in H|discriminate H].
  destruct (py_eq_int fases 3);
    [unfold paso4_trifasico in H|unfold paso4_monofasico in H];
    repeat match type of H with
    | bind ?c _ = Ok _ =>
        let E := fresh "E" in
        destruct c as [?d|] eqn:E; [cbn [bind] in H|discriminate H];
        first [ apply asignar_referida_inv in E
              | apply asignar_esperada_inv in E
              | apply asignar_resultado_inv in E ];
        destruct E as [? ->]
    end;
    injection H as <-.
  - eexists [ (_, _); (_, _); (_, _); (_, _); (_, _); (_, _); (_, _);
              (_, _); (_, _); (_, _); (_, _); (_, _); (_, _) ].
    split; reflexivity.
  - eexists [ (_, _); (_, _); (_, _); (_, _); (_, _); (_, _); (_, _);
              (_, _); (_, _); (_, _); (_, _); (_, _); (_, _) ].
    split; reflexivity.
Qed.

Lemma fold_dict_set_other (kvs : list (string * pyval)) (d : dict)
    (k : pykey) :
  (forall s, In s (map fst kvs) -> k <> KStr s) ->
  dict_get (fold_left (fun d kv => dict_set d (KStr (fst kv)) (snd kv)) kvs d) k
  = dict_get d k.
Proof.
  revert d. induction kvs as [|[s v] kvs IH]; intros d H; simpl; [reflexivity|].
  rewrite IH by (intros s' Hs'; apply H; now right).
  rewrite dict_get_set.
  destruct (key_eqb s k) eqn:E; [|reflexivity].
  apply key_eqb_eq in E. exfalso. apply (H s); [now left|now symmetry].
Qed.

Lemma fold_dict_set_present (kvs : list (string * pyval)) (d : dict)
    (s : string) :
  In s (map fst kvs) ->
  dict_get (fold_left (fun d kv => dict_set d (KStr (fst kv)) (snd kv)) kvs d) s
  <> None.
Proof.
  revert d. induction kvs as [|[s0 v] kvs IH]; intros d H; simpl; [destruct H|].
  destruct (in_dec string_dec s (map fst kvs)) as [Hin|Hout].
  - now apply IH.
  - simpl in H. destruct H as [->|H]; [|contradiction].
    rewrite fold_dict_set_other.
    + rewrite dict_get_set, key_eqb_refl. discriminate.
    + intros s' Hs' E. injection E as ->. contradiction.
Qed.

Lemma fold_dict_set_nodup (kvs : list (string * pyval)) (d : dict) :
  nodup_keys (map fst d) = true ->
  nodup_keys (map fst
    (fold_left (fun d kv => dict_set d (KStr (fst kv)) (snd kv)) kvs d)) = true.
Proof.
  revert d. induction kvs as [|[s v] kvs IH]; intros d H; simpl; [exact H|].
  apply IH. now apply dict_set_nodup.
Qed.

(** X6. A run of step 4 that reaches its end has assigned every one of
    its thirteen keys, has left every other key of the session with the
    value it had, and keeps the keys of the dictionary unique. *)
Theorem step4_writes_only_its_keys (w : widgets_paso4) (data data' : dict) :
  paso4 float_of_str w data = Ok data' ->
  (forall s, In s claves_paso4 -> dict_get data' s <> None) /\
  (forall k : pykey,
     (forall s, In s claves_paso4 -> k <> KStr s) ->
     dict_get data' k = dict_get data k) /\
  (nodup_keys (map fst data) = true -> nodup_keys (map fst data') = true).
Proof.
  intros H. apply paso4_asignaciones in H. destruct H as (kvs & -> & Hk).
  unfold claves_paso4. rewrite <- Hk. split; [|split].
  - intros s Hs. now apply fold_dict_set_present.
  - intros k Hne. now apply fold_dict_set_other.
  - apply fold_dict_set_nodup.
Qed.

End Paso4Marco.

Lemma step4_writes_only_its_keys_witness :
  exists data',
    paso4 float_of_digits widgets_ejemplo (datos_ejemplo 1 "Seco" "35")
    = Ok data' /\
    (forall s, In s claves_paso4 -> dict_get data' s <> None) /\
    (forall k : pykey,
       (forall s, In s claves_paso4 -> k <> KStr s) ->
       dict_get data' k = dict_get (datos_ejemplo 1 "Seco" "35") k).
Proof.
  eexists. split; [vm_compute; reflexivity|].
  refine ((fun H => conj (proj1 H) (proj1 (proj2 H)))
            (step4_writes_only_its_keys float_of_digits widgets_ejemplo
               (datos_ejemplo 1 "Seco" "35") _ _)).
  vm_compute. reflexivity.
Defined.

Section Paso5Contexto.

Variable upper : string -> string.
Variable float_of_str : string -> result pyfloat.

Lemma fila_conforme_en_contexto (data : dict) (medida factor : pyfloat)
    (umbral : Z) (referida esp resultado : string) :
  nodup_keys (map fst data) = true ->
  fila_conforme data medida factor umbral referida esp resultado ->
  fila_en_contexto upper (datos_paso5 upper data) medida factor umbral
    referida esp resultado.
Proof.
  intros Hk (H1 & H2 & H3). unfold fila_en_contexto.
  rewrite (datos_paso5_map upper data Hk), !dict_get_map_values.
  rewrite H1, H2, H3. repeat split; reflexivity.
Qed.

(** The rows both branches of step 4 measure. *)
Lemma paso4_filas_comunes (w : widgets_paso4) (data : dict) (fases : pyval)
    (tipo : string) (t : pyfloat) :
  dict_get data "carTrafo_NroFases" = Some fases ->
  dict_get data "tipoAislamiento" = Some (VStr tipo) ->
  tipo = "Aceite" \/ tipo = "Seco" ->
  py_float float_of_str (dict_get_default data "temperaturaPrueba" (VInt 0))
  = Ok t ->
  exists factor data',
    obtener_valor_por_temperatura t tipo = Ok factor /\
    paso4 float_of_str w data = Ok data' /\
    fila_conforme data' (res_medida_avsb w) factor
      (if String.eqb tipo "Aceite" then 5 else 25)
      "resReferida_AVSB" "resEsp_AVSB" "resultado_AVSB" /\
    fila_conforme data' (res_medida_bvst w) factor
      (if String.eqb tipo "Aceite" then 1 else 5)
      "resReferida_BVST" "resEsp_BVST" "resultado_BVST".
Proof.
  intros Hfases Htipo Hsel Ht.
  destruct (obtener_valor_total t tipo (kind_of_selectbox_valid tipo Hsel))
    as [factor Hf].
  pose proof (factor_de_correccion_ok float_of_str data t tipo factor
                Ht Htipo Hf) as Hfac.
  exists factor.
  unfold paso4, dict_getitem. rewrite Hfases. cbn [bind].
  destruct (py_eq_int fases 3).
  - destruct (paso4_trifasico_filas float_of_str w data tipo factor Htipo Hfac)
      as (data' & Hrun & _ & Hrows).
    now exists data'.
  - destruct (paso4_monofasico_filas float_of_str w data tipo factor Htipo Hfac)
      as (data' & Hrun & Hrows).
    now exists data'.
Qed.

(** X7. After a run of step 4 that reaches its end, the context step 5
    hands to the template holds, for the rows of high against low and of
    low against ground, the referred resistance and the expected value
    as the numbers step 4 computed, and the label in upper case; the
    kind of insulation is in upper case there too, while the session
    keeps it as it was selected. *)
Theorem step5_context_after_step4 (w : widgets_paso4) (data : dict)
    (fases : pyval) (tipo : string) (t : pyfloat) (alto bajo : Z) :
  nodup_keys (map fst data) = true ->
  dict_get data "carTrafo_NroFases" = Some fases ->
  dict_get data "tipoAislamiento" = Some (VStr tipo) ->
  (tipo = "Aceite" /\ alto = 5 /\ bajo = 1) \/
  (tipo = "Seco" /\ alto = 25 /\ bajo = 5) ->
  py_float float_of_str (dict_get_default data "temperaturaPrueba" (VInt 0))
  = Ok t ->
  exists factor data',
    obtener_valor_por_temperatura t tipo = Ok factor /\
    paso4 float_of_str w data = Ok data' /\
    fila_en_contexto upper (datos_paso5 upper data')
      (res_medida_avsb w) factor alto
      "resReferida_AVSB" "resEsp_AVSB" "resultado_AVSB" /\
    fila_en_contexto upper (datos_paso5 upper data')
      (res_medida_bvst w) factor bajo
      "resReferida_BVST" "resEsp_BVST" "resultado_BVST" /\
    dict_get (datos_paso5 upper data') "tipoAislamiento"
    = Some (VStr (upper tipo)) /\
    dict_get data' "tipoAislamiento" = Some (VStr tipo).
Proof.
  intros Hk Hfases Htipo Hsel Ht.
  assert (Hsel' : tipo = "Aceite" \/ tipo = "Seco") by tauto.
  destruct (paso4_filas_comunes w data fases tipo t Hfases Htipo Hsel' Ht)
    as (factor & data' & Hf & Hrun & Hr1 & Hr2).
  destruct (paso4_asignaciones float_of_str w data data' Hrun)
    as (kvs & Hfold & Hkeys).
  assert (Hnodup : nodup_keys (map fst data') = true).
  { rewrite Hfold. now apply fold_dict_set_nodup. }
  assert (Htipo' : dict_get data' "tipoAislamiento" = Some (VStr tipo)).
  { rewrite Hfold, fold_dict_set_other; [exact Htipo|].
    rewrite Hkeys. intros s Hs E. injection E as <-. simpl in Hs.
    repeat (destruct Hs as [Hs|Hs]; [discriminate Hs|]). exact Hs. }
  exists factor, data'. split; [exact Hf|]. split; [exact Hrun|].
  split; [|split; [|split; [|exact Htipo']]].
  - apply fila_conforme_en_contexto; [exact Hnodup|].
    destruct Hsel as [(-> & -> & ->)|(-> & -> & ->)]; exact Hr1.
  - apply fila_conforme_en_contexto; [exact Hnodup|].
    destruct Hsel as [(-> & -> & ->)|(-> & -> & ->)]; exact Hr2.
  - rewrite (datos_paso5_map upper data' Hnodup), dict_get_map_values.
    now rewrite Htipo'.
Qed.

End Paso5Contexto.

Lemma step5_context_after_step4_witness :
  exists factor data',
    obtener_valor_por_temperatura (PyFloat.of_int 20) "Aceite" = Ok factor /\
    paso4 float_of_digits widgets_ejemplo (datos_ejemplo 3 "Aceite" "20")
    = Ok data' /\
    fila_en_contexto upper_ascii_str (datos_paso5 upper_ascii_str data')
      (PyFloat.dec 499 2) factor 5
      "resReferida_AVSB" "resEsp_AVSB" "resultado_AVSB" /\
    fila_en_contexto upper_ascii_str (datos_paso5 upper_ascii_str data')
      (PyFloat.dec 80 2) factor 1
      "resReferida_BVST" "resEsp_BVST" "resultado_BVST" /\
    dict_get (datos_paso5 upper_ascii_str data') "tipoAislamiento"
    = Some (VStr (upper_ascii_str "Aceite")) /\
    dict_get data' "tipoAislamiento" = Some (VStr "Aceite").
Proof.
  apply (step5_context_after_step4 upper_ascii_str float_of_digits
           widgets_ejemplo (datos_ejemplo 3 "Aceite" "20") (VInt 3) "Aceite"
           (PyFloat.of_int 20) 5 1).
  - reflexivity.
  - reflexivity.
  - reflexivity.
  - left. repeat split; reflexivity.
  - vm_compute. reflexivity.
Defined.

(** * The wizard *)

Lemma dict_get_asignaciones (kvs : list (string * pyval)) (d : dict)
    (s : string) :
  dict_get (asignaciones kvs d) s
  = match ultima kvs s with
    | Some v => Some v
    | None => dict_get d s
    end.
Proof.
  revert d. induction kvs as [|[s0 v] kvs IH]; intros d; [reflexivity|].
  change (asignaciones ((s0, v) :: kvs) d)
    with (asignaciones kvs (dict_set d s0 v)).
  rewrite IH. simpl. destruct (ultima kvs s); [reflexivity|].
  rewrite dict_get_set. simpl. now destruct (String.eqb s0 s).
Qed.

Lemma dict_get_default_asignaciones (kvs : list (string * pyval)) (d : dict)
    (s : string) (default : pyval) :
  dict_get_default (asignaciones kvs d) s default
  = match ultima kvs s with
    | Some v => v
    | None => dict_get_default d s default
    end.
Proof.
  unfold dict_get_default. rewrite dict_get_asignaciones.
  now destruct (ultima kvs s).
Qed.

Lemma missing_nil (data : dict) :
  missing data = [] <-> (forall kv, In kv data -> es_vacio (snd kv) = false).
Proof.
  unfold missing. split.
  - intros H kv Hin. destruct (es_vacio (snd kv)) eqn:E; [|reflexivity].
    assert (Hf : In kv (filter (fun kv => es_vacio (snd kv)) data))
      by (apply filter_In; auto).
    destruct (filter _ data); [destruct Hf|discriminate H].
  - intros H. induction data as [|kv data IH]; [reflexivity|].
    simpl. rewrite (H kv) by now left. apply IH.
    intros kv' Hin. apply H. now right.
Qed.

Section AsistenteNavegacion.

Variable Doc : Type.

(** X8. [next_step] advances by one step and asks for a rerun exactly
    when no value of the session is [None] or the empty string, whatever
    step assigned it; otherwise it leaves the session as it is and shows
    the error. [prev_step] undoes an advance, and from a step that is at
    least 1 it never leads below 1. *)
Theorem next_step_prev_step_round_trip (s : sesion Doc) :
  1 <= ss_step s ->
  ((forall kv, In kv (ss_data s) -> es_vacio (snd kv) = false) ->
   exists s', next_step Doc s = (s', Rerun) /\
              ss_step s' = ss_step s + 1 /\
              ss_data s' = ss_data s /\
              prev_step Doc s' = (s, Rerun)) /\
  ((exists kv, In kv (ss_data s) /\ es_vacio (snd kv) = true) ->
   next_step Doc s
   = (s, StError "Por favor completa todos los campos antes de continuar.")) /\
  1 <= ss_step (fst (prev_step Doc s)).
Proof.
  intros Hs. split; [|split].
  - intros H. apply missing_nil in H. unfold next_step. rewrite H.
    eexists. split; [reflexivity|]. simpl. repeat split.
    unfold prev_step. simpl.
    replace (1 <? ss_step s + 1) with true by (symmetry; apply Z.ltb_lt; lia).
    rewrite Z.add_simpl_r. now destruct s.
  - intros (kv & Hin & E). unfold next_step.
    destruct (missing (ss_data s)) eqn:Em; [|reflexivity].
    rewrite (proj1 (missing_nil _) Em kv Hin) in E. discriminate.
  - unfold prev_step. destruct (Z.ltb_spec 1 (ss_step s)); simpl; lia.
Qed.

End AsistenteNavegacion.

Lemma next_step_prev_step_round_trip_witness :
  exists s',
    next_step unit
      {| ss_step := 3; ss_data := datos_ejemplo 3 "Aceite" "20";
         ss_doc := Some tt |} = (s', Rerun) /\
    ss_step s' = 4 /\
    prev_step unit s'
    = ({| ss_step := 3; ss_data := datos_ejemplo 3 "Aceite" "20";
          ss_doc := Some tt |}, Rerun).
Proof.
  destruct (proj1 (next_step_prev_step_round_trip unit
              {| ss_step := 3; ss_data := datos_ejemplo 3 "Aceite" "20";
                 ss_doc := Some tt |} ltac:(simpl; lia)))
    as (s' & H1 & H2 & _ & H3).
  - intros kv Hin. simpl in Hin.
    destruct Hin as [<-|[<-|[<-|[]]]]; reflexivity.
  - exists s'. auto.
Defined.

Section AsistenteHechos.

Variable Doc : Type.
Variable DocxTemplate : string -> carga Doc.
Variable strftime_Ymd : pyval -> string.
Variable float_of_str : string -> result pyfloat.

Lemma paso1_asignaciones (w : widgets_paso1) (data : dict) :
  paso1 strftime_Ymd w data
  = Ok (asignaciones
          [ ("nombreProyecto", VStr (w_nombre_proyecto w));
            ("nombreCiudadoMunicipio", VStr (w_ciudad w));
            ("nombreDepartamento", VStr (w_departamento w));
            ("tipoCoordenada", VStr (coordenada_str (w_tipo_coordenada w)));
            ("nombreCompleto", VStr (w_nombre w));
            ("nroConteoTarjeta", VStr (w_conte_tarjeta w));
            ("nombreCargo", VStr (w_cargo w));
            ("fechaCreacionSinFormato", w_fecha_creacion w);
            ("fechaCreacion", VStr (strftime_Ymd (w_fecha_creacion w)));
            ("direccion", VStr (w_direccion w)) ] data).
Proof.
  unfold paso1, asignar_fecha, dict_getitem.
  rewrite dict_get_set, key_eqb_refl. reflexivity.
Qed.

Lemma paso2_asignaciones (w : widgets_paso2) (data : dict) :
  paso2 strftime_Ymd w data
  = Ok (asignaciones
          [ ("nroTransformador", VStr (w_nro_transformador w));
            ("capacidadTransformador", VStr (w_capacidad_transformador w));
            ("tipoTransformador", VStr (transformador_str (w_tipotrafo w)));
            ("tipoAislamiento", VStr (aislamiento_str (w_tipoaislamiento w)));
            ("voltajePrimario", VStr (w_voltprimario w));
            ("voltajeSecundario", VStr (w_voltsecundario w));
            ("latitud", VStr (w_latitud w));
            ("longitud", VStr (w_longitud w));
            ("fechaCalibracionSinFormato", w_fecha_calibracion w);
            ("fechaCalibracion", VStr (strftime_Ymd (w_fecha_calibracion w))) ]
          data).
Proof.
  unfold paso2, asignar_fecha, dict_getitem.
  rewrite dict_get_set, key_eqb_refl. reflexivity.
Qed.

Lemma paso3_asignaciones (w : widgets_paso3) (data : dict) (tt fc : pyval) :
  dict_get data "tipoTransformador" = Some tt ->
  dict_get data "fechaCreacion" = Some fc ->
  paso3 strftime_Ymd w data
  = Ok (asignaciones
          [ ("carTrafo_Marca", VStr (w_cartrafomarca w));
            ("carTrafo_Serie", VStr (w_cartrafoserie w));
            ("carTrafo_Tipo", VStr (w_cartrafotipo w));
            ("carTrafo_FechaFabricacionSinFormato", w_cartrafofechafabrisf w);
            ("carTrafo_FechaFabricacion",
             VStr (strftime_Ymd (w_cartrafofechafabrisf w)));
            ("carTrafo_Frecuencia", VStr (w_cartrafofrec w));
            ("carTrafo_NroFases",
             VInt (if py_eq_str tt "Trifásico" then 3 else 1));
            ("carTrafo_Conexion", VStr (w_cartrafoconexion w));
            ("carTrafo_MedioAislamiento", VStr (w_cartrafomedioaisl w));
            ("carTrafo_FechaMediciones", fc);
            ("temperaturaPrueba", VStr (w_temperaturaprueba w)) ] data).
Proof.
  intros Htt Hfc. unfold paso3, asignar_fecha, dict_getitem.
  rewrite dict_get_set, key_eqb_refl. cbn [bind].
  dict_simpl. rewrite Htt. cbn [bind].
  dict_simpl. rewrite Hfc. reflexivity.
Qed.

Lemma py_eq_str_transformador (t : transformador) :
  (if py_eq_str (VStr (transformador_str t)) "Trifásico" then 3 else 1)
  = fases_de t /\
  (if py_eq_str (VStr (transformador_str t)) "Trifásico"
   then "templates/templateTRAFO3FS.docx"
   else "templates/templateTRAFO1FS.docx") = plantilla_de t /\
  py_eq_int (VInt (fases_de t)) 3
  = match t with Trifasico => true | Monofasico => false end.
Proof. destruct t; repeat split; reflexivity. Qed.

End AsistenteHechos.

(** Looks a literal key up in a dictionary built by a literal sequence
    of assignments. *)
Ltac buscar :=
  rewrite ?dict_get_asignaciones, ?dict_get_default_asignaciones;
  cbn [ultima String.eqb Ascii.eqb Bool.eqb fst snd].

(** A key that step 4 does not assign. *)
Ltac fuera_de_paso4 :=
  unfold claves_paso4; simpl;
  intros Hfuera;
  repeat (destruct Hfuera as [Hfuera|Hfuera]; [discriminate Hfuera|]);
  exact Hfuera.

Section AsistenteInvariante.

Variable Doc : Type.
Variable DocxTemplate : string -> carga Doc.
Variable strftime_Ymd : pyval -> string.
Variable float_of_str : string -> result pyfloat.

Lemma next_step_campos (s s' : sesion Doc) (e : efecto) :
  next_step Doc s = (s', e) ->
  ss_data s' = ss_data s /\ ss_doc s' = ss_doc s /\
  (ss_step s' = ss_step s \/ ss_step s' = ss_step s + 1).
Proof.
  unfold next_step. destruct (missing (ss_data s));
    intros H; injection H as <- <-; simpl; auto.
Qed.

Lemma prev_step_campos (s s' : sesion Doc) (e : efecto) :
  prev_step Doc s = (s', e) ->
  ss_data s' = ss_data s /\ ss_doc s' = ss_doc s /\
  ((ss_step s' = ss_step s /\ ss_step s <= 1) \/
   (ss_step s' = ss_step s - 1 /\ 1 < ss_step s)).
Proof.
  unfold prev_step. destruct (Z.ltb_spec 1 (ss_step s)) as [Hlt|Hle];
    intros Hp; injection Hp as <- <-; simpl; auto.
Qed.

Lemma paso4_conserva (w : widgets_paso4) (data data' : dict) (s : string) :
  ~ In s claves_paso4 ->
  paso4 float_of_str w data = Ok data' ->
  dict_get data' s = dict_get data s.
Proof.
  intros Hs H. apply paso4_asignaciones in H. destruct H as (kvs & -> & Hk).
  apply fold_dict_set_other. rewrite Hk.
  intros s' Hs' E. injection E as <-. exact (Hs Hs').
Qed.

Lemma script_conserva_invariante (s s' : sesion Doc) (w : entradas)
    (c : clic) (e : efecto) :
  invariante Doc DocxTemplate s ->
  script Doc DocxTemplate strftime_Ymd float_of_str s w c = Ok (s', e) ->
  invariante Doc DocxTemplate s'.
Proof.
  intros (Hb & H2 & H3 & H4) Hrun. unfold script in Hrun.
  destruct (Z.eqb_spec (ss_step s) 1) as [E1|N1].
  { (* step 1 *)
    rewrite paso1_asignaciones in Hrun. cbn [bind] in Hrun.
    match type of Hrun with
    | context [con_data _ s ?d] => set (d1 := d) in *
    end.
    assert (F2 : dict_get d1 "fechaCreacion" <> None)
      by (unfold d1; buscar; discriminate).
    assert (Hs' : ss_data s' = d1 /\ ss_doc s' = ss_doc s /\
                  (ss_step s' = 1 \/ ss_step s' = 2)).
    { destruct c.
      - injection Hrun as <- <-. simpl. auto.
      - injection Hrun as <- <-. simpl. auto.
      - injection Hrun as Hrun. apply next_step_campos in Hrun.
        simpl in Hrun. rewrite E1 in Hrun. exact Hrun. }
    destruct Hs' as (Hd & _ & Hst). unfold invariante. rewrite Hd.
    repeat split; try lia; intros; try lia; exact F2. }
  destruct (Z.eqb_spec (ss_step s) 2) as [E2|N2].
  { (* step 2 *)
    rewrite paso2_asignaciones in Hrun. cbn [bind] in Hrun.
    match type of Hrun with
    | context [con_data _ s ?d] => set (d2 := d) in *
    end.
    assert (F2 : dict_get d2 "fechaCreacion" <> None).
    { unfold d2. buscar. apply H2. lia. }
    assert (Ftt : dict_get d2 "tipoTransformador"
                  = Some (VStr (transformador_str (w_tipotrafo (e_paso2 w)))))
      by (unfold d2; buscar; reflexivity).
    assert (Fta : dict_get d2 "tipoAislamiento"
                  = Some (VStr (aislamiento_str (w_tipoaislamiento (e_paso2 w)))))
      by (unfold d2; buscar; reflexivity).
    assert (Hs' : ss_data s' = d2 /\
                  (ss_step s' = 1 \/ ss_step s' = 2 \/
                   (ss_step s' = 3 /\ exists doc,
                      ss_doc s' = Some doc /\
                      DocxTemplate (plantilla_de (w_tipotrafo (e_paso2 w)))
                      = Cargada doc))).
    { destruct c.
      - injection Hrun as <- <-. simpl. auto.
      - injection Hrun as Hrun. apply prev_step_campos in Hrun.
        simpl in Hrun.
        rewrite E2 in Hrun. destruct Hrun as (Hd & _ & Hst).
        split; [exact Hd|]. lia.
      - unfold siguiente_paso2, template_path, dict_getitem in Hrun.
        simpl ss_data in Hrun. rewrite Ftt in Hrun. cbn [bind] in Hrun.
        rewrite (proj1 (proj2 (py_eq_str_transformador _))) in Hrun.
        destruct (DocxTemplate (plantilla_de (w_tipotrafo (e_paso2 w))))
          as [doc| |ex] eqn:Ed; [| |discriminate Hrun].
        + injection Hrun as Hrun. apply next_step_campos in Hrun.
          simpl in Hrun. rewrite E2 in Hrun.
          destruct Hrun as (Hd & Hdoc & Hst). split; [exact Hd|].
          destruct Hst as [Hst|Hst]; [auto|].
          right. right. split; [exact Hst|]. now exists doc.
        + injection Hrun as <- <-. simpl. auto. }
    destruct Hs' as (Hd & Hst). unfold invariante. rewrite Hd.
    split; [lia|]. split; [intros _; exact F2|]. split.
    - intros H3'. destruct Hst as [Hst|[Hst|(Hst & doc & Hdoc & Hload)]];
        try lia.
      exists (w_tipotrafo (e_paso2 w)), (w_tipoaislamiento (e_paso2 w)), doc.
      auto.
    - intros H4'. destruct Hst as [Hst|[Hst|(Hst & _)]]; lia. }
  destruct (Z.eqb_spec (ss_step s) 3) as [E3|N3].
  { (* step 3 *)
    destruct (H3 ltac:(lia)) as (t & a & doc & Htt & Hta & Hdoc & Hload).
    destruct (dict_get (ss_data s) "fechaCreacion") as [fc|] eqn:Hfc;
      [|exfalso; now apply (H2 ltac:(lia))].
    rewrite (paso3_asignaciones strftime_Ymd (e_paso3 w) (ss_data s) _ fc
               Htt Hfc) in Hrun.
    cbn [bind] in Hrun.
    match type of Hrun with
    | context [con_data _ s ?d] => set (d3 := d) in *
    end.
    assert (F2 : dict_get d3 "fechaCreacion" <> None)
      by (unfold d3; buscar; rewrite Hfc; discriminate).
    assert (Ftt : dict_get d3 "tipoTransformador"
                  = Some (VStr (transformador_str t)))
      by (unfold d3; buscar; exact Htt).
    assert (Fta : dict_get d3 "tipoAislamiento"
                  = Some (VStr (aislamiento_str a)))
      by (unfold d3; buscar; exact Hta).
    assert (Fnf : dict_get d3 "carTrafo_NroFases" = Some (VInt (fases_de t))).
    { unfold d3. buscar.
      now rewrite (proj1 (py_eq_str_transformador t)). }
    assert (Ftp : dict_get d3 "temperaturaPrueba"
                  = Some (VStr (w_temperaturaprueba (e_paso3 w))))
      by (unfold d3; buscar; reflexivity).
    assert (Hs' : ss_data s' = d3 /\ ss_doc s' = ss_doc s /\
                  (ss_step s' = 2 \/ ss_step s' = 3 \/ ss_step s' = 4)).
    { destruct c.
      - injection Hrun as <- <-. simpl. auto.
      - injection Hrun as Hrun. apply prev_step_campos in Hrun.
        simpl in Hrun.
        rewrite E3 in Hrun. destruct Hrun as (Hd & Hdoc' & Hst).
        split; [exact Hd|]. split; [exact Hdoc'|]. lia.
      - injection Hrun as Hrun. apply next_step_campos in Hrun.
        simpl in Hrun. rewrite E3 in Hrun.
        destruct Hrun as (Hd & Hdoc' & Hst).
        split; [exact Hd|]. split; [exact Hdoc'|]. lia. }
    destruct Hs' as (Hd & Hdoc' & Hst). unfold invariante.
    rewrite Hd, Hdoc'.
    split; [lia|]. split; [intros _; exact F2|]. split.
    - intros _. exists t, a, doc. auto.
    - intros _. exists t, (w_temperaturaprueba (e_paso3 w)). auto. }
  destruct (Z.eqb_spec (ss_step s) 4) as [E4|N4].
  { (* step 4 *)
    destruct (H3 ltac:(lia)) as (t & a & doc & Htt & Hta & Hdoc & Hload).
    destruct (H4 ltac:(lia)) as (t' & txt & Htt' & Hnf & Htp).
    destruct (paso4 float_of_str (e_paso4 w) (ss_data s)) as [d4|ex] eqn:E;
      [cbn [bind] in Hrun|discriminate Hrun].
    pose proof (fun k Hk => paso4_conserva (e_paso4 w) (ss_data s) d4 k Hk E)
      as Hcons.
    assert (F2 : dict_get d4 "fechaCreacion" <> None).
    { rewrite Hcons by fuera_de_paso4. apply H2. lia. }
    assert (Ftt : dict_get d4 "tipoTransformador"
                  = Some (VStr (transformador_str t)))
      by (rewrite Hcons by fuera_de_paso4; exact Htt).
    assert (Ftt' : dict_get d4 "tipoTransformador"
                   = Some (VStr (transformador_str t')))
      by (rewrite Hcons by fuera_de_paso4; exact Htt').
    assert (Fta : dict_get d4 "tipoAislamiento"
                  = Some (VStr (aislamiento_str a)))
      by (rewrite Hcons by fuera_de_paso4; exact Hta).
    assert (Fnf : dict_get d4 "carTrafo_NroFases" = Some (VInt (fases_de t')))
      by (rewrite Hcons by fuera_de_paso4; exact Hnf).
    assert (Ftp : dict_get d4 "temperaturaPrueba" = Some (VStr txt))
      by (rewrite Hcons by fuera_de_paso4; exact Htp).
    assert (Hs' : ss_data s' = d4 /\ ss_doc s' = ss_doc s /\
                  (ss_step s' = 3 \/ ss_step s' = 4 \/ ss_step s' = 5)).
    { destruct c.
      - injection Hrun as <- <-. simpl. auto.
      - injection Hrun as Hrun. apply prev_step_campos in Hrun.
        simpl in Hrun.
        rewrite E4 in Hrun. destruct Hrun as (Hd & Hdoc' & Hst).
        split; [exact Hd|]. split; [exact Hdoc'|]. lia.
      - injection Hrun as Hrun. apply next_step_campos in Hrun.
        simpl in Hrun. rewrite E4 in Hrun.
        destruct Hrun as (Hd & Hdoc' & Hst).
        split; [exact Hd|]. split; [exact Hdoc'|]. lia. }
    destruct Hs' as (Hd & Hdoc' & Hst). unfold invariante.
    rewrite Hd, Hdoc'.
    split; [lia|]. split; [intros _; exact F2|]. split.
    - intros _. exists t, a, doc. auto.
    - intros _. exists t', txt. auto. }
  (* step 5 and any other value *)
  injection Hrun as <- <-. unfold invariante. auto.
Qed.

End AsistenteInvariante.

Section AsistenteTeoremas.

Variable Doc : Type.
Variable DocxTemplate : string -> carga Doc.
Variable strftime_Ymd : pyval -> string.
Variable float_of_str : string -> result pyfloat.

Lemma factor_de_correccion_raise (d : dict) (txt : string) (e : exn) :
  dict_get d "temperaturaPrueba" = Some (VStr txt) ->
  float_of_str txt = Raise e ->
  factor_de_correccion float_of_str d = Raise e.
Proof.
  intros Htp He. unfold factor_de_correccion, dict_get_default.
  rewrite Htp. simpl. now rewrite He.
Qed.

(** When the text of the temperature does not convert, step 4 stops at
    its first product with the exception of [float]. *)
Lemma paso4_temperatura_no_convierte (w : widgets_paso4) (data : dict)
    (fases : pyval) (txt : string) (e : exn) :
  dict_get data "carTrafo_NroFases" = Some fases ->
  dict_get data "temperaturaPrueba" = Some (VStr txt) ->
  float_of_str txt = Raise e ->
  paso4 float_of_str w data = Raise e.
Proof.
  intros Hnf Htp He. unfold paso4, dict_getitem. rewrite Hnf. cbn [bind].
  destruct (py_eq_int fases 3).
  - unfold paso4_trifasico, asignar_referida, dict_getitem.
    rewrite dict_get_set, key_eqb_refl. cbn [bind].
    rewrite (factor_de_correccion_raise _ txt e); [reflexivity| |exact He].
    dict_simpl. exact Htp.
  - unfold paso4_monofasico, asignar_referida, dict_getitem.
    rewrite dict_get_set, key_eqb_refl. cbn [bind].
    rewrite (factor_de_correccion_raise _ txt e); [reflexivity| |exact He].
    dict_simpl. exact Htp.
Qed.

Lemma ok_pair_exists {A B : Type} (p : A * B) :
  exists a b, @Ok (A * B) p = Ok (a, b).
Proof. destruct p as [a b]. now exists a, b. Qed.

(** X10. One run moves the session by one step at most, forward only
    through "Siguiente" and back only through "Anterior"; a rerun is
    asked for exactly when the step changed; step 5 is final: no run
    changes the session any more, and no run leaves step 1 backwards. *)
Theorem script_moves_one_step (s s' : sesion Doc) (w : entradas) (c : clic)
    (e : efecto) :
  script Doc DocxTemplate strftime_Ymd float_of_str s w c = Ok (s', e) ->
  (ss_step s' = ss_step s /\ e <> Rerun \/
   c = Siguiente /\ ss_step s' = ss_step s + 1 /\ 1 <= ss_step s <= 4
   /\ e = Rerun \/
   c = Anterior /\ ss_step s' = ss_step s - 1 /\ 2 <= ss_step s <= 4
   /\ e = Rerun) /\
  (ss_step s = 5 -> s' = s /\ e = Nada).
Proof.
  intros Hrun. unfold script in Hrun.
  assert (Hnext : forall x, next_step Doc x = (s', e) ->
            (ss_step s' = ss_step x /\ e <> Rerun) \/
            (ss_step s' = ss_step x + 1 /\ e = Rerun)).
  { intros x. unfold next_step. destruct (missing (ss_data x));
      intros Hx; injection Hx as <- <-; simpl; [right; auto|left].
    split; [reflexivity|discriminate]. }
  assert (Hprev : forall x, 1 < ss_step x -> prev_step Doc x = (s', e) ->
            ss_step s' = ss_step x - 1 /\ e = Rerun).
  { intros x Hx. unfold prev_step.
    destruct (Z.ltb_spec 1 (ss_step x)); [|lia].
    intros Hp; injection Hp as <- <-; simpl; auto. }
  assert (Hnada : forall x : sesion Doc, Ok (x, Nada) = Ok (s', e) ->
            ss_step s' = ss_step x /\ e <> Rerun).
  { intros x Hx. injection Hx as <- <-. split; [reflexivity|discriminate]. }
  destruct (Z.eqb_spec (ss_step s) 1) as [E1|N1].
  { split; [|lia].
    destruct (paso1 _ _ _) as [d|]; [cbn [bind] in Hrun|discriminate Hrun].
    destruct c.
    - left. exact (Hnada _ Hrun).
    - left. exact (Hnada _ Hrun).
    - injection Hrun as Hrun. apply Hnext in Hrun. simpl in Hrun.
      destruct Hrun as [Hl|[Hr1 Hr2]]; [now left|].
      right. left. repeat split; auto; lia. }
  destruct (Z.eqb_spec (ss_step s) 2) as [E2|N2].
  { split; [|lia].
    destruct (paso2 _ _ _) as [d|]; [cbn [bind] in Hrun|discriminate Hrun].
    destruct c.
    - left. exact (Hnada _ Hrun).
    - injection Hrun as Hrun. apply Hprev in Hrun; [|simpl; lia].
      simpl in Hrun. right. right. repeat split; try tauto; lia.
    - unfold siguiente_paso2 in Hrun.
      destruct (template_path _) as [path|]; [cbn [bind] in Hrun|discriminate Hrun].
      destruct (DocxTemplate path) as [doc| |ex]; [| |discriminate Hrun].
      + injection Hrun as Hrun. apply Hnext in Hrun. simpl in Hrun.
        destruct Hrun as [Hl|[Hr1 Hr2]]; [now left|].
        right. left. repeat split; auto; lia.
      + injection Hrun as <- <-. left. simpl.
        split; [reflexivity|discriminate]. }
  destruct (Z.eqb_spec (ss_step s) 3) as [E3|N3].
  { split; [|lia].
    destruct (paso3 _ _ _) as [d|]; [cbn [bind] in Hrun|discriminate Hrun].
    destruct c.
    - left. exact (Hnada _ Hrun).
    - injection Hrun as Hrun. apply Hprev in Hrun; [|simpl; lia].
      simpl in Hrun. right. right. repeat split; try tauto; lia.
    - injection Hrun as Hrun. apply Hnext in Hrun. simpl in Hrun.
      destruct Hrun as [Hl|[Hr1 Hr2]]; [now left|].
      right. left. repeat split; auto; lia. }
  destruct (Z.eqb_spec (ss_step s) 4) as [E4|N4].
  { split; [|lia].
    destruct (paso4 _ _ _) as [d|]; [cbn [bind] in Hrun|discriminate Hrun].
    destruct c.
    - left. exact (Hnada _ Hrun).
    - injection Hrun as Hrun. apply Hprev in Hrun; [|simpl; lia].
      simpl in Hrun. right. right. repeat split; try tauto; lia.
    - injection Hrun as Hrun. apply Hnext in Hrun. simpl in Hrun.
      destruct Hrun as [Hl|[Hr1 Hr2]]; [now left|].
      right. left. repeat split; auto; lia. }
  injection Hrun as <- <-. split; [|auto].
  left. split; [reflexivity|discriminate].
Qed.

(** On a session that holds what its step relies on, a run raises no
    [KeyError] and no error of the kind of insulation: it completes, or
    it is a run of step 4 that raises what [float] raises on the text of
    the temperature, or the load of the template in step 2 raises
    something other than [FileNotFoundError]. *)
Lemma script_sobre_invariante (s : sesion Doc) (w : entradas) (c : clic) :
  invariante Doc DocxTemplate s ->
  (exists s' e,
     script Doc DocxTemplate strftime_Ymd float_of_str s w c = Ok (s', e)) \/
  (exists txt ex,
     ss_step s = 4 /\
     dict_get (ss_data s) "temperaturaPrueba" = Some (VStr txt) /\
     float_of_str txt = Raise ex /\
     script Doc DocxTemplate strftime_Ymd float_of_str s w c = Raise ex) \/
  (exists t ex,
     ss_step s = 2 /\ c = Siguiente /\
     DocxTemplate (plantilla_de t) = OtraExcepcion ex /\
     script Doc DocxTemplate strftime_Ymd float_of_str s w c = Raise ex).
Proof.
  intros (Hb & H2 & H3 & H4). unfold script.
  destruct (Z.eqb_spec (ss_step s) 1) as [E1|N1].
  { left. rewrite paso1_asignaciones. cbn [bind].
    destruct c; apply ok_pair_exists. }
  destruct (Z.eqb_spec (ss_step s) 2) as [E2|N2].
  { rewrite paso2_asignaciones. cbn [bind].
    destruct c.
    - left. apply ok_pair_exists.
    - left. apply ok_pair_exists.
    - unfold siguiente_paso2, template_path, dict_getitem.
      cbn [ss_data con_data].
      rewrite dict_get_asignaciones.
      cbn [ultima String.eqb Ascii.eqb Bool.eqb fst snd bind].
      rewrite (proj1 (proj2 (py_eq_str_transformador _))).
      destruct (DocxTemplate (plantilla_de (w_tipotrafo (e_paso2 w))))
        as [doc| |ex] eqn:Ed.
      + left. apply ok_pair_exists.
      + left. apply ok_pair_exists.
      + right. right. exists (w_tipotrafo (e_paso2 w)), ex. auto. }
  destruct (Z.eqb_spec (ss_step s) 3) as [E3|N3].
  { left.
    destruct (H3 ltac:(lia)) as (t & a & doc & Htt & Hta & Hdoc & Hload).
    destruct (dict_get (ss_data s) "fechaCreacion") as [fc|] eqn:Hfc;
      [|exfalso; now apply (H2 ltac:(lia))].
    rewrite (paso3_asignaciones strftime_Ymd (e_paso3 w) (ss_data s) _ fc
               Htt Hfc).
    cbn [bind].
    destruct c; apply ok_pair_exists. }
  destruct (Z.eqb_spec (ss_step s) 4) as [E4|N4].
  { destruct (H3 ltac:(lia)) as (t & a & doc & Htt & Hta & Hdoc & Hload).
    destruct (H4 ltac:(lia)) as (t' & txt & Htt' & Hnf & Htp).
    destruct (float_of_str txt) as [x|ex] eqn:Ef.
    - left.
      destruct (paso4_filas_comunes float_of_str (e_paso4 w) (ss_data s)
                  (VInt (fases_de t')) (aislamiento_str a) x Hnf Hta)
        as (factor & d4 & _ & Hrun & _).
      + destruct a; auto.
      + unfold dict_get_default. rewrite Htp. exact Ef.
      + rewrite Hrun. cbn [bind].
        destruct c; apply ok_pair_exists.
    - right. left. exists txt, ex.
      rewrite (paso4_temperatura_no_convierte (e_paso4 w) (ss_data s)
                 _ txt ex Hnf Htp Ef).
      auto. }
  left. apply ok_pair_exists.
Qed.

End AsistenteTeoremas.

Section AsistenteComposicion.

Variable Doc : Type.
Variable DocxTemplate : string -> carga Doc.
Variable strftime_Ymd : pyval -> string.
Variable float_of_str : string -> result pyfloat.

(** X12. When the text of the temperature that step 3 stored does not
    convert to a float, every run of step 4 raises the exception of
    [float], whatever the widgets return and whichever button is
    pressed: the run ends before the buttons, so the session cannot
    leave step 4. *)
Theorem step4_unconvertible_temperature_blocks (s : sesion Doc)
    (fases : pyval) (txt : string) (ex : exn) (w : entradas) (c : clic) :
  ss_step s = 4 ->
  dict_get (ss_data s) "carTrafo_NroFases" = Some fases ->
  dict_get (ss_data s) "temperaturaPrueba" = Some (VStr txt) ->
  float_of_str txt = Raise ex ->
  script Doc DocxTemplate strftime_Ymd float_of_str s w c = Raise ex.
Proof.
  intros E4 Hnf Htp He. unfold script. rewrite E4. simpl.
  now rewrite (paso4_temperatura_no_convierte float_of_str (e_paso4 w)
                 (ss_data s) fases txt ex Hnf Htp He).
Qed.

(** X13. The assignments of steps 1 to 4, run in this order from any
    dictionary, all succeed when the text of the temperature converts.
    The template path of step 2, the number of phases of step 3 and the
    branch of step 4 follow the same selection: with "Trifásico" the row
    of high against ground is compared, with "Monofásico" it holds the
    placeholder; the expected values follow the selected insulation, and
    the date of the measurements is the formatted date of step 1. *)
Theorem steps_1_to_4_compose (w : entradas) (data0 : dict) (t : pyfloat) :
  float_of_str (w_temperaturaprueba (e_paso3 w)) = Ok t ->
  exists d1 d2 d3 d4 factor,
    paso1 strftime_Ymd (e_paso1 w) data0 = Ok d1 /\
    paso2 strftime_Ymd (e_paso2 w) d1 = Ok d2 /\
    paso3 strftime_Ymd (e_paso3 w) d2 = Ok d3 /\
    paso4 float_of_str (e_paso4 w) d3 = Ok d4 /\
    obtener_valor_por_temperatura t
      (aislamiento_str (w_tipoaislamiento (e_paso2 w))) = Ok factor /\
    template_path d3 = Ok (plantilla_de (w_tipotrafo (e_paso2 w))) /\
    dict_get d4 "carTrafo_NroFases"
    = Some (VInt (fases_de (w_tipotrafo (e_paso2 w)))) /\
    dict_get d4 "carTrafo_FechaMediciones"
    = Some (VStr (strftime_Ymd (w_fecha_creacion (e_paso1 w)))) /\
    match w_tipotrafo (e_paso2 w) with
    | Trifasico =>
        fila_conforme d4 (res_medida_avst (e_paso4 w)) factor
          (esperada_alta (w_tipoaislamiento (e_paso2 w)))
          "resReferida_AVST" "resEsp_AVST" "resultado_AVST"
    | Monofasico =>
        dict_get d4 "resReferida_AVST" = Some (VStr "-") /\
        dict_get d4 "resultado_AVST" = Some (VStr "Cumple")
    end /\
    fila_conforme d4 (res_medida_avsb (e_paso4 w)) factor
      (esperada_alta (w_tipoaislamiento (e_paso2 w)))
      "resReferida_AVSB" "resEsp_AVSB" "resultado_AVSB" /\
    fila_conforme d4 (res_medida_bvst (e_paso4 w)) factor
      (esperada_baja (w_tipoaislamiento (e_paso2 w)))
      "resReferida_BVST" "resEsp_BVST" "resultado_BVST".
Proof.
  intros Ht.
  set (tt := w_tipotrafo (e_paso2 w)). set (a := w_tipoaislamiento (e_paso2 w)).
  eexists. eexists.
  assert (Htt : forall d, dict_get
                  (asignaciones
                     [ ("nroTransformador", VStr (w_nro_transformador (e_paso2 w)));
                       ("capacidadTransformador",
                        VStr (w_capacidad_transformador (e_paso2 w)));
                       ("tipoTransformador", VStr (transformador_str tt));
                       ("tipoAislamiento", VStr (aislamiento_str a));
                       ("voltajePrimario", VStr (w_voltprimario (e_paso2 w)));
                       ("voltajeSecundario", VStr (w_voltsecundario (e_paso2 w)));
                       ("latitud", VStr (w_latitud (e_paso2 w)));
                       ("longitud", VStr (w_longitud (e_paso2 w)));
                       ("fechaCalibracionSinFormato",
                        w_fecha_calibracion (e_paso2 w));
                       ("fechaCalibracion",
                        VStr (strftime_Ymd (w_fecha_calibracion (e_paso2 w)))) ]
                     d) "tipoTransformador"
                = Some (VStr (transformador_str tt))).
  { intros d. rewrite dict_get_asignaciones. reflexivity. }
  match type of Htt with
  | forall d, dict_get (asignaciones ?k2 d) _ = _ => set (kvs2 := k2) in *
  end.
  pose proof (paso1_asignaciones strftime_Ymd (e_paso1 w) data0) as H1.
  match type of H1 with
  | _ = Ok ?d => set (d1 := d) in *
  end.
  pose proof (paso2_asignaciones strftime_Ymd (e_paso2 w) d1) as H2.
  fold tt a kvs2 in H2. set (d2 := asignaciones kvs2 d1) in *.
  assert (Hfc : dict_get d2 "fechaCreacion"
                = Some (VStr (strftime_Ymd (w_fecha_creacion (e_paso1 w))))).
  { unfold d2, kvs2, d1. rewrite !dict_get_asignaciones. reflexivity. }
  pose proof (paso3_asignaciones strftime_Ymd (e_paso3 w) d2 _ _
                (Htt d1) Hfc) as H3.
  rewrite (proj1 (py_eq_str_transformador tt)) in H3.
  match type of H3 with
  | _ = Ok ?d => set (d3 := d) in *
  end.
  assert (F3tt : dict_get d3 "tipoTransformador"
                 = Some (VStr (transformador_str tt))).
  { unfold d3. rewrite dict_get_asignaciones.
    cbn [ultima String.eqb Ascii.eqb Bool.eqb fst snd]. exact (Htt d1). }
  assert (F3ta : dict_get d3 "tipoAislamiento"
                 = Some (VStr (aislamiento_str a))).
  { unfold d3, d2, kvs2. rewrite !dict_get_asignaciones. reflexivity. }
  assert (F3nf : dict_get d3 "carTrafo_NroFases" = Some (VInt (fases_de tt))).
  { unfold d3. rewrite dict_get_asignaciones. reflexivity. }
  assert (F3fm : dict_get d3 "carTrafo_FechaMediciones"
                 = Some (VStr (strftime_Ymd (w_fecha_creacion (e_paso1 w))))).
  { unfold d3. rewrite dict_get_asignaciones. reflexivity. }
  assert (F3tp : py_float float_of_str
                   (dict_get_default d3 "temperaturaPrueba" (VInt 0)) = Ok t).
  { unfold d3. rewrite dict_get_default_asignaciones. exact Ht. }
  assert (Hv : tipo_valido (aislamiento_str a)).
  { destruct a; [now apply tipo_aceite|now apply tipo_seco]. }
  destruct (obtener_valor_total t (aislamiento_str a) Hv) as [factor Hf].
  pose proof (factor_de_correccion_ok float_of_str d3 t _ factor
                F3tp F3ta Hf) as Hfac.
  assert (Hrun : exists d4,
            paso4 float_of_str (e_paso4 w) d3 = Ok d4 /\
            match tt with
            | Trifasico =>
                fila_conforme d4 (res_medida_avst (e_paso4 w)) factor
                  (esperada_alta a)
                  "resReferida_AVST" "resEsp_AVST" "resultado_AVST"
            | Monofasico =>
                dict_get d4 "resReferida_AVST" = Some (VStr "-") /\
                dict_get d4 "resultado_AVST" = Some (VStr "Cumple")
            end /\
            fila_conforme d4 (res_medida_avsb (e_paso4 w)) factor
              (esperada_alta a)
              "resReferida_AVSB" "resEsp_AVSB" "resultado_AVSB" /\
            fila_conforme d4 (res_medida_bvst (e_paso4 w)) factor
              (esperada_baja a)
              "resReferida_BVST" "resEsp_BVST" "resultado_BVST").
  { unfold paso4, dict_getitem. rewrite F3nf. cbn [bind].
    rewrite (proj2 (proj2 (py_eq_str_transformador tt))).
    destruct tt.
    - destruct (paso4_trifasico_filas float_of_str (e_paso4 w) d3 _ factor
                  F3ta Hfac) as (d4 & Hd4 & R1 & R2 & R3).
      exists d4. split; [exact Hd4|]. destruct a; auto.
    - destruct (paso4_monofasico_filas float_of_str (e_paso4 w) d3 _ factor
                  F3ta Hfac) as (d4 & Hd4 & R2 & R3).
      destruct (paso4_monofasico_avst float_of_str (e_paso4 w) d3 d4 Hd4)
        as [Hres Href].
      exists d4. split; [exact Hd4|]. destruct a; auto. }
  destruct Hrun as (d4 & Hd4 & Hrows).
  exists d3, d4, factor.
  split; [exact H1|]. split; [exact H2|]. split; [exact H3|].
  split; [exact Hd4|]. split; [exact Hf|]. split.
  { unfold template_path, dict_getitem. rewrite F3tt. cbn [bind].
    now rewrite (proj1 (proj2 (py_eq_str_transformador tt))). }
  split.
  { rewrite (paso4_conserva float_of_str (e_paso4 w) d3 d4
               "carTrafo_NroFases"); [exact F3nf| |exact Hd4].
    fuera_de_paso4. }
  split; [|exact Hrows].
  rewrite (paso4_conserva float_of_str (e_paso4 w) d3 d4
             "carTrafo_FechaMediciones"); [exact F3fm| |exact Hd4].
  fuera_de_paso4.
Qed.

End AsistenteComposicion.

Lemma script_moves_one_step_witness :
  exists s',
    script string cargar_ejemplo strftime_ejemplo float_of_digits
      (sesion_inicial string) (entradas_ejemplo "35") Siguiente
    = Ok (s', Rerun) /\
    ss_step s' = ss_step (sesion_inicial string) + 1.
Proof.
  eexists. split; [vm_compute; reflexivity|].
  destruct (script_moves_one_step string cargar_ejemplo strftime_ejemplo
              float_of_digits (sesion_inicial string) _
              (entradas_ejemplo "35") Siguiente Rerun
              ltac:(vm_compute; reflexivity))
    as [[[_ Hno]|[(_ & Hst & _)|(Hc & _)]] _].
  - now elim Hno.
  - exact Hst.
  - discriminate Hc.
Defined.

Lemma step4_unconvertible_temperature_blocks_witness :
  script string cargar_ejemplo strftime_ejemplo float_of_digits
    {| ss_step := 4; ss_data := datos_ejemplo 1 "Seco" "20 C";
       ss_doc := Some "templates/templateTRAFO1FS.docx" |}
    (entradas_ejemplo "20 C") Anterior
  = Raise (ValueError "could not convert string to float").
Proof.
  exact (step4_unconvertible_temperature_blocks string cargar_ejemplo
           strftime_ejemplo float_of_digits
           {| ss_step := 4; ss_data := datos_ejemplo 1 "Seco" "20 C";
              ss_doc := Some "templates/templateTRAFO1FS.docx" |}
           (VInt 1) "20 C" (ValueError "could not convert string to float")
           (entradas_ejemplo "20 C") Anterior
           eq_refl eq_refl eq_refl eq_refl).
Defined.

Lemma steps_1_to_4_compose_witness :
  exists d1 d2 d3 d4,
    paso1 strftime_ejemplo (e_paso1 (entradas_ejemplo "35")) [] = Ok d1 /\
    paso2 strftime_ejemplo (e_paso2 (entradas_ejemplo "35")) d1 = Ok d2 /\
    paso3 strftime_ejemplo (e_paso3 (entradas_ejemplo "35")) d2 = Ok d3 /\
    paso4 float_of_digits (e_paso4 (entradas_ejemplo "35")) d3 = Ok d4 /\
    dict_get d4 "carTrafo_NroFases" = Some (VInt 1) /\
    dict_get d4 "resultado_AVST" = Some (VStr "Cumple").
Proof.
  destruct (steps_1_to_4_compose strftime_ejemplo float_of_digits
              (entradas_ejemplo "35") [] (PyFloat.of_int 35) eq_refl)
    as (d1 & d2 & d3 & d4 & factor & H1 & H2 & H3 & H4 & _ & _ & Hnf & _
        & Havst & _).
  exists d1, d2, d3, d4. simpl in Havst. tauto.
Defined.

(** * The lookup against exact arithmetic *)

(** ** The shifts of the rounding *)

Lemma shr_1_spec (m : Z) (r s : bool) :
  0 <= m ->
  shr_1 (Build_shr_record m r s)
  = Build_shr_record (m / 2) (Z.odd m) (r || s).
Proof.
  intros Hm. destruct m as [|[p|p|]|p]; try lia; simpl; try reflexivity.
  - f_equal. rewrite Pos2Z.inj_xI.
    apply (Z.div_unique _ _ _ 1); lia.
  - f_equal. rewrite Pos2Z.inj_xO.
    apply (Z.div_unique _ _ _ 0); lia.
Qed.

Lemma iter_pos_nat {A : Type} (f : A -> A) (p : positive) (x : A) :
  iter_pos f p x = Nat.iter (Pos.to_nat p) f x.
Proof.
  revert x. induction p as [p IH|p IH|]; intros x; cbn [iter_pos].
  - rewrite !IH, Pos2Nat.inj_xI.
    replace (S (2 * Pos.to_nat p))%nat with (Pos.to_nat p + S (Pos.to_nat p))%nat by lia.
    rewrite Nat.iter_add. f_equal. now rewrite Nat.iter_succ_r.
  - rewrite !IH, Pos2Nat.inj_xO.
    replace (2 * Pos.to_nat p)%nat with (Pos.to_nat p + Pos.to_nat p)%nat by lia.
    now rewrite Nat.iter_add.
  - reflexivity.
Qed.

Lemma divmod_double (m P : Z) :
  0 <= m -> 0 < P ->
  m / (2 * P) = m / P / 2 /\
  m mod (2 * P) = m mod P + P * (if Z.odd (m / P) then 1 else 0).
Proof.
  intros Hm HP.
  pose proof (Z.div_mod m P ltac:(lia)) as E.
  pose proof (Z.mod_pos_bound m P HP) as B.
  pose proof (Z.div_mod (m / P) 2 ltac:(lia)) as E2.
  pose proof (Z.mod_pos_bound (m / P) 2 ltac:(lia)) as B2.
  assert (Ho : (m / P) mod 2 = if Z.odd (m / P) then 1 else 0).
  { rewrite Zmod_odd. reflexivity. }
  set (q := m / P) in *. set (r := m mod P) in *.
  set (q' := q / 2) in *. set (b := q mod 2) in *.
  assert (Em : m = 2 * P * q' + (r + P * b)).
  { rewrite E at 1. rewrite E2 at 1. ring. }
  assert (Bb : 0 <= r + P * b < 2 * P).
  { rewrite Ho. destruct (Z.odd q); lia. }
  split.
  - symmetry. apply (Z.div_unique m (2 * P) q' (r + P * b)); [lia | exact Em].
  - rewrite <- Ho. symmetry.
    apply (Z.mod_unique m (2 * P) q' (r + P * b)); [lia | exact Em].
Qed.

Lemma loc_inv_step (m k : Z) (rcd : shr_record) :
  0 <= m -> 0 <= k ->
  loc_inv m k rcd -> loc_inv m (k + 1) (shr_1 rcd).
Proof.
  intros Hm Hk [Em Hl]. destruct rcd as [mk rk sk]. cbn [shr_m shr_r shr_s] in Em, Hl.
  assert (HP : 0 < 2 ^ k) by (apply Z.pow_pos_nonneg; lia).
  assert (Hmk : 0 <= mk) by (subst mk; apply Z.div_pos; lia).
  rewrite (shr_1_spec mk rk sk Hmk).
  destruct (divmod_double m (2 ^ k) Hm HP) as [Ed Er].
  assert (E2 : 2 ^ (k + 1) = 2 * 2 ^ k) by (rewrite Z.pow_add_r by lia; lia).
  pose proof (Z.mod_pos_bound m (2 ^ k) HP) as B.
  unfold loc_inv. cbn [shr_m shr_r shr_s]. rewrite E2, Ed, Er, <- Em.
  split; [reflexivity|].
  destruct (Z.odd mk), rk, sk; cbn [orb]; lia.
Qed.

Lemma loc_inv_iter (m : Z) (n : nat) :
  0 <= m ->
  loc_inv m (Z.of_nat n) (Nat.iter n shr_1 (Build_shr_record m false false)).
Proof.
  intros Hm. induction n as [|n IH].
  - unfold loc_inv. cbn [Nat.iter shr_m shr_r shr_s Z.of_nat]. rewrite Z.pow_0_r, Z.div_1_r, Z.mod_1_r. split; reflexivity.
  - rewrite Nat2Z.inj_succ, <- Z.add_1_r. cbn [Nat.iter].
    apply loc_inv_step; [exact Hm | lia | exact IH].
Qed.

Lemma shr_rne (m : Z) (p : positive) :
  0 <= m ->
  let rcd := iter_pos shr_1 p (Build_shr_record m false false) in
  round_nearest_even (shr_m rcd) (loc_of_shr_record rcd) = rne m (Z.pos p).
Proof.
  intros Hm rcd. subst rcd. rewrite iter_pos_nat.
  pose proof (loc_inv_iter m (Pos.to_nat p) Hm) as [Em Hl].
  rewrite positive_nat_Z in Em, Hl.
  destruct (Nat.iter (Pos.to_nat p) shr_1 _) as [mk rk sk].
  cbn [shr_m shr_r shr_s] in *. unfold rne. rewrite <- Em.
  unfold loc_of_shr_record, round_nearest_even.
  assert (HP : 0 < 2 ^ Z.pos p) by (apply Z.pow_pos_nonneg; lia).
  destruct rk, sk.
  - apply Z.lt_gt in Hl. apply Z.gt_lt in Hl.
    rewrite (proj2 (Z.compare_gt_iff _ _) Hl). reflexivity.
  - rewrite (proj2 (Z.compare_eq_iff _ _) Hl). now destruct (Z.even mk).
  - rewrite (proj2 (Z.compare_lt_iff _ _) (proj2 Hl)). reflexivity.
  - rewrite Hl, Z.mul_0_r, (proj2 (Z.compare_lt_iff _ _) HP). reflexivity.
Qed.

Lemma rne_spec (V K : Z) :
  0 <= V -> 0 <= K ->
  let q := V / 2 ^ K in
  let r := V mod 2 ^ K in
  V = 2 ^ K * q + r /\ 0 <= r < 2 ^ K /\ 0 <= q /\
  ((2 * r < 2 ^ K /\ rne V K = q) \/
   (2 * r = 2 ^ K /\ rne V K = if Z.even q then q else q + 1) \/
   (2 ^ K < 2 * r /\ rne V K = q + 1)).
Proof.
  intros HV HK q r.
  assert (HP : 0 < 2 ^ K) by (apply Z.pow_pos_nonneg; lia).
  split; [apply Z.div_mod; lia|].
  split; [apply Z.mod_pos_bound; exact HP|].
  split; [apply Z.div_pos; lia|].
  unfold rne. fold q r.
  destruct (Z.compare_spec (2 * r) (2 ^ K)) as [E|E|E]; auto.
Qed.

Lemma rne_0 (V : Z) : rne V 0 = V.
Proof.
  unfold rne. rewrite Z.pow_0_r, Z.div_1_r, Z.mod_1_r. reflexivity.
Qed.

Lemma rne_exact (m K : Z) :
  0 <= K -> rne (m * 2 ^ K) K = m.
Proof.
  intros HK.
  assert (HP : 0 < 2 ^ K) by (apply Z.pow_pos_nonneg; lia).
  unfold rne. rewrite Z.div_mul, Z.mod_mul by lia.
  rewrite Z.mul_0_r, (proj2 (Z.compare_lt_iff _ _) HP). reflexivity.
Qed.

Lemma rne_scale (m n j : Z) :
  0 <= n -> 0 <= j -> rne (m * 2 ^ j) (n + j) = rne m n.
Proof.
  intros Hn Hj.
  assert (HP : 0 < 2 ^ n) by (apply Z.pow_pos_nonneg; lia).
  assert (HQ : 0 < 2 ^ j) by (apply Z.pow_pos_nonneg; lia).
  unfold rne. rewrite Z.pow_add_r by lia.
  rewrite Z.div_mul_cancel_r by lia.
  rewrite Z.mul_mod_distr_r by lia.
  rewrite Z.mul_assoc, <- Zmult_compare_compat_r by lia. reflexivity.
Qed.

Lemma rne_mono (V1 V2 K : Z) :
  0 <= V1 -> 0 <= K -> V1 <= V2 -> rne V1 K <= rne V2 K.
Proof.
  intros H1 HK H12.
  destruct (rne_spec V1 K H1 HK) as (E1 & B1 & Q1 & C1).
  destruct (rne_spec V2 K ltac:(lia) HK) as (E2 & B2 & Q2 & C2).
  assert (HP : 0 < 2 ^ K) by (apply Z.pow_pos_nonneg; lia).
  assert (Hq : V1 / 2 ^ K <= V2 / 2 ^ K) by (apply Z.div_le_mono; lia).
  set (P := 2 ^ K) in *.
  set (q1 := V1 / P) in *. set (q2 := V2 / P) in *.
  set (r1 := V1 mod P) in *. set (r2 := V2 mod P) in *.
  destruct (Z.eq_dec q1 q2) as [Eq|Nq].
  - rewrite <- Eq in *. assert (r1 <= r2) by lia.
    destruct (Z.even q1);
      destruct C1 as [[? ->]|[[? ->]|[? ->]]];
      destruct C2 as [[? ->]|[[? ->]|[? ->]]]; lia.
  - assert (q1 + 1 <= q2) by lia.
    destruct (Z.even q1), (Z.even q2);
      destruct C1 as [[? ->]|[[? ->]|[? ->]]];
      destruct C2 as [[? ->]|[[? ->]|[? ->]]]; lia.
Qed.

Lemma rne_near (V K : Z) :
  0 <= V -> 0 <= K ->
  2 * V - 2 ^ K <= 2 * (2 ^ K * rne V K) <= 2 * V + 2 ^ K.
Proof.
  intros HV HK.
  destruct (rne_spec V K HV HK) as (E & B & Q & C).
  set (P := 2 ^ K) in *. set (q := V / P) in *. set (r := V mod P) in *.
  destruct (Z.even q);
    destruct C as [[? ->]|[[? ->]|[? ->]]]; lia.
Qed.

(** ** The rounding of a value *)

Lemma fexp_eq (x : Z) :
  fexp PyFloat.prec PyFloat.emax x = Z.max (x - 53) (-1074).
Proof. reflexivity. Qed.

Lemma digits2_log2 (p : positive) :
  Z.pos (digits2_pos p) = Z.log2 (Z.pos p) + 1.
Proof.
  induction p as [p IH|p IH|]; [| |reflexivity]; cbn [digits2_pos];
    rewrite Pos2Z.inj_succ, IH.
  - rewrite Pos2Z.inj_xI, Z.log2_succ_double by lia. lia.
  - rewrite Pos2Z.inj_xO, Z.log2_double by lia. lia.
Qed.

Lemma iter_xO (m d : positive) :
  Z.pos (Pos.iter xO m d) = Z.pos m * 2 ^ Z.pos d.
Proof.
  induction d as [|d IH] using Pos.peano_ind.
  - cbn [Pos.iter]. rewrite Pos2Z.inj_xO. lia.
  - rewrite Pos.iter_succ, Pos2Z.inj_xO, IH, Pos2Z.inj_succ, Z.pow_succ_r by lia.
    lia.
Qed.

Lemma log2_escala (m e : Z) :
  0 < m -> 0 <= e -> Z.log2 (m * 2 ^ e) = Z.log2 m + e.
Proof.
  intros Hm He. rewrite Z.log2_mul_pow2 by lia. lia.
Qed.

(** The bounds of the rounded mantissa. *)
Lemma rne_mantisa (V : Z) :
  0 < V ->
  let K := Z.max (Z.log2 V + 1 - 53) 0 in
  (K = 0 -> rne V K = V /\ V < 2 ^ 53) /\
  (0 < K -> 2 ^ 52 <= rne V K <= 2 ^ 53).
Proof.
  intros HV K. split.
  - intros E. rewrite E, rne_0. split; [reflexivity|].
    apply Z.log2_lt_pow2; lia.
  - intros HK.
    assert (EK : Z.log2 V = 52 + K) by lia.
    destruct (Z.log2_spec V HV) as [Hlo Hhi].
    rewrite EK in Hlo. replace (Z.succ (Z.log2 V)) with (53 + K) in Hhi by lia.
    rewrite Z.pow_add_r in Hlo, Hhi by lia.
    destruct (rne_spec V K ltac:(lia) ltac:(lia)) as (E & B & Q & C).
    assert (HP : 0 < 2 ^ K) by (apply Z.pow_pos_nonneg; lia).
    set (P := 2 ^ K) in *. set (q := V / P) in *. set (r := V mod P) in *.
    assert (Hq : 2 ^ 52 <= q < 2 ^ 53) by nia.
    destruct (Z.even q); destruct C as [[? ->]|[[? ->]|[? ->]]]; lia.
Qed.

Lemma primera_etapa (m : positive) (e : Z) :
  -1074 <= e ->
  e <= fexp PyFloat.prec PyFloat.emax (Z.pos (digits2_pos m) + e) ->
  let V := Z.pos m * 2 ^ (e + 1074) in
  let K := Z.max (Z.log2 V + 1 - 53) 0 in
  let p := shr_fexp PyFloat.prec PyFloat.emax (Z.pos m) e loc_Exact in
  round_nearest_even (shr_m (fst p)) (loc_of_shr_record (fst p)) = rne V K /\
  snd p = K - 1074.
Proof.
  intros He Hn V K p.
  assert (EV : Z.log2 V = Z.log2 (Z.pos m) + (e + 1074)).
  { apply log2_escala; lia. }
  assert (EK : K = fexp PyFloat.prec PyFloat.emax (Z.pos (digits2_pos m) + e)
                   + 1074).
  { unfold K. rewrite EV, fexp_eq, digits2_log2. lia. }
  subst p. unfold shr_fexp, shr. cbn [Zdigits2 shr_record_of_loc].
  set (E := fexp PyFloat.prec PyFloat.emax (Z.pos (digits2_pos m) + e)) in *.
  destruct (E - e) as [|n|n] eqn:En; cbn [fst snd shr_m]; [| |lia].
  - cbn [loc_of_shr_record round_nearest_even]. split; [|lia].
    replace K with (e + 1074) by lia. unfold V. now rewrite rne_exact by lia.
  - rewrite (shr_rne (Z.pos m) n) by lia. split; [|lia].
    replace K with (Z.pos n + (e + 1074)) by lia.
    unfold V. now rewrite rne_scale by lia.
Qed.

Lemma segunda_etapa (m1 K : Z) :
  0 <= K ->
  0 < m1 <= 2 ^ 53 ->
  let p := shr_fexp PyFloat.prec PyFloat.emax m1 (K - 1074) loc_Exact in
  shr_m (fst p) = (if m1 =? 2 ^ 53 then 2 ^ 52 else m1) /\
  snd p = (if m1 =? 2 ^ 53 then K + 1 else K) - 1074.
Proof.
  intros HK Hm p. subst p. unfold shr_fexp, shr.
  destruct (Z.eqb_spec m1 (2 ^ 53)) as [E|N].
  - subst m1.
    change (Zdigits2 (2 ^ 53)) with 54. rewrite fexp_eq.
    replace (Z.max (54 + (K - 1074) - 53) (-1074) - (K - 1074)) with 1 by lia.
    cbn [shr_record_of_loc iter_pos fst snd]. split; [reflexivity|lia].
  - destruct m1 as [|p1|p1]; try lia.
    cbn [Zdigits2]. rewrite fexp_eq, digits2_log2.
    assert (Hl : Z.log2 (Z.pos p1) < 53) by (apply Z.log2_lt_pow2; lia).
    destruct (Z.max (Z.log2 (Z.pos p1) + 1 + (K - 1074) - 53) (-1074)
              - (K - 1074)) as [|n|n] eqn:En; try lia;
      cbn [shr_record_of_loc fst snd shr_m]; split; reflexivity.
Qed.

Lemma binary_round_aux_rango (s : bool) (m : positive) (e : Z) :
  -1074 <= e ->
  e <= fexp PyFloat.prec PyFloat.emax (Z.pos (digits2_pos m) + e) ->
  rango (binary_round_aux PyFloat.prec PyFloat.emax s (Z.pos m) e loc_Exact)
  = rango_valor (Z.pos m * 2 ^ (e + 1074)).
Proof.
  intros He Hn.
  destruct (primera_etapa m e He Hn) as [H1 H1e].
  set (V := Z.pos m * 2 ^ (e + 1074)) in *.
  assert (HV : 0 < V).
  { unfold V. apply Z.mul_pos_pos; [lia|apply Z.pow_pos_nonneg; lia]. }
  set (K := Z.max (Z.log2 V + 1 - 53) 0) in *.
  destruct (rne_mantisa V HV) as [B0 B1]. fold K in B0, B1.
  assert (Hm1 : 0 < rne V K <= 2 ^ 53).
  { destruct (Z.eq_dec K 0) as [E0|N0].
    - destruct (B0 E0) as [-> ?]. lia.
    - assert (0 < K) by lia. specialize (B1 ltac:(lia)). lia. }
  destruct (segunda_etapa (rne V K) K ltac:(lia) Hm1) as [H2 H2e].
  unfold binary_round_aux.
  destruct (shr_fexp PyFloat.prec PyFloat.emax (Z.pos m) e loc_Exact)
    as [rcd e'] eqn:E1.
  cbn [fst snd] in H1, H1e. rewrite H1, H1e.
  destruct (shr_fexp PyFloat.prec PyFloat.emax (rne V K) (K - 1074) loc_Exact)
    as [rcd2 e''] eqn:E2.
  cbn [fst snd] in H2, H2e. rewrite H2, H2e.
  unfold rango_valor. fold V. rewrite (proj2 (Z.leb_gt V 0) HV). fold K.
  change (PyFloat.emax - PyFloat.prec) with 971.
  destruct (Z.eqb_spec (rne V K) (2 ^ 53)) as [E|N].
  - change (2 ^ 52) with (Z.pos (2 ^ 52)).
    destruct (K + 1 - 1074 <=? 971); reflexivity.
  - destruct (rne V K) as [|p1|p1] eqn:Er; try lia.
    destruct (K - 1074 <=? 971); reflexivity.
Qed.

Lemma binary_round_rango (s : bool) (m : positive) (e : Z) :
  -1074 <= e ->
  rango (binary_round PyFloat.prec PyFloat.emax s m e)
  = rango_valor (Z.pos m * 2 ^ (e + 1074)).
Proof.
  intros He. unfold binary_round, shl_align.
  assert (HE : fexp PyFloat.prec PyFloat.emax (Z.pos (digits2_pos m) + e)
               = Z.max (Z.log2 (Z.pos m) + 1 + e - 53) (-1074)).
  { now rewrite fexp_eq, digits2_log2. }
  destruct (fexp PyFloat.prec PyFloat.emax (Z.pos (digits2_pos m) + e) - e)
    as [|d|d] eqn:Ed.
  - apply binary_round_aux_rango; [exact He|lia].
  - apply binary_round_aux_rango; [exact He|lia].
  - rewrite HE in Ed |- *.
    set (E := Z.max (Z.log2 (Z.pos m) + 1 + e - 53) (-1074)) in *.
    assert (Hd : e = E + Z.pos d) by (pose proof (Pos2Z.opp_pos d); lia).
    assert (HEm : E = Z.max (Z.log2 (Z.pos m) + 1 + e - 53) (-1074))
      by reflexivity.
    clearbody E.
    rewrite binary_round_aux_rango.
    + f_equal. rewrite iter_xO.
      replace (e + 1074) with (Z.pos d + (E + 1074)) by lia.
      rewrite (Z.pow_add_r 2 (Z.pos d) (E + 1074)) by lia. ring.
    + lia.
    + rewrite digits2_log2, iter_xO, log2_escala by lia.
      rewrite fexp_eq. lia.
Qed.

Lemma rango_valor_mono (V1 V2 : Z) :
  V1 <= V2 -> ~ lex_lt (rango_valor V2) (rango_valor V1).
Proof.
  intros H12. unfold rango_valor.
  destruct (Z.leb_spec V1 0) as [N1|P1].
  { destruct (V2 <=? 0); [unfold lex_lt; lia|].
    cbv zeta.
    destruct (_ <=? 971); unfold lex_lt; lia. }
  assert (P2 : 0 < V2) by lia.
  rewrite (proj2 (Z.leb_gt V2 0) P2). cbv zeta.
  pose proof (Z.log2_le_mono V1 V2 H12) as HL.
  destruct (rne_mantisa V1 P1) as [A0 A1].
  destruct (rne_mantisa V2 P2) as [B0 B1].
  set (K1 := Z.max (Z.log2 V1 + 1 - 53) 0) in *.
  set (K2 := Z.max (Z.log2 V2 + 1 - 53) 0) in *.
  assert (HK : K1 <= K2) by lia.
  assert (HK1 : 0 <= K1) by lia.
  assert (Hm : K1 = K2 -> rne V1 K1 <= rne V2 K2).
  { intros E. rewrite <- E. apply rne_mono; lia. }
  assert (C1 : 0 < rne V1 K1 <= 2 ^ 53).
  { destruct (Z.eq_dec K1 0) as [E|N]; [destruct (A0 E) as [-> ?]; lia|].
    specialize (A1 ltac:(lia)). lia. }
  assert (C2 : 0 < rne V2 K2 <= 2 ^ 53).
  { destruct (Z.eq_dec K2 0) as [E|N]; [destruct (B0 E) as [-> ?]; lia|].
    specialize (B1 ltac:(lia)). lia. }
  assert (C3 : K1 < K2 -> 2 ^ 52 <= rne V2 K2) by (intros; apply B1; lia).
  set (m1 := rne V1 K1) in *. set (m2 := rne V2 K2) in *.
  clearbody m1 m2 K1 K2. clear A0 A1 B0 B1 HL.
  change (2 ^ 53) with 9007199254740992 in *.
  change (2 ^ 52) with 4503599627370496 in *.
  unfold lex_lt.
  destruct (Z.eqb_spec m1 9007199254740992), (Z.eqb_spec m2 9007199254740992);
    repeat match goal with |- context [?a <=? ?b] =>
             destruct (Z.leb_spec a b) end; lia.
Qed.

Lemma rango_valor_lt (V1 V2 : Z) :
  0 < V1 ->
  Z.log2 V2 <= 2096 ->
  V1 + 2 ^ Z.max (Z.log2 V2 + 1 - 53) 0 < V2 ->
  lex_lt (rango_valor V1) (rango_valor V2).
Proof.
  intros P1 Hb Hgap.
  assert (HP0 : 0 < 2 ^ Z.max (Z.log2 V2 + 1 - 53) 0)
    by (apply Z.pow_pos_nonneg; lia).
  assert (P2 : 0 < V2) by lia.
  unfold rango_valor.
  rewrite (proj2 (Z.leb_gt V1 0) P1), (proj2 (Z.leb_gt V2 0) P2). cbv zeta.
  pose proof (Z.log2_le_mono V1 V2 ltac:(lia)) as HL.
  destruct (rne_mantisa V1 P1) as [A0 A1].
  destruct (rne_mantisa V2 P2) as [B0 B1].
  pose proof (rne_near V1 (Z.max (Z.log2 V1 + 1 - 53) 0) ltac:(lia) ltac:(lia))
    as N1.
  pose proof (rne_near V2 (Z.max (Z.log2 V2 + 1 - 53) 0) ltac:(lia) ltac:(lia))
    as N2.
  set (K1 := Z.max (Z.log2 V1 + 1 - 53) 0) in *.
  set (K2 := Z.max (Z.log2 V2 + 1 - 53) 0) in *.
  assert (HK : K1 <= K2) by lia.
  assert (HK1 : 0 <= K1) by lia.
  assert (HK2 : K2 <= 2044) by lia.
  assert (C1 : 0 < rne V1 K1 <= 2 ^ 53).
  { destruct (Z.eq_dec K1 0) as [E|N]; [destruct (A0 E) as [-> ?]; lia|].
    specialize (A1 ltac:(lia)). lia. }
  assert (C2 : 0 < rne V2 K2 <= 2 ^ 53).
  { destruct (Z.eq_dec K2 0) as [E|N]; [destruct (B0 E) as [-> ?]; lia|].
    specialize (B1 ltac:(lia)). lia. }
  assert (C3 : K1 < K2 -> 2 ^ 52 <= rne V2 K2) by (intros; apply B1; lia).
  assert (Hm : K1 = K2 -> rne V1 K1 < rne V2 K2).
  { intros E. rewrite <- E in *.
    apply (Z.mul_lt_mono_pos_l (2 ^ K1)); lia. }
  assert (Hx : K1 + 1 = K2 -> rne V1 K1 = 2 ^ 53 -> rne V2 K2 = 2 ^ 52 -> False).
  { intros E E1 E2. rewrite E1 in N1. rewrite E2 in N2.
    rewrite <- E in N2, Hgap. rewrite Z.pow_add_r in N2, Hgap by lia.
    change (2 ^ 1) with 2 in *.
    change (2 ^ 53) with 9007199254740992 in *.
    change (2 ^ 52) with 4503599627370496 in *.
    assert (0 < 2 ^ K1) by (apply Z.pow_pos_nonneg; lia). lia. }
  set (m1 := rne V1 K1) in *. set (m2 := rne V2 K2) in *.
  clearbody m1 m2 K1 K2. clear A0 A1 B0 B1 HL N1 N2 Hgap HP0.
  change (2 ^ 53) with 9007199254740992 in *.
  change (2 ^ 52) with 4503599627370496 in *.
  unfold lex_lt.
  destruct (Z.eqb_spec m1 9007199254740992), (Z.eqb_spec m2 9007199254740992);
    repeat match goal with |- context [?a <=? ?b] =>
             destruct (Z.leb_spec a b) end; lia.
Qed.

(** A valid float is the rounding of its own value. *)
Lemma rango_valor_valido (s : bool) (m : positive) (e : Z) :
  valid_binary PyFloat.prec PyFloat.emax (S754_finite s m e) = true ->
  -1074 <= e /\
  rango_valor (Z.pos m * 2 ^ (e + 1074)) = (1, e, Z.pos m).
Proof.
  cbn [valid_binary]. unfold bounded, canonical_mantissa.
  intros H. apply andb_true_iff in H. destruct H as [Hc Hb].
  apply Z.eqb_eq in Hc. apply Z.leb_le in Hb.
  rewrite fexp_eq, digits2_log2 in Hc.
  change (PyFloat.emax - PyFloat.prec) with 971 in Hb.
  assert (He : -1074 <= e) by lia. split; [exact He|].
  assert (HV : 0 < Z.pos m * 2 ^ (e + 1074)).
  { apply Z.mul_pos_pos; [lia|apply Z.pow_pos_nonneg; lia]. }
  unfold rango_valor. rewrite (proj2 (Z.leb_gt _ 0) HV). cbv zeta.
  rewrite log2_escala by lia.
  replace (Z.max (Z.log2 (Z.pos m) + (e + 1074) + 1 - 53) 0) with (e + 1074)
    by lia.
  rewrite rne_exact by lia.
  assert (Hm : Z.pos m < 2 ^ 53) by (apply Z.log2_lt_pow2; lia).
  rewrite (proj2 (Z.eqb_neq _ _)) by lia.
  replace (e + 1074 - 1074) with e by lia.
  now rewrite (proj2 (Z.leb_le e 971) Hb).
Qed.

(** ** Subtraction and comparison of floats *)

Lemma shl_align_fst (mx : positive) (ex ez : Z) :
  ez <= ex ->
  Z.pos (fst (shl_align mx ex ez)) = Z.pos mx * 2 ^ (ex - ez).
Proof.
  intros H. unfold shl_align.
  destruct (ez - ex) as [|d|d] eqn:Ed; cbn [fst].
  - replace (ex - ez) with 0 by lia. lia.
  - lia.
  - rewrite iter_xO. f_equal. f_equal.
    pose proof (Pos2Z.opp_pos d). lia.
Qed.

Lemma rango_abs (x : pyfloat) : rango (PyFloat.abs x) = rango x.
Proof. now destruct x. Qed.

Lemma rango_valor_abs_opp (V : Z) :
  rango_valor (Z.abs (- V)) = rango_valor (Z.abs V).
Proof. now rewrite Z.abs_opp. Qed.

Lemma rango_binary_normalize (M e : Z) :
  -1074 <= e ->
  rango (binary_normalize PyFloat.prec PyFloat.emax M e false)
  = rango_valor (Z.abs M * 2 ^ (e + 1074)).
Proof.
  intros He. destruct M as [|p|p]; cbn [binary_normalize Z.abs].
  - reflexivity.
  - now apply binary_round_rango.
  - now apply binary_round_rango.
Qed.

Lemma escala_valido (x : pyfloat) :
  es_finito x = true -> valido x = true ->
  rango x = rango_valor (Z.abs (escala x)).
Proof.
  destruct x as [s| | |s m e]; try discriminate; intros _ Hv.
  - reflexivity.
  - destruct (rango_valor_valido s m e Hv) as [He Hr].
    cbn [escala rango].
    assert (HV : 0 < Z.pos m * 2 ^ (e + 1074)).
    { apply Z.mul_pos_pos; [lia|apply Z.pow_pos_nonneg; lia]. }
    destruct s; cbn [cond_Zopp]; [rewrite Z.abs_opp|];
      rewrite Z.abs_eq by lia; now rewrite Hr.
Qed.

(** The key of the search is the rounding of the distance. *)
Lemma rango_sub (x y : pyfloat) :
  es_finito x = true -> valido x = true ->
  es_finito y = true -> valido y = true ->
  rango (PyFloat.abs (PyFloat.sub x y))
  = rango_valor (Z.abs (escala x - escala y)).
Proof.
  intros Fx Vx Fy Vy. rewrite rango_abs.
  destruct x as [sx| | |sx mx ex]; try discriminate;
    destruct y as [sy| | |sy my ey]; try discriminate.
  - now destruct sx, sy.
  - cbn [PyFloat.sub SFsub]. 
    change (rango (S754_finite (negb sy) my ey))
      with (rango (S754_finite sy my ey)).
    rewrite (escala_valido _ Fy Vy).
    cbn [escala]. now rewrite Z.sub_0_l, Z.abs_opp.
  - cbn [PyFloat.sub SFsub]. rewrite (escala_valido _ Fx Vx).
    cbn [escala]. now rewrite Z.sub_0_r.
  - destruct (rango_valor_valido sx mx ex Vx) as [Hex _].
    destruct (rango_valor_valido sy my ey Vy) as [Hey _].
    unfold PyFloat.sub, SFsub.
    rewrite rango_binary_normalize by lia. f_equal.
    rewrite !shl_align_fst by lia.
    assert (HP : 0 < 2 ^ (Z.min ex ey + 1074))
      by (apply Z.pow_pos_nonneg; lia).
    rewrite <- (Z.abs_eq (2 ^ (Z.min ex ey + 1074))) at 1 by lia.
    rewrite <- Z.abs_mul. f_equal. cbn [escala].
    assert (E1 : 2 ^ (ex + 1074)
                 = 2 ^ (ex - Z.min ex ey) * 2 ^ (Z.min ex ey + 1074)).
    { rewrite <- Z.pow_add_r by lia. f_equal. lia. }
    assert (E2 : 2 ^ (ey + 1074)
                 = 2 ^ (ey - Z.min ex ey) * 2 ^ (Z.min ex ey + 1074)).
    { rewrite <- Z.pow_add_r by lia. f_equal. lia. }
    rewrite E1, E2.
    destruct sx, sy; cbn [cond_Zopp]; ring.
Qed.

Lemma escala_positivo (m : positive) (e : Z) :
  0 < Z.pos m * 2 ^ (e + 1074) \/ e + 1074 < 0.
Proof.
  destruct (Z.le_gt_cases 0 (e + 1074)) as [H|H]; [left|right; lia].
  apply Z.mul_pos_pos; [lia|apply Z.pow_pos_nonneg; lia].
Qed.

(** Among valid floats of one sign the order of exponent and mantissa is
    the order of the values. *)
Lemma lex_lt_valor (m1 m2 : positive) (e1 e2 : Z) :
  valido (S754_finite false m1 e1) = true ->
  valido (S754_finite false m2 e2) = true ->
  (e1 < e2 \/ (e1 = e2 /\ (m1 < m2)%positive)) ->
  Z.pos m1 * 2 ^ (e1 + 1074) < Z.pos m2 * 2 ^ (e2 + 1074).
Proof.
  intros V1 V2 H.
  destruct (rango_valor_valido false m1 e1 V1) as [He1 R1].
  destruct (rango_valor_valido false m2 e2 V2) as [He2 R2].
  apply Z.nle_gt. intros Hle.
  apply rango_valor_mono in Hle. rewrite R1, R2 in Hle.
  apply Hle. unfold lex_lt. lia.
Qed.

Lemma SFcompare_escala (x y : pyfloat) :
  es_finito x = true -> valido x = true ->
  es_finito y = true -> valido y = true ->
  SFcompare x y = Some (escala x ?= escala y).
Proof.
  intros Fx Vx Fy Vy.
  destruct x as [sx| | |sx mx ex]; try discriminate;
    destruct y as [sy| | |sy my ey]; try discriminate.
  - reflexivity.
  - destruct (rango_valor_valido sy my ey Vy) as [Hey _].
    destruct (escala_positivo my ey) as [P|P]; [|lia].
    cbn [SFcompare escala]. destruct sy; cbn [cond_Zopp]; f_equal; symmetry.
    + apply Z.compare_gt_iff. lia.
    + apply Z.compare_lt_iff. lia.
  - destruct (rango_valor_valido sx mx ex Vx) as [Hex _].
    destruct (escala_positivo mx ex) as [P|P]; [|lia].
    cbn [SFcompare escala]. destruct sx; cbn [cond_Zopp]; f_equal; symmetry.
    + apply Z.compare_lt_iff. lia.
    + apply Z.compare_gt_iff. lia.
  - destruct (rango_valor_valido sx mx ex Vx) as [Hex _].
    destruct (rango_valor_valido sy my ey Vy) as [Hey _].
    destruct (escala_positivo mx ex) as [Px|Px]; [|lia].
    destruct (escala_positivo my ey) as [Py|Py]; [|lia].
    assert (Vx' : valido (S754_finite false mx ex) = true) by exact Vx.
    assert (Vy' : valido (S754_finite false my ey) = true) by exact Vy.
    pose proof (lex_lt_valor mx my ex ey Vx' Vy') as Lxy.
    pose proof (lex_lt_valor my mx ey ex Vy' Vx') as Lyx.
    cbn [SFcompare escala].
    change (Pos.compare_cont Eq mx my) with (Pos.compare mx my).
    set (X := Z.pos mx * 2 ^ (ex + 1074)) in *.
    set (Y := Z.pos my * 2 ^ (ey + 1074)) in *.
    assert (Heq : ex = ey -> mx = my -> X = Y) by (intros -> ->; reflexivity).
    clearbody X Y.
    destruct sx, sy; cbn [cond_Zopp]; f_equal; symmetry.
    + destruct (Z.compare_spec ex ey) as [E|L|G];
        [destruct (Pos.compare_spec mx my) as [E'|L'|G']| |]; cbn [CompOpp].
      * apply Z.compare_eq_iff. rewrite (Heq E E'). reflexivity.
      * apply Z.compare_gt_iff. specialize (Lxy ltac:(lia)). lia.
      * apply Z.compare_lt_iff. specialize (Lyx ltac:(lia)). lia.
      * apply Z.compare_gt_iff. specialize (Lxy ltac:(lia)). lia.
      * apply Z.compare_lt_iff. specialize (Lyx ltac:(lia)). lia.
    + apply Z.compare_lt_iff. lia.
    + apply Z.compare_gt_iff. lia.
    + destruct (Z.compare_spec ex ey) as [E|L|G];
        [destruct (Pos.compare_spec mx my) as [E'|L'|G']| |].
      * apply Z.compare_eq_iff. exact (Heq E E').
      * apply Z.compare_lt_iff. apply Lxy. lia.
      * apply Z.compare_gt_iff. specialize (Lyx ltac:(lia)). lia.
      * apply Z.compare_lt_iff. apply Lxy. lia.
      * apply Z.compare_gt_iff. specialize (Lyx ltac:(lia)). lia.
Qed.

Lemma ltb_escala (x y : pyfloat) :
  es_finito x = true -> valido x = true ->
  es_finito y = true -> valido y = true ->
  (PyFloat.ltb x y = true <-> escala x < escala y).
Proof.
  intros Fx Vx Fy Vy. unfold PyFloat.ltb, SFltb.
  rewrite (SFcompare_escala x y Fx Vx Fy Vy).
  destruct (Z.compare_spec (escala x) (escala y));
    split; try discriminate; try reflexivity; lia.
Qed.

Lemma leb_escala (x y : pyfloat) :
  es_finito x = true -> valido x = true ->
  es_finito y = true -> valido y = true ->
  (PyFloat.leb x y = true <-> escala x <= escala y).
Proof.
  intros Fx Vx Fy Vy. unfold PyFloat.leb, SFleb.
  rewrite (SFcompare_escala x y Fx Vx Fy Vy).
  destruct (Z.compare_spec (escala x) (escala y));
    split; try discriminate; try reflexivity; lia.
Qed.

Lemma temperatura_escala (j : nat) (Tj : Z) :
  nth_error temperaturas j = Some Tj ->
  es_finito (PyFloat.of_int Tj) = true /\
  valido (PyFloat.of_int Tj) = true /\
  escala (PyFloat.of_int Tj) = Tj * 2 ^ 1074.
Proof.
  intros H. apply nth_error_temperaturas in H. destruct H as [Hj ->].
  do 25 (destruct j as [|j];
         [repeat split; vm_compute; reflexivity|]).
  lia.
Qed.

(** The key of the search at index [j] is the rounding of the exact
    distance. *)
Lemma rango_distancia (t : pyfloat) (j : nat) (Tj : Z) (dj : pyfloat) :
  es_finito t = true -> valido t = true ->
  nth_error temperaturas j = Some Tj ->
  distancia t j = Ok dj ->
  no_negativo dj = true /\
  rango dj = rango_valor (Z.abs (Tj * 2 ^ 1074 - escala t)).
Proof.
  intros Ft Vt HTj Hd.
  assert (Hnan : t <> PyFloat.nan) by (intros ->; discriminate Ft).
  split; [exact (distancia_no_negativo t j dj Hnan Hd)|].
  apply distancia_inv in Hd. destruct Hd as (Tj' & HTj' & ->).
  assert (Tj' = Tj) by congruence. subst Tj'.
  destruct (temperatura_escala j Tj HTj) as (F & V & E).
  unfold PyFloat.int_sub. rewrite (rango_sub _ _ F V Ft Vt), E. reflexivity.
Qed.

(** ** The search by exact distances *)

Lemma clave (t : pyfloat) (j : nat) :
  es_finito t = true -> valido t = true -> (j < 25)%nat ->
  exists dj, distancia t j = Ok dj /\ no_negativo dj = true /\
             rango dj = rango_valor (distancia_exacta t j).
Proof.
  intros Ft Vt Hj.
  destruct (getitem_lt temperaturas j Hj) as (Tj & Hg & Hn).
  exists (PyFloat.abs (PyFloat.int_sub Tj t)).
  assert (Hd : distancia t j = Ok (PyFloat.abs (PyFloat.int_sub Tj t))).
  { unfold distancia. rewrite Hg. reflexivity. }
  split; [exact Hd|].
  destruct (rango_distancia t j Tj _ Ft Vt Hn Hd) as [Hnn Hr].
  split; [exact Hnn|]. rewrite Hr. unfold distancia_exacta.
  apply nth_error_temperaturas in Hn. destruct Hn as [_ ->]. reflexivity.
Qed.

(** The search stops at the index whose rounded distance is below the
    ones before it and not above the ones after it. *)
Lemma indice_por_distancias (t : pyfloat) (r0 : nat) :
  es_finito t = true -> valido t = true -> (r0 < 25)%nat ->
  (forall j, (j < r0)%nat ->
     lex_lt (rango_valor (distancia_exacta t r0))
            (rango_valor (distancia_exacta t j))) ->
  (forall j, (r0 < j < 25)%nat ->
     ~ lex_lt (rango_valor (distancia_exacta t j))
              (rango_valor (distancia_exacta t r0))) ->
  indice_cercano t = Ok r0.
Proof.
  intros Ft Vt Hr0 Hantes Hdespues.
  assert (Hnan : t <> PyFloat.nan) by (intros ->; discriminate Ft).
  destruct (indice_cercano_first_minimum t Hnan)
    as (r & dr & Hr & Hdr & Hmin).
  destruct (indice_cercano_total t) as (i & Hi & Hlt).
  assert (i = r) by congruence. subst i.
  destruct (clave t r Ft Vt Hlt) as (dr' & Hdr' & Nr & Rr).
  assert (dr' = dr) by congruence. subst dr'.
  destruct (clave t r0 Ft Vt Hr0) as (d0 & Hd0 & N0 & R0).
  destruct (Hmin r0 d0 Hd0) as [Hle Hlt0].
  destruct (Nat.lt_trichotomy r r0) as [L|[E|L]].
  - apply (leb_rango dr d0 Nr N0) in Hle. rewrite Rr, R0 in Hle.
    exfalso. apply Hle. now apply Hantes.
  - now subst r.
  - specialize (Hlt0 L). apply (ltb_rango dr d0 Nr N0) in Hlt0.
    rewrite Rr, R0 in Hlt0. exfalso.
    apply (Hdespues r); [lia|exact Hlt0].
Qed.

Lemma rango_valor_lt_cota (V1 V2 n : Z) :
  0 <= V1 -> 53 <= n <= 2097 -> V2 < 2 ^ n ->
  V1 + 2 ^ (n - 53) < V2 ->
  lex_lt (rango_valor V1) (rango_valor V2).
Proof.
  intros H1 Hn Hb Hgap.
  assert (HP : 0 < 2 ^ (n - 53)) by (apply Z.pow_pos_nonneg; lia).
  assert (H2 : 0 < V2) by lia.
  assert (HL : Z.log2 V2 < n) by (apply Z.log2_lt_pow2; lia).
  destruct (Z.eq_dec V1 0) as [->|N1].
  - unfold rango_valor. rewrite (proj2 (Z.leb_gt V2 0) H2). cbv zeta.
    change (0 <=? 0) with true. cbv iota.
    destruct (_ <=? 971); unfold lex_lt; lia.
  - apply rango_valor_lt; [lia|lia|].
    assert (2 ^ Z.max (Z.log2 V2 + 1 - 53) 0 <= 2 ^ (n - 53))
      by (apply Z.pow_le_mono_r; lia).
    lia.
Qed.

Lemma valido_cotas (s : bool) (m : positive) (e : Z) :
  valido (S754_finite s m e) = true ->
  -1074 <= e <= 971 /\ Z.pos m < 2 ^ 53.
Proof.
  unfold valido. cbn [valid_binary]. unfold bounded, canonical_mantissa.
  intros H. apply andb_true_iff in H. destruct H as [Hc Hb].
  apply Z.eqb_eq in Hc. apply Z.leb_le in Hb.
  rewrite fexp_eq, digits2_log2 in Hc.
  change (PyFloat.emax - PyFloat.prec) with 971 in Hb.
  split; [lia|]. apply Z.log2_lt_pow2; lia.
Qed.

(** A float is a multiple of 2^-51 or is less than 2 in absolute value. *)
Lemma escala_grano (t : pyfloat) :
  es_finito t = true -> valido t = true ->
  (exists q, escala t = q * 2 ^ 1023) \/
  - (2 * 2 ^ 1074) < escala t < 2 * 2 ^ 1074.
Proof.
  intros Ft Vt. destruct t as [s| | |s m e]; try discriminate.
  - left. exists 0. reflexivity.
  - destruct (valido_cotas s m e Vt) as [He Hm]. cbn [escala].
    destruct (Z.le_gt_cases 1023 (e + 1074)) as [Hge|Hlt].
    + left. exists (cond_Zopp s (Z.pos m * 2 ^ (e + 51))).
      replace (e + 1074) with ((e + 51) + 1023) by lia.
      rewrite Z.pow_add_r by lia. destruct s; cbn [cond_Zopp]; ring.
    + right.
      assert (HP : 0 < 2 ^ (e + 1074)) by (apply Z.pow_pos_nonneg; lia).
      assert (Hp : 2 ^ (e + 1074) <= 2 ^ 1022)
        by (apply Z.pow_le_mono_r; lia).
      assert (Hx : Z.pos m * 2 ^ (e + 1074) < 2 ^ 53 * 2 ^ 1022).
      { apply (Z.le_lt_trans _ (Z.pos m * 2 ^ 1022)).
        - apply Z.mul_le_mono_nonneg_l; [lia|exact Hp].
        - apply Z.mul_lt_mono_pos_r; [reflexivity|exact Hm]. }
      assert (E : 2 ^ 53 * 2 ^ 1022 = 2 * 2 ^ 1074) by reflexivity.
      rewrite E in Hx.
      assert (0 < Z.pos m * 2 ^ (e + 1074)) by (apply Z.mul_pos_pos; lia).
      set (X := Z.pos m * 2 ^ (e + 1074)) in *. clearbody X.
      set (U := 2 ^ 1074) in *. clearbody U.
      destruct s; cbn [cond_Zopp]; lia.
Qed.

Lemma distancia_exacta_eq (t : pyfloat) (j : nat) :
  distancia_exacta t j
  = Z.abs (5 * (Z.of_nat j * 2 ^ 1074) - 10 * 2 ^ 1074 - escala t).
Proof. unfold distancia_exacta. f_equal. ring. Qed.

Lemma indice_escala (j : nat) :
  (j < 25)%nat -> 0 <= Z.of_nat j * 2 ^ 1074 <= 24 * 2 ^ 1074.
Proof.
  intros Hj. split.
  - apply Z.mul_nonneg_nonneg; [lia|apply Z.pow_nonneg; lia].
  - apply Z.mul_le_mono_nonneg_r; [apply Z.pow_nonneg; lia|lia].
Qed.

Lemma indice_escala_lt (i j : nat) :
  (i < j)%nat ->
  Z.of_nat i * 2 ^ 1074 + 2 ^ 1074 <= Z.of_nat j * 2 ^ 1074.
Proof.
  intros Hij.
  replace (Z.of_nat i * 2 ^ 1074 + 2 ^ 1074)
    with ((Z.of_nat i + 1) * 2 ^ 1074) by ring.
  apply Z.mul_le_mono_nonneg_r; [apply Z.pow_nonneg; lia|lia].
Qed.

Lemma indice_bajo_rango (t : pyfloat) :
  valido t = true ->
  PyFloat.ltb t (PyFloat.of_int (-10)) = true ->
  indice_cercano t = Ok 0%nat.
Proof.
  intros Vt Hlt. destruct (es_finito t) eqn:Ft.
  - destruct (temperatura_escala 0 (-10) eq_refl) as (F & V & E).
    apply (ltb_escala t _ Ft Vt F V) in Hlt. rewrite E in Hlt.
    apply indice_por_distancias; [exact Ft|exact Vt|lia| |].
    + intros j Hj. lia.
    + intros j Hj. apply rango_valor_mono.
      rewrite !distancia_exacta_eq.
      pose proof (indice_escala j ltac:(lia)) as Bj.
      change (Z.of_nat 0 * 2 ^ 1074) with 0.
      set (J := Z.of_nat j * 2 ^ 1074) in *. clearbody J.
      set (U := 2 ^ 1074) in *. clearbody U. lia.
  - destruct t as [s|[|]| |s m e]; try discriminate.
    vm_compute. reflexivity.
Qed.

Lemma indice_alto_rango (t : pyfloat) :
  valido t = true ->
  PyFloat.ltb (PyFloat.of_int 110) t = true ->
  PyFloat.leb t (PyFloat.of_int (2 ^ 53)) = true ->
  indice_cercano t = Ok 24%nat.
Proof.
  intros Vt Hlt Hle.
  assert (Ft : es_finito t = true).
  { destruct t as [s|[|]| |s m e]; try reflexivity; discriminate. }
  destruct (temperatura_escala 24 110 eq_refl) as (F & V & E).
  apply (ltb_escala _ t F V Ft Vt) in Hlt. rewrite E in Hlt.
  assert (F53 : es_finito (PyFloat.of_int (2 ^ 53)) = true) by reflexivity.
  assert (V53 : valido (PyFloat.of_int (2 ^ 53)) = true) by reflexivity.
  assert (E53 : escala (PyFloat.of_int (2 ^ 53)) = 2 ^ 53 * 2 ^ 1074)
    by (vm_compute; reflexivity).
  apply (leb_escala t _ Ft Vt F53 V53) in Hle. rewrite E53 in Hle.
  assert (HU : 0 < 2 ^ 1074) by reflexivity.
  assert (E75 : 2 ^ (1128 - 53) = 2 * 2 ^ 1074) by reflexivity.
  assert (E28 : 2 ^ 1128 = 2 ^ 54 * 2 ^ 1074) by reflexivity.
  apply indice_por_distancias; [exact Ft|exact Vt|lia| |].
  - intros j Hj.
    pose proof (indice_escala_lt j 24 Hj) as Bj.
    pose proof (indice_escala j ltac:(lia)) as Bj'.
    apply (rango_valor_lt_cota _ _ 1128); [apply Z.abs_nonneg|lia| |];
      rewrite ?E75, ?E28, !distancia_exacta_eq;
      change (Z.of_nat 24) with 24 in *;
      set (J := Z.of_nat j * 2 ^ 1074) in *; clearbody J;
      set (U := 2 ^ 1074) in *; clearbody U;
      change (2 ^ 53) with 9007199254740992 in *;
      change (2 ^ 54) with 18014398509481984 in *; lia.
  - intros j Hj. lia.
Qed.

Lemma punto_medio_escala (k : nat) (Tk Tk1 : Z) :
  nth_error temperaturas k = Some Tk ->
  nth_error temperaturas (S k) = Some Tk1 ->
  es_finito (punto_medio Tk Tk1) = true /\
  valido (punto_medio Tk Tk1) = true /\
  2 * escala (punto_medio Tk Tk1) = (Tk + Tk1) * 2 ^ 1074.
Proof.
  intros H H1. apply nth_error_temperaturas in H, H1.
  destruct H as [Hk ->], H1 as [Hk1 ->].
  do 24 (destruct k as [|k];
         [repeat split; vm_compute; reflexivity|]).
  lia.
Qed.

(** Between the middle of two sample points and the upper one the
    rounded distance to the upper point is strictly the smaller. *)
Lemma medio_estricto (t : pyfloat) (k : nat) :
  es_finito t = true -> valido t = true -> (k < 24)%nat ->
  let Tk := (-10 + 5 * Z.of_nat k) * 2 ^ 1074 in
  Tk + (Tk + 5 * 2 ^ 1074) < 2 * escala t ->
  escala t <= Tk + 5 * 2 ^ 1074 ->
  lex_lt (rango_valor (Tk + 5 * 2 ^ 1074 - escala t))
         (rango_valor (escala t - Tk)).
Proof.
  intros Ft Vt Hk Tk Hmid Hup.
  assert (HG : 0 < 2 ^ 1023) by reflexivity.
  assert (EU : 2 ^ 1074 = 2251799813685248 * 2 ^ 1023) by reflexivity.
  assert (E24 : 2 ^ (1077 - 53) = 2 * 2 ^ 1023) by reflexivity.
  assert (E23 : 2 ^ (1076 - 53) = 2 ^ 1023) by reflexivity.
  assert (E77 : 2 ^ 1077 = 8 * 2 ^ 1074) by reflexivity.
  assert (E76 : 2 ^ 1076 = 4 * 2 ^ 1074) by reflexivity.
  pose proof (escala_grano t Ft Vt) as Hg.
  pose proof (indice_escala k ltac:(lia)) as Bk.
  assert (ETk : Tk = 5 * (Z.of_nat k * 2 ^ 1074) - 10 * 2 ^ 1074)
    by (unfold Tk; ring).
  destruct (Z.le_gt_cases (4 * 2 ^ 1074) (escala t - Tk)) as [Hbig|Hsmall].
  - apply (rango_valor_lt_cota _ _ 1077); [lia|lia| |];
      rewrite ?E24, ?E77; clearbody Tk;
      rewrite EU in *; set (G := 2 ^ 1023) in *; clearbody G; lia.
  - apply (rango_valor_lt_cota _ _ 1076); [lia|lia| |]; rewrite ?E23, ?E76;
      [lia|].
    destruct Hg as [[q Eq]|Hlt2].
    + set (w := q - (10 * Z.of_nat k - 15) * 1125899906842624).
      assert (Ew : 2 * escala t - (Tk + (Tk + 5 * 2 ^ 1074))
                   = 2 ^ 1023 * (2 * w)).
      { unfold w, Tk. rewrite Eq, EU. ring. }
      assert (Hw : 0 < w).
      { assert (0 < 2 * w); [|lia].
        apply (Z.mul_pos_cancel_l (2 ^ 1023)); [exact HG|]. lia. }
      assert (Hw2 : 2 ^ 1023 * 2 <= 2 ^ 1023 * (2 * w))
        by (apply Z.mul_le_mono_nonneg_l; lia).
      clearbody Tk. set (G := 2 ^ 1023) in *. clearbody G. lia.
    + assert (Ek : k = 1%nat).
      { destruct k as [|[|k]]; [| reflexivity |].
        - exfalso. change (Z.of_nat 0 * 2 ^ 1074) with 0 in ETk.
          clearbody Tk. set (U := 2 ^ 1074) in *. clearbody U. lia.
        - exfalso.
          pose proof (indice_escala_lt 1 (S (S k)) ltac:(lia)) as B2.
          change (Z.of_nat 1 * 2 ^ 1074) with (1 * 2 ^ 1074) in B2.
          clearbody Tk.
          set (K := Z.of_nat (S (S k)) * 2 ^ 1074) in *. clearbody K.
          set (U := 2 ^ 1074) in *. clearbody U. lia. }
      subst k. change (Z.of_nat 1 * 2 ^ 1074) with (1 * 2 ^ 1074) in ETk.
      clearbody Tk. rewrite EU in *.
      set (G := 2 ^ 1023) in *. clearbody G. lia.
Qed.

Lemma indice_dentro_rango (t : pyfloat) (k : nat) (Tk Tk1 : Z) :
  valido t = true ->
  nth_error temperaturas k = Some Tk ->
  nth_error temperaturas (S k) = Some Tk1 ->
  PyFloat.leb (PyFloat.of_int Tk) t = true ->
  PyFloat.leb t (PyFloat.of_int Tk1) = true ->
  indice_cercano t
  = Ok (if PyFloat.leb t (punto_medio Tk Tk1) then k else S k).
Proof.
  intros Vt Hk Hk1 Hlo Hhi.
  destruct (temperatura_escala k Tk Hk) as (F0 & V0 & E0).
  destruct (temperatura_escala (S k) Tk1 Hk1) as (F1 & V1 & E1).
  destruct (punto_medio_escala k Tk Tk1 Hk Hk1) as (Fm & Vm & Em).
  assert (Ft : es_finito t = true).
  { destruct (PyFloat.of_int Tk) as [s0| | |s0 m0 e0]; try discriminate;
      destruct (PyFloat.of_int Tk1) as [s1| | |s1 m1 e1]; try discriminate;
      destruct t as [s|[|]| |s m e]; try reflexivity; discriminate. }
  apply (leb_escala _ t F0 V0 Ft Vt) in Hlo. rewrite E0 in Hlo.
  apply (leb_escala t _ Ft Vt F1 V1) in Hhi. rewrite E1 in Hhi.
  pose proof (leb_escala t _ Ft Vt Fm Vm) as Hm.
  apply nth_error_temperaturas in Hk, Hk1.
  destruct Hk as [Hk ->], Hk1 as [Hk1 ->].
  assert (HU : 0 < 2 ^ 1074) by reflexivity.
  assert (E28 : 2 ^ (1081 - 53) = 2 ^ 1028) by reflexivity.
  assert (L28 : 2 ^ 1028 < 2 ^ 1074) by reflexivity.
  assert (E81 : 2 ^ 1081 = 128 * 2 ^ 1074) by reflexivity.
  pose proof (indice_escala k ltac:(lia)) as Bk.
  assert (EK0 : (-10 + 5 * Z.of_nat k) * 2 ^ 1074
                = 5 * (Z.of_nat k * 2 ^ 1074) - 10 * 2 ^ 1074) by ring.
  assert (EK1 : (-10 + 5 * Z.of_nat (S k)) * 2 ^ 1074
                = 5 * (Z.of_nat k * 2 ^ 1074) - 5 * 2 ^ 1074)
    by (rewrite Nat2Z.inj_succ; ring).
  assert (EKm : (-10 + 5 * Z.of_nat k + (-10 + 5 * Z.of_nat (S k))) * 2 ^ 1074
                = 10 * (Z.of_nat k * 2 ^ 1074) - 15 * 2 ^ 1074)
    by (rewrite Nat2Z.inj_succ; ring).
  assert (ESk : Z.of_nat (S k) * 2 ^ 1074
                = Z.of_nat k * 2 ^ 1074 + 2 ^ 1074)
    by (rewrite Nat2Z.inj_succ; ring).
  rewrite EK0 in Hlo. rewrite EK1 in Hhi. rewrite EKm in Em.
  destruct (PyFloat.leb t (punto_medio (-10 + 5 * Z.of_nat k)
                                       (-10 + 5 * Z.of_nat (S k)))) eqn:Hle.
  - assert (Hmid : escala t <= escala (punto_medio (-10 + 5 * Z.of_nat k)
                                         (-10 + 5 * Z.of_nat (S k))))
      by (now apply Hm).
    apply indice_por_distancias; [exact Ft|exact Vt|lia| |].
    + intros j Hj.
      pose proof (indice_escala_lt j k Hj) as Bj.
      pose proof (indice_escala j ltac:(lia)) as Bj'.
      apply (rango_valor_lt_cota _ _ 1081); [apply Z.abs_nonneg|lia| |];
        rewrite ?E28, ?E81, !distancia_exacta_eq;
        set (J := Z.of_nat j * 2 ^ 1074) in *; clearbody J;
        set (K := Z.of_nat k * 2 ^ 1074) in *; clearbody K;
        set (U := 2 ^ 1074) in *; clearbody U; lia.
    + intros j Hj. apply rango_valor_mono.
      pose proof (indice_escala_lt k j ltac:(lia)) as Bj.
      rewrite !distancia_exacta_eq.
      set (J := Z.of_nat j * 2 ^ 1074) in *; clearbody J;
        set (K := Z.of_nat k * 2 ^ 1074) in *; clearbody K;
        set (U := 2 ^ 1074) in *; clearbody U; lia.
  - assert (Hmid : escala (punto_medio (-10 + 5 * Z.of_nat k)
                                       (-10 + 5 * Z.of_nat (S k))) < escala t).
    { apply Z.nle_gt. intros Hc. apply Hm in Hc. discriminate Hc. }
    apply indice_por_distancias; [exact Ft|exact Vt|lia| |].
    + intros j Hj.
      destruct (Nat.eq_dec j k) as [->|Nj].
      * pose proof (medio_estricto t k Ft Vt ltac:(lia)) as Hs.
        cbv zeta in Hs. rewrite EK0 in Hs.
        rewrite !distancia_exacta_eq, ESk.
        replace (Z.abs (5 * (Z.of_nat k * 2 ^ 1074 + 2 ^ 1074)
                        - 10 * 2 ^ 1074 - escala t))
          with (5 * (Z.of_nat k * 2 ^ 1074) - 10 * 2 ^ 1074 + 5 * 2 ^ 1074
                - escala t).
        2:{ set (K := Z.of_nat k * 2 ^ 1074) in *; clearbody K;
            set (U := 2 ^ 1074) in *; clearbody U; lia. }
        replace (Z.abs (5 * (Z.of_nat k * 2 ^ 1074) - 10 * 2 ^ 1074
                        - escala t))
          with (escala t - (5 * (Z.of_nat k * 2 ^ 1074) - 10 * 2 ^ 1074)).
        2:{ set (K := Z.of_nat k * 2 ^ 1074) in *; clearbody K;
            set (U := 2 ^ 1074) in *; clearbody U; lia. }
        apply Hs;
          set (K := Z.of_nat k * 2 ^ 1074) in *; clearbody K;
          set (U := 2 ^ 1074) in *; clearbody U; lia.
      * pose proof (indice_escala_lt j k ltac:(lia)) as Bj.
        pose proof (indice_escala j ltac:(lia)) as Bj'.
        apply (rango_valor_lt_cota _ _ 1081); [apply Z.abs_nonneg|lia| |];
          rewrite ?E28, ?E81, !distancia_exacta_eq, ?ESk;
          set (J := Z.of_nat j * 2 ^ 1074) in *; clearbody J;
          set (K := Z.of_nat k * 2 ^ 1074) in *; clearbody K;
          set (U := 2 ^ 1074) in *; clearbody U; lia.
    + intros j Hj. apply rango_valor_mono.
      pose proof (indice_escala_lt (S k) j ltac:(lia)) as Bj.
      rewrite ESk in Bj.
      rewrite !distancia_exacta_eq, ESk.
      set (J := Z.of_nat j * 2 ^ 1074) in *; clearbody J;
        set (K := Z.of_nat k * 2 ^ 1074) in *; clearbody K;
        set (U := 2 ^ 1074) in *; clearbody U; lia.
Qed.

(** ** Clamping and nearest sample *)

(** X14. Below the table the lookup clamps, for every float: a
    temperature under -10, however far and also the negative infinity,
    gets the first entry of the list of its kind, the value tabulated for
    -10. Every float of the interpreter is valid in the sense of
    [valido]. *)
Theorem lookup_below_range_returns_first_entry (t : pyfloat) (tipo : string) :
  valido t = true ->
  PyFloat.ltb t (PyFloat.of_int (-10)) = true ->
  indice_cercano t = Ok 0%nat /\
  (lower tipo = "aceite" ->
   obtener_valor_por_temperatura t tipo = Ok (PyFloat.dec 125 3)) /\
  (lower tipo = "seco" ->
   obtener_valor_por_temperatura t tipo = Ok (PyFloat.dec 25 2)).
Proof.
  intros Vt Hlt.
  pose proof (indice_bajo_rango t Vt Hlt) as Hi.
  split; [exact Hi|]. split; intros Htipo.
  - now rewrite (obtener_valor_indice t tipo _ 0%nat
                   (seleccionar_aceite tipo Htipo) Hi).
  - now rewrite (obtener_valor_indice t tipo _ 0%nat
                   (seleccionar_seco tipo Htipo) Hi).
Qed.

(** X15. Above the table the lookup clamps as long as the differences
    [temperaturas[i] - t] keep the sample points apart: for every float
    over 110 and up to 2**53 (9007199254740992.0) it returns the last
    entry of the list of its kind, the value tabulated for 110. *)
Theorem lookup_above_range_returns_last_entry (t : pyfloat) (tipo : string) :
  valido t = true ->
  PyFloat.ltb (PyFloat.of_int 110) t = true ->
  PyFloat.leb t (PyFloat.of_int (2 ^ 53)) = true ->
  indice_cercano t = Ok 24%nat /\
  (lower tipo = "aceite" ->
   obtener_valor_por_temperatura t tipo = Ok (PyFloat.dec 50900 2)) /\
  (lower tipo = "seco" ->
   obtener_valor_por_temperatura t tipo = Ok (PyFloat.dec 6320 2)).
Proof.
  intros Vt Hlt Hle.
  pose proof (indice_alto_rango t Vt Hlt Hle) as Hi.
  split; [exact Hi|]. split; intros Htipo.
  - now rewrite (obtener_valor_indice t tipo _ 24%nat
                   (seleccionar_aceite tipo Htipo) Hi).
  - now rewrite (obtener_valor_indice t tipo _ 24%nat
                   (seleccionar_seco tipo Htipo) Hi).
Qed.

(** X16. Inside the table rounding never changes the answer: for every
    float between two consecutive sample points the lookup returns the
    entry of the lower one when the temperature is at most their middle,
    and the entry of the upper one when it is above the middle, as exact
    arithmetic would. *)
Theorem lookup_inside_range_exact_nearest
    (t : pyfloat) (tipo : string) (k : nat) (Tk Tk1 : Z)
    (valores : list pyfloat) :
  valido t = true ->
  nth_error temperaturas k = Some Tk ->
  nth_error temperaturas (S k) = Some Tk1 ->
  PyFloat.leb (PyFloat.of_int Tk) t = true ->
  PyFloat.leb t (PyFloat.of_int Tk1) = true ->
  seleccionar_valores tipo = Ok valores ->
  indice_cercano t
  = Ok (if PyFloat.leb t (punto_medio Tk Tk1) then k else S k) /\
  obtener_valor_por_temperatura t tipo
  = getitem valores (if PyFloat.leb t (punto_medio Tk Tk1) then k else S k).
Proof.
  intros Vt Hk Hk1 Hlo Hhi Hs.
  pose proof (indice_dentro_rango t k Tk Tk1 Vt Hk Hk1 Hlo Hhi) as Hi.
  split; [exact Hi|].
  exact (obtener_valor_indice t tipo valores _ Hs Hi).
Qed.

Lemma lookup_below_range_returns_first_entry_witness :
  obtener_valor_por_temperatura (PyFloat.of_int (- 10 ^ 30)) "Aceite"
  = Ok (PyFloat.dec 125 3).
Proof.
  exact (proj1 (proj2 (lookup_below_range_returns_first_entry
                         (PyFloat.of_int (- 10 ^ 30)) "Aceite"
                         eq_refl eq_refl))
               eq_refl).
Defined.

Lemma lookup_above_range_returns_last_entry_witness :
  obtener_valor_por_temperatura (PyFloat.of_int (2 ^ 53)) "Seco"
  = Ok (PyFloat.dec 6320 2).
Proof.
  exact (proj2 (proj2 (lookup_above_range_returns_last_entry
                         (PyFloat.of_int (2 ^ 53)) "Seco"
                         eq_refl eq_refl eq_refl))
               eq_refl).
Defined.

Lemma lookup_inside_range_exact_nearest_witness :
  indice_cercano (PyFloat.dec 7251 2) = Ok 17%nat /\
  obtener_valor_por_temperatura (PyFloat.dec 7251 2) "seco"
  = getitem valores_seco 17.
Proof.
  exact (lookup_inside_range_exact_nearest
           (PyFloat.dec 7251 2) "seco" 16%nat 70 75 valores_seco
           eq_refl eq_refl eq_refl eq_refl eq_refl eq_refl).
Defined.

(** * Step 5: images, map and document *)

Section Paso5Mapa.

Variable Doc : Type.
Variable float_of_str : string -> result pyfloat.
Variable str_otro : pyval -> string.
Variable str_exn : exn -> string.
Variable str_float : pyfloat -> string.
Variable InlineImage : Doc -> string -> Z -> pyval.
Variable static_map_png : pyfloat -> pyfloat -> intento string.
Variable get_map_png_bytes : pyfloat -> pyfloat -> Z -> Z -> intento string.

(** The body of either [try] ends in the assignment of the image or in
    an exception, and shows no error of its own. *)
Lemma intento_mapa (s : sesion Doc) (datos : dict) (urbano : bool) :
  exists avisos r,
    (if urbano
     then mapa_urbano Doc float_of_str str_otro str_exn InlineImage
            static_map_png s datos
     else mapa_rural Doc float_of_str str_otro str_exn str_float InlineImage
            get_map_png_bytes s datos) = (avisos, r) /\
    existsb es_error avisos = false /\
    ((exists img, r = Logrado (dict_set datos "imgMapsProyecto" img)) \/
     (exists m, r = Fallido m)).
Proof.
  destruct urbano.
  - unfold mapa_urbano.
    destruct (de_result str_exn (coordenada_float float_of_str str_otro
                                   datos "latitud")) as [lat|m];
      [|exists [], (Fallido m); eauto].
    destruct (de_result str_exn (coordenada_float float_of_str str_otro
                                   datos "longitud")) as [lon|m];
      [|exists [], (Fallido m); eauto].
    destruct (static_map_png lon lat) as [png|m];
      [|exists [], (Fallido m); eauto].
    destruct (de_result str_exn (sesion_doc Doc s)) as [doc|m];
      [|exists [], (Fallido m); eauto].
    eexists [], _. eauto.
  - unfold mapa_rural.
    destruct (de_result str_exn (coordenada_float float_of_str str_otro
                                   (ss_data s) "latitud")) as [lat|m];
      [|exists [], (Fallido m); eauto].
    destruct (de_result str_exn (coordenada_float float_of_str str_otro
                                   (ss_data s) "longitud")) as [lon|m];
      [|exists [], (Fallido m); eauto].
    cbv zeta.
    destruct (get_map_png_bytes lon lat 300 17) as [png|m];
      [|eexists _, (Fallido m); eauto].
    destruct (de_result str_exn (sesion_doc Doc s)) as [doc|m];
      [|eexists _, (Fallido m); eauto].
    eexists _, _. eauto.
Qed.

(** Whatever happens to the map, the map part returns. *)
Lemma mapa_contenido (s : sesion Doc) (datos : dict) (tc lat lon : pyval) :
  dict_get (ss_data s) "tipoCoordenada" = Some tc ->
  dict_get (ss_data s) "latitud" = Some lat ->
  dict_get (ss_data s) "longitud" = Some lon ->
  exists datos' avisos,
    mapa Doc float_of_str str_otro str_exn str_float InlineImage
      static_map_png get_map_png_bytes s datos = Ok (datos', avisos) /\
    if py_bool lat && py_bool lon
    then exists previos,
           existsb es_error previos = false /\
           ((exists img,
               datos' = dict_set datos "imgMapsProyecto" img /\
               avisos = previos) \/
            (exists m,
               datos' = datos /\
               avisos = previos ++
                 [AvisoError
                    (String.append "Coordenadas inválidas para el mapa. " m)]))
    else datos' = datos /\
         avisos = [AvisoError "Faltan coordenadas para el mapa."].
Proof.
  intros Htc Hlat Hlon. unfold mapa, dict_getitem.
  rewrite Htc, Hlat. cbn [bind].
  assert (Hhay : (if py_bool lat
                  then lon0 <- match dict_get (ss_data s) "longitud" with
                               | Some v => Ok v
                               | None => Raise (KeyError "longitud")
                               end ;; Ok (py_bool lon0)
                  else Ok false) = Ok (py_bool lat && py_bool lon)).
  { rewrite Hlon. now destruct (py_bool lat). }
  rewrite Hhay. cbn [bind].
  destruct (py_bool lat && py_bool lon) eqn:Eb.
  - destruct (intento_mapa s datos (py_eq_str tc "Urbano"))
      as (avisos & r & Er & Hav & Hr).
    assert (Er' : (if py_eq_str tc "Urbano"
                   then mapa_urbano Doc float_of_str str_otro str_exn
                          InlineImage static_map_png s datos
                   else mapa_rural Doc float_of_str str_otro str_exn
                          str_float InlineImage get_map_png_bytes s datos)
                  = (avisos, r)) by exact Er.
    rewrite Er'. unfold except_mapa.
    destruct Hr as [(img & ->)|(m & ->)].
    + exists (dict_set datos "imgMapsProyecto" img), avisos.
      split; [reflexivity|]. exists avisos. split; [exact Hav|].
      left. exists img. auto.
    + eexists datos, _. split; [reflexivity|].
      exists avisos. split; [exact Hav|]. right. exists m. auto.
  - exists datos, [AvisoError "Faltan coordenadas para el mapa."].
    split; [reflexivity|]. auto.
Qed.

(** The map part changes no other key of the context. *)
Lemma mapa_marco (s : sesion Doc) (datos datos' : dict)
    (avisos : list aviso) (k : string) :
  mapa Doc float_of_str str_otro str_exn str_float InlineImage
    static_map_png get_map_png_bytes s datos = Ok (datos', avisos) ->
  k <> "imgMapsProyecto" ->
  dict_get datos' k = dict_get datos k.
Proof.
  intros H Hk.
  destruct (dict_get (ss_data s) "tipoCoordenada") as [tc|] eqn:Htc;
    [|unfold mapa, dict_getitem in H; rewrite Htc in H; discriminate H].
  destruct (dict_get (ss_data s) "latitud") as [lat|] eqn:Hlat;
    [|unfold mapa, dict_getitem in H; rewrite Htc, Hlat in H;
      discriminate H].
  destruct (dict_get (ss_data s) "longitud") as [lon|] eqn:Hlon.
  - destruct (mapa_contenido s datos tc lat lon Htc Hlat Hlon)
      as (d' & av & Hm & Hcases).
    rewrite Hm in H. injection H as <- <-.
    destruct (py_bool lat && py_bool lon).
    + destruct Hcases as (previos & _ & [(img & -> & _)|(m & -> & _)]);
        [|reflexivity].
      rewrite dict_get_set. cbn [key_eqb].
      destruct (String.eqb_spec "imgMapsProyecto" k) as [E|_];
        [congruence|reflexivity].
    + now destruct Hcases as [-> _].
  - unfold mapa, dict_getitem in H. rewrite Htc, Hlat, Hlon in H.
    cbn [bind] in H.
    destruct (py_bool lat); [discriminate H|].
    cbn [bind] in H. injection H as <- <-. reflexivity.
Qed.

(** X17. Whatever goes wrong with the map stays inside step 5: when the
    session holds the kind of coordinate and the two coordinates, the map
    part of the step returns, whatever [float], the renderer of either
    mode or the look-up of the template raise. With two coordinates that
    are not empty it either assigns the one key [imgMapsProyecto] of the
    context and shows no error, or it leaves the context as it was and
    its last message is the one error, "Coordenadas inválidas para el
    mapa." followed by the text of the exception; with a coordinate that
    is empty the one message is "Faltan coordenadas para el mapa." *)
Theorem step5_map_failures_are_contained (s : sesion Doc) (datos : dict)
    (tc lat lon : pyval) :
  dict_get (ss_data s) "tipoCoordenada" = Some tc ->
  dict_get (ss_data s) "latitud" = Some lat ->
  dict_get (ss_data s) "longitud" = Some lon ->
  exists datos' avisos,
    mapa Doc float_of_str str_otro str_exn str_float InlineImage
      static_map_png get_map_png_bytes s datos = Ok (datos', avisos) /\
    if py_bool lat && py_bool lon
    then exists previos,
           existsb es_error previos = false /\
           ((exists img,
               datos' = dict_set datos "imgMapsProyecto" img /\
               avisos = previos) \/
            (exists m,
               datos' = datos /\
               avisos = previos ++
                 [AvisoError
                    (String.append "Coordenadas inválidas para el mapa. " m)]))
    else datos' = datos /\
         avisos = [AvisoError "Faltan coordenadas para el mapa."].
Proof. exact (mapa_contenido s datos tc lat lon). Qed.

End Paso5Mapa.

(** ** The coordinates of a session that reached step 5 *)

Lemma dict_get_In (d : dict) (k : pykey) (v : pyval) :
  dict_get d k = Some v -> In (k, v) d.
Proof.
  induction d as [|[k0 v0] d IH]; simpl; [discriminate|].
  destruct (key_eqb k0 k) eqn:E.
  - apply key_eqb_eq in E. subst k0. intros H. injection H as ->. now left.
  - intros H. right. now apply IH.
Qed.

Lemma missing_no_vacio (d : dict) (k : pykey) (x : string) :
  missing d = [] -> dict_get d k = Some (VStr x) -> x <> "".
Proof.
  intros Hm Hk. apply dict_get_In in Hk.
  pose proof (proj1 (missing_nil d) Hm _ Hk) as Hv. simpl in Hv.
  intros ->. discriminate Hv.
Qed.

Section AsistenteCoordenadas.

Variable Doc : Type.
Variable DocxTemplate : string -> carga Doc.
Variable strftime_Ymd : pyval -> string.
Variable float_of_str : string -> result pyfloat.

Lemma next_step_avanza (s s' : sesion Doc) (e : efecto) :
  next_step Doc s = (s', e) ->
  ss_step s' = ss_step s + 1 ->
  missing (ss_data s) = [] /\ ss_data s' = ss_data s.
Proof.
  unfold next_step. destruct (missing (ss_data s));
    intros H; injection H as <- <-; simpl; intros Hst; [auto|lia].
Qed.

Lemma script_conserva_coordenadas (s s' : sesion Doc) (w : entradas)
    (c : clic) (e : efecto) :
  invariante Doc DocxTemplate s ->
  invariante_coordenadas s ->
  script Doc DocxTemplate strftime_Ymd float_of_str s w c = Ok (s', e) ->
  invariante_coordenadas s'.
Proof.
  intros (Hb & H2 & H3 & H4) (C2 & C3) Hrun. unfold script in Hrun.
  destruct (Z.eqb_spec (ss_step s) 1) as [E1|N1].
  { (* step 1 *)
    rewrite paso1_asignaciones in Hrun. cbn [bind] in Hrun.
    match type of Hrun with
    | context [con_data _ s ?d] => set (d1 := d) in *
    end.
    assert (Ftc : dict_get d1 "tipoCoordenada"
                  = Some (VStr (coordenada_str
                                  (w_tipo_coordenada (e_paso1 w)))))
      by (unfold d1; buscar; reflexivity).
    assert (Hs' : ss_data s' = d1 /\ (ss_step s' = 1 \/ ss_step s' = 2)).
    { destruct c.
      - injection Hrun as <- <-. simpl. auto.
      - injection Hrun as <- <-. simpl. auto.
      - injection Hrun as Hrun. apply next_step_campos in Hrun.
        simpl in Hrun. rewrite E1 in Hrun. tauto. }
    destruct Hs' as (Hd & Hst). unfold invariante_coordenadas. rewrite Hd.
    split; [intros _; eauto|intros; lia]. }
  destruct (Z.eqb_spec (ss_step s) 2) as [E2|N2].
  { (* step 2 *)
    rewrite paso2_asignaciones in Hrun. cbn [bind] in Hrun.
    match type of Hrun with
    | context [con_data _ s ?d] => set (d2 := d) in *
    end.
    destruct (C2 ltac:(lia)) as (tc & Htc).
    assert (Ftc : dict_get d2 "tipoCoordenada"
                  = Some (VStr (coordenada_str tc)))
      by (unfold d2; buscar; exact Htc).
    assert (Ftt : dict_get d2 "tipoTransformador"
                  = Some (VStr (transformador_str (w_tipotrafo (e_paso2 w)))))
      by (unfold d2; buscar; reflexivity).
    assert (Flat : dict_get d2 "latitud" = Some (VStr (w_latitud (e_paso2 w))))
      by (unfold d2; buscar; reflexivity).
    assert (Flon : dict_get d2 "longitud"
                   = Some (VStr (w_longitud (e_paso2 w))))
      by (unfold d2; buscar; reflexivity).
    assert (Hs' : ss_data s' = d2 /\
                  (ss_step s' = 1 \/ ss_step s' = 2 \/
                   (ss_step s' = 3 /\ missing d2 = []))).
    { destruct c.
      - injection Hrun as <- <-. simpl. auto.
      - injection Hrun as Hrun. apply prev_step_campos in Hrun.
        simpl in Hrun.
        rewrite E2 in Hrun. destruct Hrun as (Hd & _ & Hst).
        split; [exact Hd|]. lia.
      - unfold siguiente_paso2, template_path, dict_getitem in Hrun.
        simpl ss_data in Hrun. rewrite Ftt in Hrun. cbn [bind] in Hrun.
        destruct (DocxTemplate _) as [doc| |ex]; [| |discriminate Hrun].
        + injection Hrun as Hrun.
          pose proof (next_step_campos _ _ _ _ Hrun) as (Hd & _ & Hst).
          simpl in Hd, Hst. rewrite E2 in Hst.
          split; [exact Hd|]. destruct Hst as [Hst|Hst]; [auto|].
          right. right. split; [exact Hst|].
          apply next_step_avanza in Hrun; [|simpl; lia].
          exact (proj1 Hrun).
        + injection Hrun as <- <-. simpl. auto. }
    destruct Hs' as (Hd & Hst). unfold invariante_coordenadas. rewrite Hd.
    split; [intros _; eauto|].
    intros H3'. destruct Hst as [Hst|[Hst|(Hst & Hm)]]; try lia.
    exists (w_latitud (e_paso2 w)), (w_longitud (e_paso2 w)).
    split; [exact Flat|]. split; [exact Flon|].
    split; [exact (missing_no_vacio d2 _ _ Hm Flat)
           |exact (missing_no_vacio d2 _ _ Hm Flon)]. }
  destruct (Z.eqb_spec (ss_step s) 3) as [E3|N3].
  { (* step 3 *)
    destruct (H3 ltac:(lia)) as (t & a & doc & Htt & Hta & Hdoc & Hload).
    destruct (dict_get (ss_data s) "fechaCreacion") as [fc|] eqn:Hfc;
      [|exfalso; now apply (H2 ltac:(lia))].
    rewrite (paso3_asignaciones strftime_Ymd (e_paso3 w) (ss_data s) _ fc
               Htt Hfc) in Hrun.
    cbn [bind] in Hrun.
    match type of Hrun with
    | context [con_data _ s ?d] => set (d3 := d) in *
    end.
    destruct (C2 ltac:(lia)) as (tc & Htc).
    destruct (C3 ltac:(lia)) as (lat & lon & Hlat & Hlon & Nlat & Nlon).
    assert (Ftc : dict_get d3 "tipoCoordenada"
                  = Some (VStr (coordenada_str tc)))
      by (unfold d3; buscar; exact Htc).
    assert (Flat : dict_get d3 "latitud" = Some (VStr lat))
      by (unfold d3; buscar; exact Hlat).
    assert (Flon : dict_get d3 "longitud" = Some (VStr lon))
      by (unfold d3; buscar; exact Hlon).
    assert (Hs' : ss_data s' = d3).
    { destruct c.
      - injection Hrun as <- <-. reflexivity.
      - injection Hrun as Hrun. apply prev_step_campos in Hrun.
        exact (proj1 Hrun).
      - injection Hrun as Hrun. apply next_step_campos in Hrun.
        exact (proj1 Hrun). }
    unfold invariante_coordenadas. rewrite Hs'.
    split; intros _; eauto 10. }
  destruct (Z.eqb_spec (ss_step s) 4) as [E4|N4].
  { (* step 4 *)
    destruct (paso4 float_of_str (e_paso4 w) (ss_data s)) as [d4|ex] eqn:E;
      [cbn [bind] in Hrun|discriminate Hrun].
    pose proof (fun k Hk =>
                  paso4_conserva float_of_str (e_paso4 w) (ss_data s) d4 k Hk E)
      as Hcons.
    destruct (C2 ltac:(lia)) as (tc & Htc).
    destruct (C3 ltac:(lia)) as (lat & lon & Hlat & Hlon & Nlat & Nlon).
    assert (Ftc : dict_get d4 "tipoCoordenada"
                  = Some (VStr (coordenada_str tc)))
      by (rewrite Hcons by fuera_de_paso4; exact Htc).
    assert (Flat : dict_get d4 "latitud" = Some (VStr lat))
      by (rewrite Hcons by fuera_de_paso4; exact Hlat).
    assert (Flon : dict_get d4 "longitud" = Some (VStr lon))
      by (rewrite Hcons by fuera_de_paso4; exact Hlon).
    assert (Hs' : ss_data s' = d4).
    { destruct c.
      - injection Hrun as <- <-. reflexivity.
      - injection Hrun as Hrun. apply prev_step_campos in Hrun.
        exact (proj1 Hrun).
      - injection Hrun as Hrun. apply next_step_campos in Hrun.
        exact (proj1 Hrun). }
    unfold invariante_coordenadas. rewrite Hs'.
    split; intros _; eauto 10. }
  (* step 5 and any other value *)
  injection Hrun as <- <-. split; assumption.
Qed.

End AsistenteCoordenadas.

(** * Runs that raise *)

Section CorridasHechos.

Variable Doc : Type.
Variable DocxTemplate : string -> carga Doc.
Variable strftime_Ymd : pyval -> string.
Variable float_of_str : string -> result pyfloat.

(** ** The blocks compute what the steps compute *)

Lemma ejecutar_paso1_resultado (w : widgets_paso1) (data : dict) :
  resultado (ejecutar (sentencias_paso1 strftime_Ymd w) data)
  = paso1 strftime_Ymd w data.
Proof.
  unfold paso1, sentencias_paso1. cbn [ejecutar asignar].
  destruct (asignar_fecha strftime_Ymd _ _ _); reflexivity.
Qed.

Lemma ejecutar_paso2_resultado (w : widgets_paso2) (data : dict) :
  resultado (ejecutar (sentencias_paso2 strftime_Ymd w) data)
  = paso2 strftime_Ymd w data.
Proof.
  unfold paso2, sentencias_paso2. cbn [ejecutar asignar].
  destruct (asignar_fecha strftime_Ymd _ _ _); reflexivity.
Qed.

Lemma ejecutar_paso3_resultado (w : widgets_paso3) (data : dict) :
  resultado (ejecutar (sentencias_paso3 strftime_Ymd w) data)
  = paso3 strftime_Ymd w data.
Proof.
  unfold paso3, sentencias_paso3. cbn [ejecutar asignar].
  destruct (asignar_fecha strftime_Ymd _ _ _) as [d1|]; [|reflexivity].
  cbn [bind].
  destruct (dict_getitem _ "tipoTransformador") as [tt|]; [|reflexivity].
  cbn [bind ejecutar].
  destruct (dict_getitem _ "fechaCreacion") as [fc|]; reflexivity.
Qed.

Lemma ejecutar_paso4_resultado (w : widgets_paso4) (data : dict) :
  resultado (ejecutar_paso4 float_of_str w data) = paso4 float_of_str w data.
Proof.
  unfold paso4, ejecutar_paso4.
  destruct (dict_getitem data "carTrafo_NroFases") as [fases|];
    [|reflexivity].
  cbn [bind]. destruct (py_eq_int fases 3).
  - unfold paso4_trifasico, sentencias_trifasico. cbn [ejecutar asignar].
    repeat match goal with
    | |- context [match ?c with Ok _ => _ | Raise _ => _ end] =>
        destruct c; cbn [bind ejecutar]; [|reflexivity]
    end.
    reflexivity.
  - unfold paso4_monofasico, sentencias_monofasico. cbn [ejecutar asignar].
    repeat match goal with
    | |- context [match ?c with Ok _ => _ | Raise _ => _ end] =>
        destruct c; cbn [bind ejecutar asignar]; [|reflexivity]
    end.
    reflexivity.
Qed.


(** ** A block assigns to the keys of its statements only *)

Lemma ejecutar_marco (ks : list string) (b : list sentencia) :
  Forall (escribe_en ks) b ->
  forall data data' r, ejecutar b data = (data', r) ->
  forall k : string, ~ In k ks -> dict_get data' k = dict_get data k.
Proof.
  induction 1 as [|f b Hf _ IH]; intros data data' r H k Hk.
  - injection H as <- _. reflexivity.
  - cbn [ejecutar] in H. destruct (f data) as [d1|e] eqn:E.
    + rewrite (IH d1 data' r H k Hk). exact (Hf data d1 E k Hk).
    + injection H as <- _. reflexivity.
Qed.

Lemma dict_get_set_fuera (ks : list string) (data : dict) (k0 : string)
    (v : pyval) (k : string) :
  In k0 ks -> ~ In k ks ->
  dict_get (dict_set data k0 v) k = dict_get data k.
Proof.
  intros H0 Hk. rewrite dict_get_set. cbn [key_eqb].
  destruct (String.eqb_spec k0 k) as [E|_]; [|reflexivity].
  subst k0. contradiction.
Qed.

Lemma escribe_asignar (ks : list string) (k0 : string) (v : pyval) :
  In k0 ks -> escribe_en ks (asignar k0 v).
Proof.
  intros H0 data data' H k Hk. injection H as <-.
  now apply (dict_get_set_fuera ks).
Qed.

Lemma escribe_fecha (ks : list string) (src dst : string) :
  In dst ks ->
  escribe_en ks (fun data => asignar_fecha strftime_Ymd data src dst).
Proof.
  intros H0 data data' H k Hk. unfold asignar_fecha in H.
  destruct (dict_getitem data src); [|discriminate H].
  injection H as <-. now apply (dict_get_set_fuera ks).
Qed.

Lemma escribe_leer (ks : list string) (src dst : string)
    (g : pyval -> pyval) :
  In dst ks ->
  escribe_en ks (fun data => v <- dict_getitem data src ;;
                             Ok (dict_set data dst (g v))).
Proof.
  intros H0 data data' H k Hk.
  destruct (dict_getitem data src); [|discriminate H].
  injection H as <-. now apply (dict_get_set_fuera ks).
Qed.

Lemma escribe_referida (ks : list string) (medida referida : string) :
  In referida ks ->
  escribe_en ks (fun data => asignar_referida float_of_str data
                               medida referida).
Proof.
  intros H0 data data' H k Hk.
  apply asignar_referida_inv in H. destruct H as [v ->].
  now apply (dict_get_set_fuera ks).
Qed.

Lemma escribe_esperada (ks : list string) (esp : string) (oil dry : Z) :
  In esp ks -> escribe_en ks (fun data => asignar_esperada data esp oil dry).
Proof.
  intros H0 data data' H k Hk.
  apply asignar_esperada_inv in H. destruct H as [v ->].
  now apply (dict_get_set_fuera ks).
Qed.

Lemma escribe_resultado (ks : list string) (resultado referida esp : string) :
  In resultado ks ->
  escribe_en ks (fun data => asignar_resultado data resultado referida esp).
Proof.
  intros H0 data data' H k Hk.
  apply asignar_resultado_inv in H. destruct H as [v ->].
  now apply (dict_get_set_fuera ks).
Qed.

End CorridasHechos.

(** Proves that a literal key is in a literal list of keys. *)
Ltac en_claves := simpl; tauto.

(** Proves that every statement of a literal block assigns to keys of a
    literal list. *)
Ltac bloque_escribe :=
  repeat (apply Forall_cons;
          [ first [ apply escribe_asignar; en_claves
                  | apply escribe_fecha; en_claves
                  | apply escribe_referida; en_claves
                  | apply escribe_esperada; en_claves
                  | apply escribe_resultado; en_claves
                  | apply (escribe_leer _ _ _ (fun v => v)); en_claves
                  | apply (escribe_leer _ _ _
                             (fun tt => VInt (if py_eq_str tt "Trifásico"
                                              then 3 else 1)));
                    en_claves ]
          | ]);
  apply Forall_nil.

Section CorridasMarco.

Variable Doc : Type.
Variable DocxTemplate : string -> carga Doc.
Variable strftime_Ymd : pyval -> string.
Variable float_of_str : string -> result pyfloat.

Lemma sentencias_paso1_escriben (w : widgets_paso1) :
  Forall (escribe_en claves_paso1) (sentencias_paso1 strftime_Ymd w).
Proof. unfold sentencias_paso1, claves_paso1. bloque_escribe. Qed.

Lemma sentencias_paso2_escriben (w : widgets_paso2) :
  Forall (escribe_en claves_paso2) (sentencias_paso2 strftime_Ymd w).
Proof. unfold sentencias_paso2, claves_paso2. bloque_escribe. Qed.

Lemma sentencias_paso3_escriben (w : widgets_paso3) :
  Forall (escribe_en claves_paso3) (sentencias_paso3 strftime_Ymd w).
Proof. unfold sentencias_paso3, claves_paso3. bloque_escribe. Qed.

Lemma sentencias_trifasico_escriben (w : widgets_paso4) :
  Forall (escribe_en claves_paso4) (sentencias_trifasico float_of_str w).
Proof. unfold sentencias_trifasico, claves_paso4. bloque_escribe. Qed.

Lemma sentencias_monofasico_escriben (w : widgets_paso4) :
  Forall (escribe_en claves_paso4) (sentencias_monofasico float_of_str w).
Proof. unfold sentencias_monofasico, claves_paso4. bloque_escribe. Qed.

Lemma ejecutar_paso4_marco (w : widgets_paso4) (data data' : dict)
    (r : option exn) :
  ejecutar_paso4 float_of_str w data = (data', r) ->
  forall k : string, ~ In k claves_paso4 ->
  dict_get data' k = dict_get data k.
Proof.
  unfold ejecutar_paso4. intros H.
  destruct (dict_getitem data "carTrafo_NroFases") as [fases|].
  - destruct (py_eq_int fases 3).
    + exact (ejecutar_marco claves_paso4 _
               (sentencias_trifasico_escriben w) _ _ _ H).
    + exact (ejecutar_marco claves_paso4 _
               (sentencias_monofasico_escriben w) _ _ _ H).
  - injection H as <- _. reflexivity.
Qed.

End CorridasMarco.

Section CorridasScript.

Variable Doc : Type.
Variable DocxTemplate : string -> carga Doc.
Variable strftime_Ymd : pyval -> string.
Variable float_of_str : string -> result pyfloat.

(** What [correr_paso] adds to [script]: a run that completes is the run
    of [script]; a run that raises raises what [script] raises, at a
    step from 1 to 4, and leaves a session with the step and the
    template it had and with the keys of no other step changed. *)
Lemma correr_paso_script (s : sesion Doc) (w : entradas) (c : clic) :
  match correr_paso Doc DocxTemplate strftime_Ymd float_of_str s w c with
  | None =>
      ~ 1 <= ss_step s <= 4 /\
      script Doc DocxTemplate strftime_Ymd float_of_str s w c = Ok (s, Nada)
  | Some (s', Ok e) =>
      script Doc DocxTemplate strftime_Ymd float_of_str s w c = Ok (s', e)
  | Some (s', Raise ex) =>
      script Doc DocxTemplate strftime_Ymd float_of_str s w c = Raise ex /\
      1 <= ss_step s <= 4 /\
      ss_step s' = ss_step s /\ ss_doc s' = ss_doc s /\
      forall k : string, ~ In k (claves_del_paso (ss_step s)) ->
        dict_get (ss_data s') k = dict_get (ss_data s) k
  end.
Proof.
  unfold correr_paso, script, claves_del_paso.
  destruct (Z.eqb_spec (ss_step s) 1) as [E1|N1].
  { pose proof (ejecutar_paso1_resultado strftime_Ymd (e_paso1 w) (ss_data s))
      as Er.
    pose proof (ejecutar_marco claves_paso1 _
                  (sentencias_paso1_escriben strftime_Ymd (e_paso1 w))
                  (ss_data s)) as Hm.
    destruct (ejecutar (sentencias_paso1 strftime_Ymd (e_paso1 w)) (ss_data s))
      as [d [ex|]]; cbn [resultado] in Er; rewrite <- Er; cbn [bind].
    - split; [reflexivity|]. split; [lia|]. split; [reflexivity|].
      split; [reflexivity|]. exact (Hm d (Some ex) eq_refl).
    - unfold botones. cbn [con_data ss_step].
      rewrite (proj2 (Z.eqb_eq _ _) E1).
      destruct c; try reflexivity.
      now destruct (next_step Doc _). }
  destruct (Z.eqb_spec (ss_step s) 2) as [E2|N2].
  { pose proof (ejecutar_paso2_resultado strftime_Ymd (e_paso2 w) (ss_data s))
      as Er.
    pose proof (ejecutar_marco claves_paso2 _
                  (sentencias_paso2_escriben strftime_Ymd (e_paso2 w))
                  (ss_data s)) as Hm.
    destruct (ejecutar (sentencias_paso2 strftime_Ymd (e_paso2 w)) (ss_data s))
      as [d [ex|]] eqn:Ee; cbn [resultado] in Er; rewrite <- Er; cbn [bind].
    - split; [reflexivity|]. split; [lia|]. split; [reflexivity|].
      split; [reflexivity|]. exact (Hm d (Some ex) eq_refl).
    - unfold botones. cbn [con_data ss_step].
      rewrite (proj2 (Z.eqb_neq _ _) N1), (proj2 (Z.eqb_eq _ _) E2).
      destruct c; try reflexivity.
      + now destruct (prev_step Doc _).
      + destruct (siguiente_paso2 Doc DocxTemplate _) as [[s2 e]|ex];
          [reflexivity|].
        split; [reflexivity|]. split; [lia|]. split; [reflexivity|].
        split; [reflexivity|]. exact (Hm d None eq_refl). }
  destruct (Z.eqb_spec (ss_step s) 3) as [E3|N3].
  { pose proof (ejecutar_paso3_resultado strftime_Ymd (e_paso3 w) (ss_data s))
      as Er.
    pose proof (ejecutar_marco claves_paso3 _
                  (sentencias_paso3_escriben strftime_Ymd (e_paso3 w))
                  (ss_data s)) as Hm.
    destruct (ejecutar (sentencias_paso3 strftime_Ymd (e_paso3 w)) (ss_data s))
      as [d [ex|]]; cbn [resultado] in Er; rewrite <- Er; cbn [bind].
    - split; [reflexivity|]. split; [lia|]. split; [reflexivity|].
      split; [reflexivity|]. exact (Hm d (Some ex) eq_refl).
    - unfold botones. cbn [con_data ss_step].
      rewrite (proj2 (Z.eqb_neq _ _) N1), (proj2 (Z.eqb_neq _ _) N2).
      destruct c; try reflexivity.
      + now destruct (prev_step Doc _).
      + now destruct (next_step Doc _). }
  destruct (Z.eqb_spec (ss_step s) 4) as [E4|N4].
  { pose proof (ejecutar_paso4_resultado float_of_str (e_paso4 w) (ss_data s))
      as Er.
    pose proof (ejecutar_paso4_marco float_of_str (e_paso4 w) (ss_data s))
      as Hm.
    destruct (ejecutar_paso4 float_of_str (e_paso4 w) (ss_data s))
      as [d [ex|]]; cbn [resultado] in Er; rewrite <- Er; cbn [bind].
    - split; [reflexivity|]. split; [lia|]. split; [reflexivity|].
      split; [reflexivity|]. exact (Hm d (Some ex) eq_refl).
    - unfold botones. cbn [con_data ss_step].
      rewrite (proj2 (Z.eqb_neq _ _) N1), (proj2 (Z.eqb_neq _ _) N2).
      destruct c; try reflexivity.
      + now destruct (prev_step Doc _).
      + now destruct (next_step Doc _). }
  split; [lia|reflexivity].
Qed.

End CorridasScript.

(** A literal key that is not in a literal list of keys. *)
Ltac fuera_de_claves :=
  let H := fresh "H" in
  intros H; simpl in H;
  repeat (destruct H as [H|H]; [discriminate H|]);
  exact H.

Section CorridasInvariante.

Variable Doc : Type.
Variable DocxTemplate : string -> carga Doc.
Variable strftime_Ymd : pyval -> string.
Variable float_of_str : string -> result pyfloat.

(** What a step relies on was assigned by the steps before it, so a run
    that raised half way through the statements of its step leaves it
    as it was. *)
Lemma invariante_marco (s s' : sesion Doc) :
  1 <= ss_step s <= 4 ->
  ss_step s' = ss_step s -> ss_doc s' = ss_doc s ->
  (forall k : string, ~ In k (claves_del_paso (ss_step s)) ->
     dict_get (ss_data s') k = dict_get (ss_data s) k) ->
  (invariante Doc DocxTemplate s -> invariante Doc DocxTemplate s') /\
  (invariante_coordenadas s -> invariante_coordenadas s').
Proof.
  intros Hb Hst Hdoc Hm.
  assert (Hcases : ss_step s = 1 \/ ss_step s = 2 \/ ss_step s = 3 \/
                   ss_step s = 4) by lia.
  unfold invariante, invariante_coordenadas. rewrite Hst, Hdoc.
  destruct Hcases as [E|[E|[E|E]]]; rewrite E in *.
  - split.
    + intros _. repeat split; intros; lia.
    + intros _. split; intros; lia.
  - change (claves_del_paso 2) with claves_paso2 in Hm.
    rewrite (Hm "fechaCreacion") by fuera_de_claves.
    rewrite (Hm "tipoCoordenada") by fuera_de_claves.
    split.
    + intros (_ & H2 & _). repeat split; intros; try lia. now apply H2.
    + intros (C2 & _). split; [exact C2|intros; lia].
  - change (claves_del_paso 3) with claves_paso3 in Hm.
    rewrite (Hm "fechaCreacion") by fuera_de_claves.
    rewrite (Hm "tipoTransformador") by fuera_de_claves.
    rewrite (Hm "tipoAislamiento") by fuera_de_claves.
    rewrite (Hm "tipoCoordenada") by fuera_de_claves.
    rewrite (Hm "latitud") by fuera_de_claves.
    rewrite (Hm "longitud") by fuera_de_claves.
    split.
    + intros (_ & H2 & H3 & _).
      split; [lia|]. split; [exact H2|]. split; [exact H3|intros; lia].
    + tauto.
  - change (claves_del_paso 4) with claves_paso4 in Hm.
    rewrite (Hm "fechaCreacion") by fuera_de_claves.
    rewrite (Hm "tipoTransformador") by fuera_de_claves.
    rewrite (Hm "tipoAislamiento") by fuera_de_claves.
    rewrite (Hm "carTrafo_NroFases") by fuera_de_claves.
    rewrite (Hm "temperaturaPrueba") by fuera_de_claves.
    rewrite (Hm "tipoCoordenada") by fuera_de_claves.
    rewrite (Hm "latitud") by fuera_de_claves.
    rewrite (Hm "longitud") by fuera_de_claves.
    tauto.
Qed.

Lemma deja_conserva (s : sesion Doc) (w : entradas) (c : clic) :
  invariante Doc DocxTemplate s /\ invariante_coordenadas s ->
  invariante Doc DocxTemplate
    (deja Doc DocxTemplate strftime_Ymd float_of_str s w c) /\
  invariante_coordenadas
    (deja Doc DocxTemplate strftime_Ymd float_of_str s w c).
Proof.
  intros [Hi Hc]. unfold deja.
  pose proof (correr_paso_script Doc DocxTemplate strftime_Ymd float_of_str
                s w c) as Hs.
  destruct (correr_paso Doc DocxTemplate strftime_Ymd float_of_str s w c)
    as [[s' [e|ex]]|].
  - split.
    + exact (script_conserva_invariante Doc DocxTemplate strftime_Ymd
               float_of_str s s' w c e Hi Hs).
    + exact (script_conserva_coordenadas Doc DocxTemplate strftime_Ymd
               float_of_str s s' w c e Hi Hc Hs).
  - destruct Hs as (_ & Hb & Hst & Hdoc & Hm).
    destruct (invariante_marco s s' Hb Hst Hdoc Hm) as [H1 H2]. auto.
  - auto.
Qed.

Lemma coordenadas_alcanzable (s : sesion Doc) :
  alcanzable Doc DocxTemplate strftime_Ymd float_of_str s ->
  invariante Doc DocxTemplate s /\ invariante_coordenadas s.
Proof.
  induction 1 as [|s w c _ IH].
  - split.
    + unfold invariante. simpl. repeat split; intros; lia.
    + unfold invariante_coordenadas. simpl. split; intros; lia.
  - now apply deja_conserva.
Qed.

End CorridasInvariante.

(** ** The context and the runs of step 5 *)

Lemma py_index_meses (mes : Z) :
  1 <= mes <= 12 ->
  exists nombre,
    py_index meses (mes - 1) = Ok nombre /\
    nth_error meses (Z.to_nat (mes - 1)) = Some nombre.
Proof.
  intros Hm. unfold py_index.
  change (Z.of_nat (List.length meses)) with 12.
  rewrite (proj2 (Z.ltb_ge (mes - 1) 0)) by lia.
  rewrite (proj2 (Z.leb_le 0 (mes - 1))) by lia.
  rewrite (proj2 (Z.ltb_lt (mes - 1) 12)) by lia.
  cbn [andb].
  destruct (getitem_lt meses (Z.to_nat (mes - 1))) as (nombre & Hg & Hn).
  - change (List.length meses) with 12%nat. lia.
  - now exists nombre.
Qed.

Section Paso5Imagenes.

Variable Doc : Type.
Variable upper : string -> string.
Variable float_of_str : string -> result pyfloat.
Variable str_otro : pyval -> string.
Variable str_exn : exn -> string.
Variable str_float : pyfloat -> string.
Variable InlineImage : Doc -> string -> Z -> pyval.
Variable static_map_png : pyfloat -> pyfloat -> intento string.
Variable get_map_png_bytes : pyfloat -> pyfloat -> Z -> Z -> intento string.
Variable render_save : Doc -> dict -> intento string.

Lemma subir_get (s : sesion Doc) (datos datos' : dict) (key : string)
    (uploaded : option string) (k : string) :
  subir Doc InlineImage s datos key uploaded = Ok datos' ->
  dict_get datos' k
  = if String.eqb key k then Some (valor_subida InlineImage s uploaded)
    else dict_get datos k.
Proof.
  unfold subir, sesion_doc, valor_subida.
  destruct uploaded as [contenido|]; [destruct (ss_doc s) as [doc|]|];
    cbn [bind]; intros H; try discriminate H; injection H as <-;
    now rewrite dict_get_set.
Qed.

Lemma subir_ok (s : sesion Doc) (datos : dict) (key : string)
    (uploaded : option string) (doc : Doc) :
  ss_doc s = Some doc ->
  exists datos', subir Doc InlineImage s datos key uploaded = Ok datos'.
Proof.
  intros Hdoc. unfold subir, sesion_doc. rewrite Hdoc.
  destruct uploaded; cbn [bind]; eauto.
Qed.

Lemma imagenes_ok (s : sesion Doc) (u : subidas) (trifasico : bool)
    (datos : dict) (doc : Doc) :
  ss_doc s = Some doc ->
  exists datos', imagenes Doc InlineImage s u trifasico datos = Ok datos'.
Proof.
  intros Hdoc. unfold imagenes.
  destruct (subir_ok s datos "imgFichaTecnicaTrafo" (u_ficha u) doc Hdoc)
    as (d1 & ->). cbn [bind].
  destruct (subir_ok s d1 "imgPruebaMon1" (u_prueba1 u) doc Hdoc)
    as (d2 & ->). cbn [bind].
  destruct (subir_ok s d2 "imgPruebaMon2" (u_prueba2 u) doc Hdoc)
    as (d3 & ->). cbn [bind].
  destruct (subir_ok s d3 "imgPruebaMon3" (u_prueba3 u) doc Hdoc)
    as (d4 & ->). cbn [bind].
  destruct trifasico; [|eauto].
  exact (subir_ok s d4 "imgPruebaMon4" (u_prueba4 u) doc Hdoc).
Qed.

(** What the uploaders leave in the context. *)
Lemma imagenes_get (s : sesion Doc) (u : subidas) (trifasico : bool)
    (datos datos' : dict) :
  imagenes Doc InlineImage s u trifasico datos = Ok datos' ->
  (forall k : string, ~ In k claves_imagenes ->
     dict_get datos' k = dict_get datos k) /\
  dict_get datos' "imgFichaTecnicaTrafo"
  = Some (valor_subida InlineImage s (u_ficha u)) /\
  dict_get datos' "imgPruebaMon1"
  = Some (valor_subida InlineImage s (u_prueba1 u)) /\
  dict_get datos' "imgPruebaMon2"
  = Some (valor_subida InlineImage s (u_prueba2 u)) /\
  dict_get datos' "imgPruebaMon3"
  = Some (valor_subida InlineImage s (u_prueba3 u)) /\
  dict_get datos' "imgPruebaMon4"
  = if trifasico then Some (valor_subida InlineImage s (u_prueba4 u))
    else dict_get datos "imgPruebaMon4".
Proof.
  unfold imagenes. intros H.
  destruct (subir Doc InlineImage s datos "imgFichaTecnicaTrafo" (u_ficha u))
    as [d1|] eqn:E1; [cbn [bind] in H|discriminate H].
  destruct (subir Doc InlineImage s d1 "imgPruebaMon1" (u_prueba1 u))
    as [d2|] eqn:E2; [cbn [bind] in H|discriminate H].
  destruct (subir Doc InlineImage s d2 "imgPruebaMon2" (u_prueba2 u))
    as [d3|] eqn:E3; [cbn [bind] in H|discriminate H].
  destruct (subir Doc InlineImage s d3 "imgPruebaMon3" (u_prueba3 u))
    as [d4|] eqn:E4; [cbn [bind] in H|discriminate H].
  pose proof (fun k => subir_get s _ _ _ _ k E1) as G1.
  pose proof (fun k => subir_get s _ _ _ _ k E2) as G2.
  pose proof (fun k => subir_get s _ _ _ _ k E3) as G3.
  pose proof (fun k => subir_get s _ _ _ _ k E4) as G4.
  assert (G5 : forall k : string,
             dict_get datos' k
             = if trifasico && String.eqb "imgPruebaMon4" k
               then Some (valor_subida InlineImage s (u_prueba4 u))
               else dict_get d4 k).
  { intros k. destruct trifasico.
    - exact (subir_get s _ _ _ _ k H).
    - injection H as <-. reflexivity. }
  split.
  - intros k Hk. rewrite G5, G4, G3, G2, G1.
    unfold claves_imagenes in Hk. simpl in Hk.
    destruct (String.eqb_spec "imgPruebaMon4" k) as [E|_]; [tauto|].
    destruct (String.eqb_spec "imgPruebaMon3" k) as [E|_]; [tauto|].
    destruct (String.eqb_spec "imgPruebaMon2" k) as [E|_]; [tauto|].
    destruct (String.eqb_spec "imgPruebaMon1" k) as [E|_]; [tauto|].
    destruct (String.eqb_spec "imgFichaTecnicaTrafo" k) as [E|_]; [tauto|].
    now rewrite andb_false_r.
  - repeat split.
    + rewrite G5, G4, G3, G2, G1. now rewrite andb_false_r.
    + rewrite G5, G4, G3, G2. now rewrite andb_false_r.
    + rewrite G5, G4, G3. now rewrite andb_false_r.
    + rewrite G5, G4. now rewrite andb_false_r.
    + rewrite G5, G4, G3, G2, G1. now destruct trifasico.
Qed.

Lemma datos_paso5_get (data : dict) (k : pykey) :
  nodup_keys (map fst data) = true ->
  dict_get (datos_paso5 upper data) k
  = option_map (convertir_a_mayusculas upper) (dict_get data k).
Proof.
  intros H. rewrite (datos_paso5_map upper data H).
  apply dict_get_map_values.
Qed.

(** X18. The context step 5 builds for the template: under every key
    of the session it holds the conversion to upper case of the value of
    the session; under the key of each uploader of the branch it holds
    the image of the uploaded file, or [None] when nothing was uploaded,
    so the key is defined either way; the fifth image key,
    [imgPruebaMon4], is assigned for three phases only. Nothing but these
    keys and [imgMapsProyecto] differs from the converted session. *)
Theorem step5_context_keys (s : sesion Doc) (u : subidas) (nf : pyval)
    (datos : dict) (avisos : list aviso) :
  nodup_keys (map fst (ss_data s)) = true ->
  dict_get (ss_data s) "carTrafo_NroFases" = Some nf ->
  paso5 Doc upper float_of_str str_otro str_exn str_float InlineImage
    static_map_png get_map_png_bytes render_save s u None
  = Ok (Pagina datos avisos) ->
  (forall k : string, ~ In k claves_imagenes -> k <> "imgMapsProyecto" ->
     dict_get datos k
     = option_map (convertir_a_mayusculas upper) (dict_get (ss_data s) k)) /\
  dict_get datos "imgFichaTecnicaTrafo"
  = Some (valor_subida InlineImage s (u_ficha u)) /\
  dict_get datos "imgPruebaMon1"
  = Some (valor_subida InlineImage s (u_prueba1 u)) /\
  dict_get datos "imgPruebaMon2"
  = Some (valor_subida InlineImage s (u_prueba2 u)) /\
  dict_get datos "imgPruebaMon3"
  = Some (valor_subida InlineImage s (u_prueba3 u)) /\
  dict_get datos "imgPruebaMon4"
  = if py_eq_int nf 3
    then Some (valor_subida InlineImage s (u_prueba4 u))
    else option_map (convertir_a_mayusculas upper)
           (dict_get (ss_data s) "imgPruebaMon4").
Proof.
  intros Hnd Hnf H. unfold paso5, dict_getitem in H.
  rewrite Hnf in H. cbn [bind] in H.
  destruct (imagenes Doc InlineImage s u (py_eq_int nf 3)
              (datos_paso5 upper (ss_data s))) as [d1|] eqn:Ei;
    [cbn [bind] in H|discriminate H].
  destruct (mapa Doc float_of_str str_otro str_exn str_float InlineImage
              static_map_png get_map_png_bytes s d1) as [[d2 av]|] eqn:Em;
    [cbn [bind fst snd] in H|discriminate H].
  injection H as <- <-.
  pose proof (fun k => mapa_marco Doc float_of_str str_otro str_exn str_float
                         InlineImage static_map_png get_map_png_bytes
                         s d1 d2 av k Em) as Hmarco.
  destruct (imagenes_get s u _ _ _ Ei) as (Hotras & H0 & H1 & H2 & H3 & H4).
  split; [|repeat split].
  - intros k Hk Hk'. rewrite (Hmarco k Hk'), (Hotras k Hk).
    now apply datos_paso5_get.
  - rewrite Hmarco by discriminate. exact H0.
  - rewrite Hmarco by discriminate. exact H1.
  - rewrite Hmarco by discriminate. exact H2.
  - rewrite Hmarco by discriminate. exact H3.
  - rewrite Hmarco by discriminate. rewrite H4.
    destruct (py_eq_int nf 3); [reflexivity|].
    now apply datos_paso5_get.
Qed.

End Paso5Imagenes.

Section Paso5Alcanzable.

Variable Doc : Type.
Variable DocxTemplate : string -> carga Doc.
Variable strftime_Ymd : pyval -> string.
Variable upper : string -> string.
Variable float_of_str : string -> result pyfloat.
Variable str_otro : pyval -> string.
Variable str_exn : exn -> string.
Variable str_float : pyfloat -> string.
Variable InlineImage : Doc -> string -> Z -> pyval.
Variable static_map_png : pyfloat -> pyfloat -> intento string.
Variable get_map_png_bytes : pyfloat -> pyfloat -> Z -> Z -> intento string.
Variable render_save : Doc -> dict -> intento string.

(** A run of step 5 on a session that holds what the step relies on. *)
Lemma paso5_sobre_invariantes (s : sesion Doc) (u : subidas)
    (g : option (Z * Z * Z)) :
  invariante Doc DocxTemplate s ->
  invariante_coordenadas s ->
  ss_step s = 5 ->
  (forall dia mes anio, g = Some (dia, mes, anio) -> 1 <= mes <= 12) ->
  exists out,
    paso5 Doc upper float_of_str str_otro str_exn str_float InlineImage
      static_map_png get_map_png_bytes render_save s u g = Ok out /\
    ~ In (AvisoError "Faltan coordenadas para el mapa.") (avisos_de out) /\
    match g with
    | None => exists datos avisos, out = Pagina datos avisos
    | Some (dia, mes, anio) =>
        (exists doc datos avisos m,
           ss_doc s = Some doc /\
           render_save doc datos = Fallido m /\
           out = FallaDocumento avisos m) \/
        (exists datos avisos docx nombre,
           out = Descarga datos avisos docx /\
           nth_error meses (Z.to_nat (mes - 1)) = Some nombre /\
           dict_get datos "dia" = Some (VInt dia) /\
           dict_get datos "mes" = Some (VStr nombre) /\
           dict_get datos "anio" = Some (VInt anio))
    end.
Proof.
  intros (_ & _ & I3 & I4) (C2 & C3) H5 Hmes.
  destruct (I3 ltac:(lia)) as (t & a & doc & _ & _ & Hdoc & _).
  destruct (I4 ltac:(lia)) as (t' & txt & _ & Hnf & _).
  destruct (C2 ltac:(lia)) as (tc & Htc).
  destruct (C3 ltac:(lia)) as (lat & lon & Hlat & Hlon & Nlat & Nlon).
  unfold paso5, dict_getitem. rewrite Hnf. cbn [bind].
  destruct (imagenes_ok Doc InlineImage s u (py_eq_int (VInt (fases_de t')) 3)
              (datos_paso5 upper (ss_data s)) doc Hdoc) as (d1 & ->).
  cbn [bind].
  destruct (mapa_contenido Doc float_of_str str_otro str_exn str_float
              InlineImage static_map_png get_map_png_bytes
              s d1 _ _ _ Htc Hlat Hlon) as (d2 & av & -> & Hcases).
  cbn [bind fst snd].
  assert (Hb : py_bool (VStr lat) && py_bool (VStr lon) = true).
  { cbn [py_bool]. apply andb_true_iff.
    split; apply negb_true_iff, String.eqb_neq; assumption. }
  rewrite Hb in Hcases.
  assert (Hav : ~ In (AvisoError "Faltan coordenadas para el mapa.") av).
  { destruct Hcases as (previos & Hprev & Hc).
    assert (Hp : ~ In (AvisoError "Faltan coordenadas para el mapa.") previos).
    { intros Hin.
      assert (Hex : existsb es_error previos = true)
        by (apply existsb_exists; eexists; split; [exact Hin|reflexivity]).
      congruence. }
    destruct Hc as [(img & _ & ->)|(m & _ & ->)]; [exact Hp|].
    intros Hin. apply in_app_or in Hin. destruct Hin as [Hin|[Hin|[]]].
    - exact (Hp Hin).
    - discriminate Hin. }
  destruct g as [[[dia mes] anio]|].
  - unfold generar_word, sesion_doc. rewrite Hdoc. cbn [bind].
    destruct (py_index_meses mes (Hmes dia mes anio eq_refl))
      as (nombre & -> & Hn).
    cbn [bind].
    destruct (render_save doc _) as [docx|m] eqn:Er.
    + eexists. split; [reflexivity|]. split; [exact Hav|].
      right. eexists _, _, _, nombre. split; [reflexivity|].
      split; [exact Hn|]. repeat split; now dict_simpl.
    + eexists. split; [reflexivity|]. split; [exact Hav|]. left.
      eexists doc, _, _, m. split; [reflexivity|]. split; [exact Er|reflexivity].
  - eexists. split; [reflexivity|]. split; [exact Hav|]. eauto.
Qed.

(** X19. Step 5 cannot fail on a session the wizard led to it: for
    every session reached from the first one that is at step 5, every
    run of the step returns, whatever was uploaded and whatever the map
    does. The coordinates went through "Siguiente" of step 2, so neither
    is empty and "Faltan coordenadas para el mapa." is never shown.
    Without a click the run shows the page; with a click on "Generar
    Word" it offers the document, whose context holds the day, the year
    and the name of the month, or it ends in the exception of
    [doc.render] or [doc.save], the only one that can leave the step. *)
Theorem step5_reachable_run_succeeds (s : sesion Doc) (u : subidas)
    (g : option (Z * Z * Z)) :
  alcanzable Doc DocxTemplate strftime_Ymd float_of_str s ->
  ss_step s = 5 ->
  (forall dia mes anio, g = Some (dia, mes, anio) -> 1 <= mes <= 12) ->
  exists out,
    paso5 Doc upper float_of_str str_otro str_exn str_float InlineImage
      static_map_png get_map_png_bytes render_save s u g = Ok out /\
    ~ In (AvisoError "Faltan coordenadas para el mapa.") (avisos_de out) /\
    match g with
    | None => exists datos avisos, out = Pagina datos avisos
    | Some (dia, mes, anio) =>
        (exists avisos m, out = FallaDocumento avisos m) \/
        (exists datos avisos docx nombre,
           out = Descarga datos avisos docx /\
           nth_error meses (Z.to_nat (mes - 1)) = Some nombre /\
           dict_get datos "dia" = Some (VInt dia) /\
           dict_get datos "mes" = Some (VStr nombre) /\
           dict_get datos "anio" = Some (VInt anio))
    end.
Proof.
  intros Hs H5 Hmes.
  destruct (coordenadas_alcanzable Doc DocxTemplate strftime_Ymd
              float_of_str s Hs) as [Hi Hc].
  destruct (paso5_sobre_invariantes s u g Hi Hc H5 Hmes)
    as (out & Hrun & Hno & Hg).
  exists out. split; [exact Hrun|]. split; [exact Hno|].
  destruct g as [[[dia mes] anio]|]; [|exact Hg].
  destruct Hg as [(doc & datos & avisos & m & _ & _ & Hf)|Hd].
  - left. now exists avisos, m.
  - right. exact Hd.
Qed.

End Paso5Alcanzable.

Section AsistenteAlcanzable.

Variable Doc : Type.
Variable DocxTemplate : string -> carga Doc.
Variable strftime_Ymd : pyval -> string.
Variable upper : string -> string.
Variable float_of_str : string -> result pyfloat.
Variable str_otro : pyval -> string.
Variable str_exn : exn -> string.
Variable str_float : pyfloat -> string.
Variable InlineImage : Doc -> string -> Z -> pyval.
Variable static_map_png : pyfloat -> pyfloat -> intento string.
Variable get_map_png_bytes : pyfloat -> pyfloat -> Z -> Z -> intento string.
Variable render_save : Doc -> dict -> intento string.

(** X9. Every session the application can be in, the first one and the
    one any run leaves, whether the run completed or raised half way
    through the assignments of its step, has a step from 1 to 5; from
    step 2 on it holds the formatted date of step 1, from step 3 on the
    selections of step 2 and the template that was loaded for the
    selected kind of transformer, and from step 4 on the number of
    phases of that kind (3 exactly for "Trifásico") and the text of the
    temperature. *)
Theorem wizard_invariant (s : sesion Doc) :
  alcanzable Doc DocxTemplate strftime_Ymd float_of_str s ->
  invariante Doc DocxTemplate s.
Proof.
  intros Hs.
  exact (proj1 (coordenadas_alcanzable Doc DocxTemplate strftime_Ymd
                  float_of_str s Hs)).
Qed.

(** X11. From a session the application can be in, also one a run left
    that raised, no run raises [KeyError], [IndexError], an error of the
    kind of insulation or any other exception of the program's own. A
    run completes; or it is a run of step 4 that raises what [float]
    raises on the text of the temperature; or it is "Siguiente" of step
    2 and the load of the template raises something other than
    [FileNotFoundError]; or it is "Generar Word" of step 5 and
    [doc.render] or [doc.save] raises. *)
Theorem wizard_runs_raise_only_from_float_and_template (s : sesion Doc)
    (w : entradas) (c : clic) (u : subidas) (g : option (Z * Z * Z)) :
  alcanzable Doc DocxTemplate strftime_Ymd float_of_str s ->
  (forall dia mes anio, g = Some (dia, mes, anio) -> 1 <= mes <= 12) ->
  (exists f,
     termina Doc DocxTemplate strftime_Ymd upper float_of_str str_otro
       str_exn str_float InlineImage static_map_png get_map_png_bytes
       render_save s w c u g = Ok f /\
     forall avisos m, f <> FinPaso5 (FallaDocumento avisos m)) \/
  (exists txt ex,
     ss_step s = 4 /\
     dict_get (ss_data s) "temperaturaPrueba" = Some (VStr txt) /\
     float_of_str txt = Raise ex /\
     termina Doc DocxTemplate strftime_Ymd upper float_of_str str_otro
       str_exn str_float InlineImage static_map_png get_map_png_bytes
       render_save s w c u g = Raise ex) \/
  (exists t ex,
     ss_step s = 2 /\ c = Siguiente /\
     DocxTemplate (plantilla_de t) = OtraExcepcion ex /\
     termina Doc DocxTemplate strftime_Ymd upper float_of_str str_otro
       str_exn str_float InlineImage static_map_png get_map_png_bytes
       render_save s w c u g = Raise ex) \/
  (exists doc datos avisos m,
     ss_step s = 5 /\ g <> None /\
     ss_doc s = Some doc /\
     render_save doc datos = Fallido m /\
     termina Doc DocxTemplate strftime_Ymd upper float_of_str str_otro
       str_exn str_float InlineImage static_map_png get_map_png_bytes
       render_save s w c u g = Ok (FinPaso5 (FallaDocumento avisos m))).
Proof.
  intros Hs Hmes.
  destruct (coordenadas_alcanzable Doc DocxTemplate strftime_Ymd
              float_of_str s Hs) as [Hi Hc].
  unfold termina.
  pose proof (correr_paso_script Doc DocxTemplate strftime_Ymd float_of_str
                s w c) as Hcs.
  destruct (correr_paso Doc DocxTemplate strftime_Ymd float_of_str s w c)
    as [[s' [e|ex]]|].
  - left. exists (FinEfecto e). split; [reflexivity|discriminate].
  - destruct Hcs as (Hr & _).
    destruct (script_sobre_invariante Doc DocxTemplate strftime_Ymd
                float_of_str s w c Hi)
      as [(s1 & e & H)|[(txt & ex' & H4 & Htp & Hf & H)
                       |(t & ex' & H2 & Hc' & Hd & H)]];
      rewrite H in Hr; [discriminate Hr| |]; injection Hr as <-.
    + right. left. exists txt, ex'. auto.
    + right. right. left. exists t, ex'. auto.
  - destruct Hcs as (Hn & _).
    assert (H5 : ss_step s = 5) by (destruct Hi as (Hb & _); lia).
    rewrite (proj2 (Z.eqb_eq _ _) H5).
    destruct (paso5_sobre_invariantes Doc DocxTemplate upper float_of_str
                str_otro str_exn str_float InlineImage static_map_png
                get_map_png_bytes render_save s u g Hi Hc H5 Hmes)
      as (out & Hrun & _ & Hg).
    rewrite Hrun. cbn [bind].
    destruct g as [[[dia mes] anio]|].
    + destruct Hg as [(doc & datos & avisos & m & Hdoc & Hf & ->)
                     |(datos & avisos & docx & nombre & -> & _)].
      * right. right. right. exists doc, datos, avisos, m.
        split; [exact H5|]. split; [discriminate|]. auto.
      * left. eexists. split; [reflexivity|discriminate].
    + destruct Hg as (datos & avisos & ->).
      left. eexists. split; [reflexivity|discriminate].
Qed.

End AsistenteAlcanzable.

Lemma alcanzable_paso5_ejemplo :
  alcanzable string cargar_ejemplo strftime_ejemplo float_of_digits
    sesion_paso5_ejemplo.
Proof.
  unfold sesion_paso5_ejemplo, avanzar_ejemplo.
  do 4 apply alcanzable_run. apply alcanzable_inicial.
Qed.

Lemma alcanzable_tras_fallo_ejemplo :
  alcanzable string cargar_ejemplo strftime_ejemplo float_of_digits
    sesion_tras_fallo_ejemplo.
Proof.
  unfold sesion_tras_fallo_ejemplo, fallar_ejemplo.
  do 4 apply alcanzable_run. apply alcanzable_inicial.
Qed.

Lemma wizard_invariant_witness :
  script string cargar_ejemplo strftime_ejemplo float_of_digits
    (fallar_ejemplo (fallar_ejemplo (fallar_ejemplo (sesion_inicial string))))
    (entradas_ejemplo "20 C") Siguiente
  = Raise (ValueError "could not convert string to float") /\
  ss_step sesion_tras_fallo_ejemplo = 4 /\
  dict_get (ss_data sesion_tras_fallo_ejemplo) "resMedida_AVSB"
  = Some (VFloat (res_medida_avsb widgets_ejemplo)) /\
  dict_get (ss_data sesion_tras_fallo_ejemplo) "comentariosPrueba" = None /\
  invariante string cargar_ejemplo sesion_tras_fallo_ejemplo.
Proof.
  split; [vm_compute; reflexivity|]. split; [vm_compute; reflexivity|].
  split; [vm_compute; reflexivity|]. split; [vm_compute; reflexivity|].
  exact (wizard_invariant string cargar_ejemplo strftime_ejemplo
           float_of_digits sesion_tras_fallo_ejemplo
           alcanzable_tras_fallo_ejemplo).
Defined.

Lemma wizard_runs_raise_only_from_float_and_template_witness :
  termina string cargar_ejemplo strftime_ejemplo upper_ascii_str
    float_of_digits str_otro_ejemplo str_exn_ejemplo str_float_ejemplo
    imagen_ejemplo sin_red satelite_ejemplo render_ejemplo
    sesion_tras_fallo_ejemplo (entradas_ejemplo "20 C") Anterior
    subidas_ejemplo (Some (4, 11, 2026))
  = Raise (ValueError "could not convert string to float").
Proof.
  destruct (wizard_runs_raise_only_from_float_and_template string
              cargar_ejemplo strftime_ejemplo upper_ascii_str float_of_digits
              str_otro_ejemplo str_exn_ejemplo str_float_ejemplo
              imagen_ejemplo sin_red satelite_ejemplo render_ejemplo
              sesion_tras_fallo_ejemplo (entradas_ejemplo "20 C") Anterior
              subidas_ejemplo (Some (4, 11, 2026))
              alcanzable_tras_fallo_ejemplo)
    as [(f & Hf & _)|[(txt & ex & _ & Htp & Hx & Hr)
                     |[(t & ex & H2 & _)|(doc & datos & avisos & m & H5 & _)]]].
  - intros dia mes anio H. injection H as _ <- _. lia.
  - vm_compute in Hf. discriminate Hf.
  - rewrite Hr. vm_compute in Htp. injection Htp as <-.
    vm_compute in Hx. injection Hx as <-. reflexivity.
  - vm_compute in H2. discriminate H2.
  - vm_compute in H5. discriminate H5.
Defined.

Lemma step5_map_failures_are_contained_witness :
  exists datos' avisos,
    mapa string float_of_digits str_otro_ejemplo str_exn_ejemplo
      str_float_ejemplo imagen_ejemplo sin_red satelite_ejemplo
      {| ss_step := 5;
         ss_data := [ (KStr "tipoCoordenada", VStr "Urbano");
                      (KStr "latitud", VStr "3");
                      (KStr "longitud", VStr "76") ];
         ss_doc := Some "templates/templateTRAFO1FS.docx" |}
      [ (KStr "latitud", VStr "3"); (KStr "longitud", VStr "76") ]
    = Ok (datos', avisos) /\
    datos' = [ (KStr "latitud", VStr "3"); (KStr "longitud", VStr "76") ] /\
    avisos = [ AvisoError
                 "Coordenadas inválidas para el mapa. HTTPError 503" ].
Proof.
  destruct (step5_map_failures_are_contained string float_of_digits
              str_otro_ejemplo str_exn_ejemplo str_float_ejemplo
              imagen_ejemplo sin_red satelite_ejemplo
              {| ss_step := 5;
                 ss_data := [ (KStr "tipoCoordenada", VStr "Urbano");
                              (KStr "latitud", VStr "3");
                              (KStr "longitud", VStr "76") ];
                 ss_doc := Some "templates/templateTRAFO1FS.docx" |}
              [ (KStr "latitud", VStr "3"); (KStr "longitud", VStr "76") ]
              (VStr "Urbano") (VStr "3") (VStr "76")
              eq_refl eq_refl eq_refl)
    as (datos' & avisos & Hm & _).
  exists datos', avisos. split; [exact Hm|].
  vm_compute in Hm. injection Hm as <- <-. split; reflexivity.
Defined.

Lemma step5_context_keys_witness :
  dict_get (fst pagina_ejemplo) "tipoAislamiento" = Some (VStr "SECO") /\
  dict_get (fst pagina_ejemplo) "imgFichaTecnicaTrafo"
  = Some (VOther "InlineImage ficha.png") /\
  dict_get (fst pagina_ejemplo) "imgPruebaMon1" = Some VNone /\
  dict_get (fst pagina_ejemplo) "imgPruebaMon4" = None.
Proof.
  destruct (step5_context_keys string upper_ascii_str float_of_digits
              str_otro_ejemplo str_exn_ejemplo str_float_ejemplo
              imagen_ejemplo sin_red satelite_ejemplo render_ejemplo
              sesion_paso5_ejemplo subidas_ejemplo (VInt 1)
              (fst pagina_ejemplo) (snd pagina_ejemplo)
              ltac:(vm_compute; reflexivity)
              ltac:(vm_compute; reflexivity)
              ltac:(vm_compute; reflexivity))
    as (Hk & H0 & H1 & _ & _ & H4).
  split; [|split; [exact H0|split; [exact H1|exact H4]]].
  rewrite (Hk "tipoAislamiento").
  - vm_compute. reflexivity.
  - unfold claves_imagenes. simpl.
    intros [H|[H|[H|[H|[H|[]]]]]]; discriminate H.
  - discriminate.
Defined.

Lemma step5_reachable_run_succeeds_witness :
  exists out,
    paso5_ejemplo (Some (4, 11, 2026)) = Ok out /\
    ~ In (AvisoError "Faltan coordenadas para el mapa.") (avisos_de out).
Proof.
  destruct (step5_reachable_run_succeeds string cargar_ejemplo
              strftime_ejemplo upper_ascii_str float_of_digits
              str_otro_ejemplo str_exn_ejemplo str_float_ejemplo
              imagen_ejemplo sin_red satelite_ejemplo render_ejemplo
              sesion_paso5_ejemplo subidas_ejemplo (Some (4, 11, 2026))
              alcanzable_paso5_ejemplo
              ltac:(vm_compute; reflexivity))
    as (out & Hrun & Hno & _).
  - intros dia mes anio H. injection H as _ <- _. lia.
  - exists out. split; [exact Hrun|exact Hno].
Defined.
